(** * KafkaConsumer2: a shallow embedding of src/Storages/Kafka/KafkaConsumer2.cpp

    The consumer object is a record of its data members; its member
    functions are computations in a small state-and-exception monad over a
    [World] that holds the object, the history of calls made to the
    outside (the stop flag, the cppkafka client, the steady clock) and the
    signals sent to ProfileEvents and CurrentMetrics.  The outside is an
    [Environment]: it answers every call as a function of the history so
    far, so a statement quantified over the environment holds for every
    behaviour of the broker client and of the thread that sets the stop
    flag.  Log lines are left out; the client calls made to format one are
    not. *)

From Stdlib Require Import Ascii String.
From Stdlib Require Import ZArith List Bool Lia Arith.
From Stdlib Require Import Strings.Byte.
From Stdlib Require Import Sorted.
From Stdlib Require OrderedTypeEx.
Import ListNotations.
Open Scope Z_scope.

(** ** The values of the client library that the consumer reads *)

Module cppkafka.

(** rd_kafka_resp_err_t, carried by cppkafka::Error; [Error::operator bool]
    is "differs from RD_KAFKA_RESP_ERR_NO_ERROR". *)
Definition Error := Z.
Definition RD_KAFKA_RESP_ERR_NO_ERROR : Error := 0.
Definition RD_KAFKA_RESP_ERR__NO_OFFSET : Error := -168.
Definition RD_KAFKA_RESP_ERR__PARTITION_EOF : Error := -191.

Definition is_error (e : Error) : bool := negb (e =? RD_KAFKA_RESP_ERR_NO_ERROR).

Module TopicPartition.
Record t := make { get_topic : string; get_partition : Z; get_offset : Z }.
End TopicPartition.

Definition TopicPartitionList := list TopicPartition.t.

(** cppkafka::Buffer: [get_data] is the data pointer, [None] for the null
    pointer of a message that carries no payload, and [get_size] the number
    of bytes behind it. *)
Module Buffer.
Record t := make { get_data : option (list byte) }.
Definition get_size (b : t) : nat :=
  match get_data b with Some bytes => length bytes | None => 0%nat end.
End Buffer.

Module Message.
Record t := make {
  get_topic : string;
  get_partition : Z;
  get_offset : Z;
  get_error : Error;
  get_payload : Buffer.t
}.
Definition is_eof (m : t) : bool := get_error m =? RD_KAFKA_RESP_ERR__PARTITION_EOF.
End Message.

(** A partition queue handle, as obtained from get_partition_queue. *)
Record Queue := queue_for { queue_partition : TopicPartition.t }.

End cppkafka.
Import cppkafka.

(** ** KafkaConsumer2::TopicPartition and its order *)

Record TopicPartition := mkTopicPartition {
  topic : string;
  partition_id : Z;    (* int32_t *)
  offset : Z           (* int64_t *)
}.

Definition TopicPartitions := list TopicPartition.

(** std::tie(a0, a1, a2) < std::tie(b0, b1, b2): the lexicographic order of
    tuples, written with [<] of the components only, as the standard
    library does. *)
Definition tie_lt (a b : string * Z * Z) : bool :=
  let '(a0, a1, a2) := a in
  let '(b0, b1, b2) := b in
  if String.ltb a0 b0 then true
  else if String.ltb b0 a0 then false
  else if a1 <? b1 then true
  else if b1 <? a1 then false
  else a2 <? b2.

(** KafkaConsumer2::TopicPartition::operator< *)
Definition TopicPartition_lt (a b : TopicPartition) : bool :=
  tie_lt (topic a, partition_id a, offset a) (topic b, partition_id b, offset b).

(** Key equivalence of a container ordered by [operator<]: neither is
    less. *)
Definition equiv_key (a b : TopicPartition) : bool :=
  negb (TopicPartition_lt a b) && negb (TopicPartition_lt b a).

(** ** The Queue Set *)

(** Modelled from the spec: the declaration of [queues] is in
    KafkaConsumer2.h, which is not among the sources; the spec calls it a
    mapping from TopicPartition to a queue handle with one entry per
    assigned partition, and the code uses [clear], [emplace] and [at] on
    it.  It is kept as a list of entries, one per key, in the order of
    [operator<].  The spec has the offset play no part in the identity of a
    queue, whereas [operator<] compares it: the properties of the lookup
    are stated for the two cases in which this makes no difference, a key
    that is itself stored and a key whose topic and partition_id no stored
    key has. *)
Definition Queues := list (TopicPartition * Queue).

Definition keys (m : Queues) : list TopicPartition := map fst m.

(** std::map::emplace: no effect when an equivalent key is present. *)
Fixpoint emplace (k : TopicPartition) (v : Queue) (m : Queues) : Queues :=
  match m with
  | [] => [(k, v)]
  | (k', v') :: rest =>
      if TopicPartition_lt k k' then (k, v) :: m
      else if TopicPartition_lt k' k then (k', v') :: emplace k v rest
      else m
  end.

(** std::map::at: [None] stands for the std::out_of_range it throws. *)
Fixpoint at_ (m : Queues) (k : TopicPartition) : option Queue :=
  match m with
  | [] => None
  | (k', v') :: rest => if equiv_key k k' then Some v' else at_ rest k
  end.

(** ** The consumer object *)

(** Modelled from the spec: the enum is declared in KafkaConsumer2.h, which
    is not among the sources; these are the enumerators the spec lists and
    the member functions use. *)
Inductive StalledStatus :=
| NOT_STALLED
| NO_MESSAGES_RETURNED
| CONSUMER_STOPPED
| ERRORS_RETURNED.

Definition StalledStatus_eqb (a b : StalledStatus) : bool :=
  match a, b with
  | NOT_STALLED, NOT_STALLED
  | NO_MESSAGES_RETURNED, NO_MESSAGES_RETURNED
  | CONSUMER_STOPPED, CONSUMER_STOPPED
  | ERRORS_RETURNED, ERRORS_RETURNED => true
  | _, _ => false
  end.

Definition Messages := list Message.t.

(** The data members the member functions read and write; [consumer], [log]
    and the reference [stopped] are the outside, see below. *)
Record KafkaConsumer2 := mkKafkaConsumer2 {
  batch_size : Z;
  poll_timeout : Z;
  topics : list string;
  messages : Messages;
  current : nat;                       (* Messages::const_iterator, as an index *)
  assignment : option TopicPartitions;
  queues : Queues;
  needs_offset_update : bool;
  stalled_status : StalledStatus
}.

Definition set_messages (v : Messages) (k : KafkaConsumer2) : KafkaConsumer2 :=
  mkKafkaConsumer2 (batch_size k) (poll_timeout k) (topics k) v (current k)
    (assignment k) (queues k) (needs_offset_update k) (stalled_status k).
Definition set_current (v : nat) (k : KafkaConsumer2) : KafkaConsumer2 :=
  mkKafkaConsumer2 (batch_size k) (poll_timeout k) (topics k) (messages k) v
    (assignment k) (queues k) (needs_offset_update k) (stalled_status k).
Definition set_assignment (v : option TopicPartitions) (k : KafkaConsumer2) : KafkaConsumer2 :=
  mkKafkaConsumer2 (batch_size k) (poll_timeout k) (topics k) (messages k) (current k)
    v (queues k) (needs_offset_update k) (stalled_status k).
Definition set_queues (v : Queues) (k : KafkaConsumer2) : KafkaConsumer2 :=
  mkKafkaConsumer2 (batch_size k) (poll_timeout k) (topics k) (messages k) (current k)
    (assignment k) v (needs_offset_update k) (stalled_status k).
Definition set_needs_offset_update (v : bool) (k : KafkaConsumer2) : KafkaConsumer2 :=
  mkKafkaConsumer2 (batch_size k) (poll_timeout k) (topics k) (messages k) (current k)
    (assignment k) (queues k) v (stalled_status k).
Definition set_stalled_status (v : StalledStatus) (k : KafkaConsumer2) : KafkaConsumer2 :=
  mkKafkaConsumer2 (batch_size k) (poll_timeout k) (topics k) (messages k) (current k)
    (assignment k) (queues k) (needs_offset_update k) v.

(** [messages.begin()] is index 0 and [messages.end()] the length. *)
Definition at_end (k : KafkaConsumer2) : bool := (current k =? length (messages k))%nat.
Definition at_begin (k : KafkaConsumer2) : bool := (current k =? 0)%nat.

(** [*current]; defined for every iterator the code can hold, which stays
    within [begin, end]. *)
Definition deref (k : KafkaConsumer2) : option Message.t := nth_error (messages k) (current k).

(** ReadBufferFromMemory(data, size): a read-only view of [size] bytes at
    [data]. *)
Record ReadBufferFromMemory := mkReadBuffer {
  buffer_data : option (list byte);
  buffer_size : nat
}.
Definition ReadBufferPtr := option ReadBufferFromMemory.   (* nullptr is None *)

(** ** The outside world *)

Inductive ProfileEvent :=
| KafkaRebalanceRevocations
| KafkaRebalanceAssignments
| KafkaRebalanceErrors
| KafkaMessagesPolled
| KafkaCommitFailures
| KafkaCommits
| KafkaConsumerErrors.

Inductive Metric :=
| KafkaAssignedPartitions
| KafkaConsumersWithAssignment.

Inductive Signal :=
| Increment (e : ProfileEvent) (amount : Z)
| MetricAdd (m : Metric) (amount : Z)
| MetricSub (m : Metric) (amount : Z).

(** The group events served inside a poll of the consumer queue. *)
Inductive Rebalance :=
| Assigned (tpl : TopicPartitionList)
| Revoked (tpl : TopicPartitionList)
| RebalanceError (err : Error).

(** Calls that leave the object, most recent first in a history. *)
Inductive Call :=
| LoadStopped
| ConsumeBatch (q : Queue) (max_batch_size : Z) (timeout : Z)
| Commit (tpl : TopicPartitionList)
| Poll (timeout : Z)
| Assign (tpl : TopicPartitionList)
| GetPartitionQueue (tp : TopicPartition.t)
| GetSubscription
| Unsubscribe
| GetMetadata
| GetAssignment
| GetOffsetsPosition (tpl : TopicPartitionList)
| Now.

Definition History := list Call.

Record Environment := mkEnvironment {
  (* the value a load of the atomic stop flag observes *)
  stopped : History -> bool;
  (* Queue::consume_batch *)
  consume_batch : History -> Queue -> Z -> Z -> Messages;
  (* Consumer::commit: None on success, Some e for a HandleException of error e *)
  commit_outcome : History -> TopicPartitionList -> option Error;
  (* Consumer::poll: the callbacks it serves, then the message or none *)
  poll_outcome : History -> list Rebalance * option Message.t;
  (* Consumer::get_subscription: the topics, or a HandleException *)
  subscription : History -> Error + list string;
  (* Consumer::unsubscribe: None on success *)
  unsubscribe_outcome : History -> option Error;
  (* Consumer::get_metadata: topic names with their partition counts *)
  metadata : History -> Error + list (string * nat);
  (* std::chrono::steady_clock::now(), in milliseconds *)
  steady_clock : History -> Z;
  (* Consumer::get_assignment *)
  client_assignment : History -> TopicPartitionList;
  (* whether the logger formats a line of level trace; LOG_TRACE is a macro
     that is not among the sources, and its arguments are evaluated when
     it does *)
  log_trace : History -> bool
}.

Inductive Exception :=
| out_of_range                 (* std::map::at *)
| HandleException (e : Error). (* cppkafka *)

Inductive Result (A : Type) :=
| Normal (a : A)
| Thrown (e : Exception)
| Aborted.                     (* a failed assertion in a debug build *)
Arguments Normal {A} a.
Arguments Thrown {A} e.
Arguments Aborted {A}.

Record World := mkWorld {
  this : KafkaConsumer2;
  history : History;
  signals : list Signal
}.

Definition M (A : Type) := World -> Result A * World.

Definition ret {A} (a : A) : M A := fun w => (Normal a, w).

Definition bind {A B} (c : M A) (f : A -> M B) : M B :=
  fun w =>
    match c w with
    | (Normal a, w') => f a w'
    | (Thrown e, w') => (Thrown e, w')
    | (Aborted, w') => (Aborted, w')
    end.

Notation "x <- c ;; k" := (bind c (fun x => k))
  (at level 61, c at next level, right associativity).
Notation "c ;;; k" := (bind c (fun _ => k))
  (at level 61, right associativity).

Definition throw {A} (e : Exception) : M A := fun w => (Thrown e, w).

Definition get_this : M KafkaConsumer2 := fun w => (Normal (this w), w).

Definition modify (f : KafkaConsumer2 -> KafkaConsumer2) : M unit :=
  fun w => (Normal tt, mkWorld (f (this w)) (history w) (signals w)).

Definition signal (s : Signal) : M unit :=
  fun w => (Normal tt, mkWorld (this w) (history w) (s :: signals w)).

(** A call to the outside: the answer is read off the history so far, and
    the call is then recorded. *)
Definition call {A} (c : Call) (answer : History -> A) : M A :=
  fun w => (Normal (answer (history w)), mkWorld (this w) (c :: history w) (signals w)).

(** A look at the outside that is no call of the client. *)
Definition ask {A} (answer : History -> A) : M A :=
  fun w => (Normal (answer (history w)), w).

(** try { body } catch (const cppkafka::HandleException & e) { handler } *)
Definition try_catch_HandleException {A} (body : M A) (handler : Error -> M A) : M A :=
  fun w =>
    match body w with
    | (Thrown (HandleException e), w') => handler e w'
    | r => r
    end.

(** ** The member functions *)

(** static constexpr auto EVENT_POLL_TIMEOUT = 50ms, DRAIN_TIMEOUT_MS = 5000ms *)
Definition EVENT_POLL_TIMEOUT : Z := 50.
Definition DRAIN_TIMEOUT_MS : Z := 5000.

(** TopicPartition{tp.get_topic(), tp.get_partition(), tp.get_offset()} *)
Definition of_cppkafka (tp : TopicPartition.t) : TopicPartition :=
  mkTopicPartition (TopicPartition.get_topic tp) (TopicPartition.get_partition tp)
    (TopicPartition.get_offset tp).

(** cppkafka::TopicPartition{tp.topic, tp.partition_id, tp.offset} *)
Definition to_cppkafka (tp : TopicPartition) : TopicPartition.t :=
  TopicPartition.make (topic tp) (partition_id tp) (offset tp).

Definition has_value {A} (o : option A) : bool :=
  match o with Some _ => true | None => false end.

Definition empty {A} (l : list A) : bool :=
  match l with [] => true | _ :: _ => false end.

Definition size {A} (l : list A) : Z := Z.of_nat (length l).

(** The integer conversions of the language: to size_t and to int64_t, both
    modulo 2^64. *)
Definition to_size_t (z : Z) : Z := z mod 2 ^ 64.
Definition to_int64_t (z : Z) : Z := (z + 2 ^ 63) mod 2 ^ 64 - 2 ^ 63.

Section Consumer.

(** [hasMorePolledMessages] is defined in KafkaConsumer2.h, which is not
    among the sources: [consume] takes it as a parameter. *)
Variable hasMorePolledMessages : KafkaConsumer2 -> bool.

(** Whether [assert] and [chassert] are compiled in; both abort the
    process when their condition fails, and are no-ops otherwise. *)
Variable debug_build : bool.

Variable env : Environment.

Definition chassert (cond : bool) : M unit :=
  fun w => if debug_build && negb cond then (Aborted, w) else (Normal tt, w).

(** *** initializeQueues *)

Fixpoint emplace_queues (topic_partitions : TopicPartitionList) : M unit :=
  match topic_partitions with
  | [] => ret tt
  | topic_partition :: rest =>
      q <- call (GetPartitionQueue topic_partition) (fun _ => queue_for topic_partition) ;;
      modify (fun k => set_queues (emplace (of_cppkafka topic_partition) q (queues k)) k) ;;;
      emplace_queues rest
  end.

Definition initializeQueues (topic_partitions : TopicPartitionList) : M unit :=
  modify (set_queues []) ;;;
  modify (set_messages []) ;;;
  modify (fun k => set_current (length (messages k)) k) ;;;
  call (Assign topic_partitions) (fun _ => tt) ;;;
  emplace_queues topic_partitions.

(** *** The callbacks registered by the constructor *)

Fixpoint push_back_all (topic_partitions : TopicPartitionList) : M unit :=
  match topic_partitions with
  | [] => ret tt
  | topic_partition :: rest =>
      modify (fun k =>
        set_assignment
          (option_map (fun a => a ++ [of_cppkafka topic_partition]) (assignment k)) k) ;;;
      push_back_all rest
  end.

Definition assignment_callback (topic_partitions : TopicPartitionList) : M unit :=
  signal (MetricAdd KafkaAssignedPartitions (size topic_partitions)) ;;;
  signal (Increment KafkaRebalanceAssignments 1) ;;;
  (if empty topic_partitions then ret tt
   else signal (MetricAdd KafkaConsumersWithAssignment 1)) ;;;
  k <- get_this ;;
  chassert (negb (has_value (assignment k))) ;;;
  modify (set_assignment (Some [])) ;;;
  modify (set_needs_offset_update true) ;;;
  push_back_all topic_partitions ;;;
  initializeQueues topic_partitions.

Definition revocation_callback (topic_partitions : TopicPartitionList) : M unit :=
  signal (MetricSub KafkaAssignedPartitions (size topic_partitions)) ;;;
  signal (Increment KafkaRebalanceRevocations 1) ;;;
  (if negb (empty topic_partitions)
   then signal (MetricSub KafkaConsumersWithAssignment 1)
   else ret tt) ;;;
  modify (set_assignment None) ;;;
  modify (set_queues []) ;;;
  modify (set_needs_offset_update true).

Definition rebalance_error_callback (err : Error) : M unit :=
  signal (Increment KafkaRebalanceErrors 1).

Definition serve (r : Rebalance) : M unit :=
  match r with
  | Assigned tpl => assignment_callback tpl
  | Revoked tpl => revocation_callback tpl
  | RebalanceError err => rebalance_error_callback err
  end.

Fixpoint serve_all (rs : list Rebalance) : M unit :=
  match rs with
  | [] => ret tt
  | r :: rest => serve r ;;; serve_all rest
  end.

(** consumer->poll(timeout): the callbacks run synchronously inside it. *)
Definition consumer_poll (timeout : Z) : M (option Message.t) :=
  outcome <- call (Poll timeout) (poll_outcome env) ;;
  serve_all (fst outcome) ;;;
  ret (snd outcome).

(** *** drainConsumerQueue and the destructor *)

(** duration_cast<milliseconds>(ts - start_time), the clock ticking in
    nanoseconds. *)
Definition elapsed_ms (start_time ts : Z) : Z := Z.quot (ts - start_time) 1000000.

(** The loop of drainConsumerQueue, run for at most [fuel] iterations;
    the result tells whether the loop was left. *)
Fixpoint drain_loop (fuel : nat) (start_time : Z) (last_error : Error) : M bool :=
  match fuel with
  | O => ret false
  | S fuel' =>
      msg <- consumer_poll 100 ;;
      match msg with
      | None => ret true
      | Some m =>
          let error := Message.get_error m in
          if is_error error && (Message.is_eof m || (error =? last_error))
          then ret true
          else
            ts <- call Now (steady_clock env) ;;
            if elapsed_ms start_time ts >? DRAIN_TIMEOUT_MS then ret true
            else drain_loop fuel' start_time error
      end
  end.

Definition drainConsumerQueue (fuel : nat) : M bool :=
  start_time <- call Now (steady_clock env) ;;
  drain_loop fuel start_time RD_KAFKA_RESP_ERR_NO_ERROR.

Definition get_subscription : M (list string) :=
  r <- call GetSubscription (subscription env) ;;
  match r with
  | inl e => throw (HandleException e)
  | inr names => ret names
  end.

Definition unsubscribe : M unit :=
  r <- call Unsubscribe (unsubscribe_outcome env) ;;
  match r with
  | Some e => throw (HandleException e)
  | None => ret tt
  end.

(** ~KafkaConsumer2 *)
Definition KafkaConsumer2_destructor (fuel : nat) : M bool :=
  try_catch_HandleException
    (names <- get_subscription ;;
     if negb (empty names) then
       try_catch_HandleException unsubscribe (fun _ => ret tt) ;;;
       drainConsumerQueue fuel
     else ret true)
    (fun _ => ret true).

(** *** pollEvents *)

Fixpoint pollEvents_loop (tries : nat) : M unit :=
  match tries with
  | O => ret tt
  | S tries' =>
      msg <- consumer_poll EVENT_POLL_TIMEOUT ;;
      match msg with
      | None => ret tt
      | Some m =>
          chassert (negb (RD_KAFKA_RESP_ERR_NO_ERROR =? Message.get_error m)) ;;;
          pollEvents_loop tries'
      end
  end.

Definition pollEvents : M unit := pollEvents_loop 5.

(** *** getPartitionCounts, getKafkaAssignment *)

Definition getPartitionCounts : M (list (string * nat)) :=
  try_catch_HandleException
    (r <- call GetMetadata (metadata env) ;;
     match r with
     | inl e => throw (HandleException e)
     | inr topic_metadatas =>
         k <- get_this ;;
         ret (filter (fun tm => existsb (String.eqb (fst tm)) (topics k)) topic_metadatas)
     end)
    (fun _ => ret []).

Definition getKafkaAssignment : M (option TopicPartitions) :=
  k <- get_this ;;
  ret (assignment k).

(** *** polledDataUnusable, updateOffsets *)

Definition polledDataUnusable (k : KafkaConsumer2) (topic_partition : TopicPartition) : bool :=
  if at_end k then false
  else
    match deref k with
    | Some m =>
        negb (String.eqb (Message.get_topic m) (topic topic_partition))
        || negb (Message.get_partition m =? partition_id topic_partition)
    | None => false
    end.

Definition updateOffsets (topic_partitions : TopicPartitions) : M unit :=
  initializeQueues (map to_cppkafka topic_partitions) ;;;
  modify (set_needs_offset_update false) ;;;
  modify (set_stalled_status NOT_STALLED).

(** *** resetIfStopped, getNextMessage, filterMessageErrors *)

Definition resetIfStopped : M unit :=
  flag <- call LoadStopped (stopped env) ;;
  if flag then modify (set_stalled_status CONSUMER_STOPPED) else ret tt.

Definition getNextMessage : M ReadBufferPtr :=
  k <- get_this ;;
  if negb (at_end k) then
    match deref k with
    | Some m =>
        let data := Buffer.get_data (Message.get_payload m) in
        let size := Buffer.get_size (Message.get_payload m) in
        modify (set_current (S (current k))) ;;;
        chassert (has_value data) ;;;
        ret (Some (mkReadBuffer data size))
    | None => ret None
    end
  else ret None.

Definition has_error (m : Message.t) : bool := is_error (Message.get_error m).

Fixpoint count_errors (ms : Messages) : M unit :=
  match ms with
  | [] => ret tt
  | m :: rest =>
      (if has_error m then signal (Increment KafkaConsumerErrors 1) else ret tt) ;;;
      count_errors rest
  end.

(** std::erase_if(messages, pred) keeps the others in order and returns
    how many it erased. *)
Definition filterMessageErrors : M nat :=
  k <- get_this ;;
  chassert (at_begin k) ;;;
  count_errors (messages k) ;;;
  let kept := filter (fun m => negb (has_error m)) (messages k) in
  let skipped := (length (messages k) - length kept)%nat in
  modify (set_messages kept) ;;;
  (if negb (skipped =? 0)%nat then modify (set_current 0%nat) else ret tt) ;;;
  ret skipped.

(** *** consume *)

Definition queues_at (topic_partition : TopicPartition) : M Queue :=
  k <- get_this ;;
  match at_ (queues k) topic_partition with
  | Some q => ret q
  | None => throw out_of_range
  end.

(** The arguments of the trace line after a non-empty pull:
    consumer->get_offsets_position(consumer->get_assignment()), evaluated
    when the logger formats the line. *)
Definition trace_offsets_position : M unit :=
  enabled <- ask (log_trace env) ;;
  if (enabled : bool) then
    assigned <- call GetAssignment (client_assignment env) ;;
    call (GetOffsetsPosition assigned) (fun _ => tt)
  else ret tt.

(** Every path through the body of the [while (true)] returns or breaks,
    so the body runs once.  [message_count] is an int64_t and [batch_size]
    and [poll_timeout] are size_t; consume_batch takes a size_t and a
    std::chrono::milliseconds, whose count is an int64_t. *)
Definition consume (topic_partition : TopicPartition) (message_count : option Z)
  : M ReadBufferPtr :=
  resetIfStopped ;;;
  k <- get_this ;;
  if polledDataUnusable k topic_partition then ret None
  else
    next_message <- (if hasMorePolledMessages k then getNextMessage else ret None) ;;
    match next_message with
    | Some b => ret (Some b)
    | None =>
        modify (set_stalled_status NO_MESSAGES_RETURNED) ;;;
        queue_to_poll_from <- queues_at topic_partition ;;
        k <- get_this ;;
        let messages_to_pull :=
          match message_count with
          | Some n => to_int64_t n
          | None => to_int64_t (batch_size k)
          end in
        let max_batch_size := to_size_t messages_to_pull in
        let timeout := to_int64_t (poll_timeout k) in
        new_messages <-
          call (ConsumeBatch queue_to_poll_from max_batch_size timeout)
               (fun h => consume_batch env h queue_to_poll_from max_batch_size timeout) ;;
        resetIfStopped ;;;
        k <- get_this ;;
        if StalledStatus_eqb (stalled_status k) CONSUMER_STOPPED then ret None
        else if empty new_messages then ret None
        else
          modify (set_messages new_messages) ;;;
          modify (set_current 0%nat) ;;;
          trace_offsets_position ;;;
          filterMessageErrors ;;;
          k <- get_this ;;
          if at_end k then
            modify (set_stalled_status ERRORS_RETURNED) ;;;
            ret None
          else
            signal (Increment KafkaMessagesPolled (size (messages k))) ;;;
            modify (set_stalled_status NOT_STALLED) ;;;
            getNextMessage
    end.

(** *** commit *)

(** The [for] loop of commit with [remaining = max_retries - try_count]
    iterations to go. *)
Fixpoint commit_loop (remaining : nat) (committed : bool)
    (topic_partition_list : TopicPartitionList) : M bool :=
  match remaining with
  | O => ret committed
  | S remaining' =>
      if committed then ret committed
      else
        committed' <-
          try_catch_HandleException
            (r <- call (Commit topic_partition_list)
                    (fun h => commit_outcome env h topic_partition_list) ;;
             match r with
             | Some e => throw (HandleException e)
             | None => ret true
             end)
            (fun e =>
               if e =? RD_KAFKA_RESP_ERR__NO_OFFSET then ret true else ret committed) ;;
        commit_loop remaining' committed' topic_partition_list
  end.

Definition max_retries : nat := 5.

Definition commit (topic_partition : TopicPartition) : M unit :=
  let topic_partition_list := [to_cppkafka topic_partition] in
  committed <- commit_loop max_retries false topic_partition_list ;;
  if negb committed then signal (Increment KafkaCommitFailures 1)
  else signal (Increment KafkaCommits 1).

End Consumer.

(** Modelled from the spec: [hasMorePolledMessages] is defined in
    KafkaConsumer2.h, which is not among the sources; section 4.4, step 3 of
    the spec reads it as "the cursor has remaining entries". *)
Definition hasMorePolledMessages (k : KafkaConsumer2) : bool := negb (at_end k).

(** ** The consumer driven by its caller *)

(** What can happen to the object: the caller invokes a public member
    function, or a rebalance callback fires. *)
Inductive Operation :=
| DoConsume (topic_partition : TopicPartition) (message_count : option Z)
| DoCommit (topic_partition : TopicPartition)
| DoPollEvents
| DoGetPartitionCounts
| DoGetKafkaAssignment
| DoUpdateOffsets (topic_partitions : TopicPartitions)
| DoCallback (r : Rebalance).

Definition is_updateOffsets (op : Operation) : bool :=
  match op with DoUpdateOffsets _ => true | _ => false end.

Definition is_assignment_change (r : Rebalance) : bool :=
  match r with Assigned _ | Revoked _ => true | RebalanceError _ => false end.

Definition discard {A} (c : M A) : M unit := c ;;; ret tt.

Definition perform (hmpm : KafkaConsumer2 -> bool) (debug_build : bool) (env : Environment)
    (op : Operation) : M unit :=
  match op with
  | DoConsume tp n => discard (consume hmpm debug_build env tp n)
  | DoCommit tp => commit env tp
  | DoPollEvents => pollEvents debug_build env
  | DoGetPartitionCounts => discard (getPartitionCounts env)
  | DoGetKafkaAssignment => discard getKafkaAssignment
  | DoUpdateOffsets tps => updateOffsets tps
  | DoCallback r => serve debug_build r
  end.

(** The caller goes on after an exception; a failed assertion ends the
    process. *)
Fixpoint run (hmpm : KafkaConsumer2 -> bool) (debug_build : bool) (env : Environment)
    (ops : list Operation) (w : World) : World :=
  match ops with
  | [] => w
  | op :: rest =>
      match perform hmpm debug_build env op w with
      | (Aborted, w') => w'
      | (_, w') => run hmpm debug_build env rest w'
      end
  end.

(** ** Observations on a history *)

Definition is_pull (c : Call) : bool :=
  match c with ConsumeBatch _ _ _ => true | _ => false end.

Definition is_commit (c : Call) : bool :=
  match c with Commit _ => true | _ => false end.

Definition is_poll (c : Call) : bool :=
  match c with Poll _ => true | _ => false end.

Definition is_now (c : Call) : bool :=
  match c with Now => true | _ => false end.

Definition count_calls (p : Call -> bool) (h : History) : nat := length (filter p h).

(** [pulls h]: how many times a partition queue was pulled in [h]. *)
Definition pulls (h : History) : nat := count_calls is_pull h.

(** ** Where the member functions lead *)

(** The object as [resetIfStopped] leaves it when called in [w]. *)
Definition after_reset (env : Environment) (w : World) : KafkaConsumer2 :=
  if stopped env (history w) then set_stalled_status CONSUMER_STOPPED (this w)
  else this w.

(** The object with another batch, cursor and status, the rest as in [k]. *)
Definition with_batch (k : KafkaConsumer2) (ms : Messages) (cur : nat) (st : StalledStatus)
  : KafkaConsumer2 :=
  mkKafkaConsumer2 (batch_size k) (poll_timeout k) (topics k) ms cur
    (assignment k) (queues k) (needs_offset_update k) st.

(** message_count.value_or(batch_size), an int64_t, as the size_t that
    consume_batch receives. *)
Definition messages_to_pull (message_count : option Z) (k : KafkaConsumer2) : Z :=
  to_size_t
    match message_count with
    | Some n => to_int64_t n
    | None => to_int64_t (batch_size k)
    end.

(** std::chrono::milliseconds(poll_timeout) *)
Definition pull_timeout (k : KafkaConsumer2) : Z := to_int64_t (poll_timeout k).

(** The history in which consume, called in [w], pulls from its queue: the
    stop flag has been loaded once. *)
Definition history_at_pull (w : World) : History := LoadStopped :: history w.

(** What that pull delivers. *)
Definition pulled_batch (env : Environment) (w : World) (q : Queue) (message_count : option Z)
  : Messages :=
  consume_batch env (history_at_pull w) q (messages_to_pull message_count (this w))
    (pull_timeout (this w)).

(** The history in which the stop flag is loaded again after the pull. *)
Definition history_after_pull (w : World) (q : Queue) (message_count : option Z) : History :=
  ConsumeBatch q (messages_to_pull message_count (this w)) (pull_timeout (this w))
    :: history_at_pull w.

(** The history in which consume goes on after that second load. *)
Definition history_after_recheck (w : World) (q : Queue) (message_count : option Z)
  : History :=
  LoadStopped :: history_after_pull w q message_count.

(** The client calls made in history [h] for the trace line after a
    non-empty pull, most recent first: none when the logger does not
    format the line. *)
Definition trace_calls (env : Environment) (h : History) : History :=
  if log_trace env h
  then [GetOffsetsPosition (client_assignment env h); GetAssignment]
  else [].

(** The history at the end of a call of consume that went past the empty
    pull. *)
Definition history_after_trace (env : Environment) (w : World) (q : Queue)
    (message_count : option Z) : History :=
  trace_calls env (history_after_recheck w q message_count)
  ++ history_after_recheck w q message_count.

(** The data pointer of the payload is not null. *)
Definition payload_present (m : Message.t) : bool :=
  has_value (Buffer.get_data (Message.get_payload m)).

(** ReadBufferFromMemory(data, size) over the payload of a message. *)
Definition payload_view (m : Message.t) : ReadBufferFromMemory :=
  mkReadBuffer (Buffer.get_data (Message.get_payload m))
    (Buffer.get_size (Message.get_payload m)).

(** The signals [filterMessageErrors] sends for a batch, one per error. *)
Definition error_signals (ms : Messages) : list Signal :=
  repeat (Increment KafkaConsumerErrors 1) (length (filter has_error ms)).

(** [operator<] as a relation. *)
Definition key_lt (a b : TopicPartition) : Prop := TopicPartition_lt a b = true.

(** The Queue Set after emplacing a queue for each partition of a list, in
    the order of the list. *)
Definition emplace_all (topic_partitions : TopicPartitionList) (m : Queues) : Queues :=
  fold_left (fun acc tp => emplace (of_cppkafka tp) (queue_for tp) acc) topic_partitions m.

(** The object as [initializeQueues] leaves it: no batch, a queue per
    listed partition. *)
Definition rebuilt (k : KafkaConsumer2) (topic_partitions : TopicPartitionList)
  : KafkaConsumer2 :=
  mkKafkaConsumer2 (batch_size k) (poll_timeout k) (topics k) [] 0
    (assignment k) (emplace_all topic_partitions []) (needs_offset_update k)
    (stalled_status k).

(** The calls [initializeQueues] makes, most recent first. *)
Definition rebuild_calls (topic_partitions : TopicPartitionList) : History :=
  rev (map GetPartitionQueue topic_partitions) ++ [Assign topic_partitions].

(** The object as the assignment callback leaves it. *)
Definition assigned (k : KafkaConsumer2) (topic_partitions : TopicPartitionList)
  : KafkaConsumer2 :=
  mkKafkaConsumer2 (batch_size k) (poll_timeout k) (topics k) [] 0
    (Some (map of_cppkafka topic_partitions)) (emplace_all topic_partitions []) true
    (stalled_status k).

(** The signals the assignment callback sends, most recent first. *)
Definition assignment_signals (topic_partitions : TopicPartitionList) : list Signal :=
  (if empty topic_partitions then [] else [MetricAdd KafkaConsumersWithAssignment 1])
  ++ [Increment KafkaRebalanceAssignments 1;
      MetricAdd KafkaAssignedPartitions (size topic_partitions)].

(** The object as the revocation callback leaves it. *)
Definition revoked (k : KafkaConsumer2) : KafkaConsumer2 :=
  mkKafkaConsumer2 (batch_size k) (poll_timeout k) (topics k) (messages k) (current k)
    None [] true (stalled_status k).

(** The signals the revocation callback sends, most recent first. *)
Definition revocation_signals (topic_partitions : TopicPartitionList) : list Signal :=
  (if empty topic_partitions then [] else [MetricSub KafkaConsumersWithAssignment 1])
  ++ [Increment KafkaRebalanceRevocations 1;
      MetricSub KafkaAssignedPartitions (size topic_partitions)].

(** The history after [j] further attempts to commit [tpl]. *)
Definition after_attempts (tpl : TopicPartitionList) (j : nat) (h : History) : History :=
  repeat (Commit tpl) j ++ h.

(** Whether the attempt made in history [h] ends the retries: the client
    commits, or throws the HandleException of "no offset to commit". *)
Definition attempt_settles (env : Environment) (tpl : TopicPartitionList) (h : History) : bool :=
  match commit_outcome env h tpl with
  | None => true
  | Some e => e =? RD_KAFKA_RESP_ERR__NO_OFFSET
  end.

(** ** Relations between the worlds before and after *)

(** [keeps R c]: the world [c] ends in is related by [R] to the one it
    started in, however [c] ends. *)
Definition keeps {A} (R : World -> World -> Prop) (c : M A) : Prop :=
  forall w, R w (snd (c w)).

(** The calls of kind [p] are as many after as before. *)
Definition same_count (p : Call -> bool) (w w' : World) : Prop :=
  count_calls p (history w') = count_calls p (history w).

(** needs_offset_update, once true, is still true. *)
Definition flag_stays (w w' : World) : Prop :=
  needs_offset_update (this w) = true -> needs_offset_update (this w') = true.


(** Whether a computation has come to an end; [Normal false] is how the
    loop of drainConsumerQueue reports that it ran out of fuel inside. *)
Definition left_loop (r : Result bool) : Prop := r <> Normal false.

(** ** Further notions for the properties of the whole object *)

(** The cursor lies within the batch: [begin <= current <= end]. *)
Definition cursor_in_batch (k : KafkaConsumer2) : Prop :=
  (current k <= length (messages k))%nat.

(** A cursor within the batch is still within the batch. *)
Definition cursor_stays (w w' : World) : Prop :=
  cursor_in_batch (this w) -> cursor_in_batch (this w').

(** The Assignment is as before. *)
Definition same_assignment (w w' : World) : Prop :=
  assignment (this w') = assignment (this w).

(** What consume leaves alone: the Assignment, the Queue Set, the flag and
    the configuration. *)
Definition same_ownership (w w' : World) : Prop :=
  assignment (this w') = assignment (this w)
  /\ queues (this w') = queues (this w)
  /\ needs_offset_update (this w') = needs_offset_update (this w)
  /\ batch_size (this w') = batch_size (this w)
  /\ poll_timeout (this w') = poll_timeout (this w)
  /\ topics (this w') = topics (this w).

(** [c] never ends in an exception. *)
Definition no_throw {A} (c : M A) : Prop :=
  forall w e, fst (c w) <> Thrown e.

(** The client serves no rebalance event in any poll. *)
Definition serves_nothing (env : Environment) : Prop :=
  forall h, fst (poll_outcome env h) = [].

(** The stop flag is never found set. *)
Definition never_stopped (env : Environment) : Prop :=
  forall h, stopped env h = false.

Definition is_callback (op : Operation) : bool :=
  match op with DoCallback _ => true | _ => false end.

Definition is_load (c : Call) : bool :=
  match c with LoadStopped => true | _ => false end.

(** A message of the partition [p]. *)
Definition of_partition (p : TopicPartition) (m : Message.t) : Prop :=
  Message.get_topic m = topic p /\ Message.get_partition m = partition_id p.

(** A list that names each partition once: no two entries share topic and
    partition_id. *)
Definition names_once (tps : TopicPartitions) : Prop :=
  NoDup (map (fun p => (topic p, partition_id p)) tps).

(** [j] calls of consume(p, n) in a row, with their results in order. *)
Fixpoint consume_times (hmpm : KafkaConsumer2 -> bool) (debug_build : bool)
    (env : Environment) (p : TopicPartition) (n : option Z) (j : nat) (w : World)
  : list (Result ReadBufferPtr) * World :=
  match j with
  | O => ([], w)
  | S j' =>
      let '(r, w1) := consume hmpm debug_build env p n w in
      let '(rs, w2) := consume_times hmpm debug_build env p n j' w1 in
      (r :: rs, w2)
  end.

(** The payload of a message, as consume hands it out. *)
Definition delivered (m : Message.t) : Result ReadBufferPtr :=
  Normal (Some (payload_view m)).

(** The value of a CurrentMetrics gauge after the signals sent so far,
    counted from zero. *)
Definition Metric_eqb (a b : Metric) : bool :=
  match a, b with
  | KafkaAssignedPartitions, KafkaAssignedPartitions
  | KafkaConsumersWithAssignment, KafkaConsumersWithAssignment => true
  | _, _ => false
  end.

Definition metric_delta (m : Metric) (s : Signal) : Z :=
  match s with
  | MetricAdd m' amount => if Metric_eqb m m' then amount else 0
  | MetricSub m' amount => if Metric_eqb m m' then - amount else 0
  | Increment _ _ => 0
  end.

Fixpoint metric_value (m : Metric) (sent : list Signal) : Z :=
  match sent with
  | [] => 0
  | s :: rest => metric_delta m s + metric_value m rest
  end.

(** ** Concrete scenarios *)

Definition partition_t0 : TopicPartition := mkTopicPartition "t" 0 0.
Definition partition_t0_at_7 : TopicPartition := mkTopicPartition "t" 0 7.
Definition partition_u0 : TopicPartition := mkTopicPartition "u" 0 0.

Definition queue_t0 : Queue := queue_for (to_cppkafka partition_t0).

(** A message of partition ("t", 0) without error, and one with an error. *)
Definition message_ok (off : Z) (payload : list byte) : Message.t :=
  Message.make "t" 0 off RD_KAFKA_RESP_ERR_NO_ERROR (Buffer.make (Some payload)).

Definition message_failed (off : Z) (err : Error) : Message.t :=
  Message.make "t" 0 off err (Buffer.make (Some [])).

(** A message of partition ("t", 0) without error and without payload: the
    data pointer is null. *)
Definition message_without_payload (off : Z) : Message.t :=
  Message.make "t" 0 off RD_KAFKA_RESP_ERR_NO_ERROR (Buffer.make None).

Definition payload_a : list byte := [x61].
Definition payload_b : list byte := [x62].

(** A consumer that owns ("t", 0) and holds the batch [ms] with the cursor
    at [cur]. *)
Definition consumer_t0 (ms : Messages) (cur : nat) (st : StalledStatus) : KafkaConsumer2 :=
  mkKafkaConsumer2 100 500 ["t"%string] ms cur (Some [partition_t0])
    [(partition_t0, queue_t0)] false st.

Definition world_of (k : KafkaConsumer2) : World := mkWorld k [] [].

Definition world_idle : World := world_of (consumer_t0 [] 0 NOT_STALLED).
Definition world_stalled : World := world_of (consumer_t0 [] 0 NO_MESSAGES_RETURNED).
Definition world_buffered_one : World :=
  world_of (consumer_t0 [message_ok 0 payload_a] 0 NOT_STALLED).
Definition world_buffered_second : World :=
  world_of (consumer_t0 [message_ok 0 payload_a; message_ok 1 payload_b] 1 NOT_STALLED).
Definition world_mixed_batch : World :=
  world_of (consumer_t0 [message_ok 0 payload_a; message_failed 1 (-185)] 0 NOT_STALLED).
Definition world_unassigned : World :=
  world_of (mkKafkaConsumer2 100 500 ["t"%string] [] 0 None [] false NO_MESSAGES_RETURNED).

(** An outside in which the stop flag reads [flag], every pull delivers
    [batch], every commit ends in [commit_result], every poll serves no
    callback and yields [polled], the clock advances by one second per
    reading, the client reports ("t", 0) as assigned and the logger formats
    trace lines. *)
Definition outside (flag : bool) (batch : Messages) (commit_result : option Error)
    (polled : option Message.t) : Environment :=
  mkEnvironment
    (fun _ => flag)
    (fun _ _ _ _ => batch)
    (fun _ _ => commit_result)
    (fun _ => ([], polled))
    (fun _ => inr ["t"%string])
    (fun _ => None)
    (fun _ => inr [("t"%string, 1%nat)])
    (fun h => Z.of_nat (count_calls is_now h) * 1000000000)
    (fun _ => [TopicPartition.make "t" 0 0])
    (fun _ => true).

Definition quiet : Environment := outside false [] None None.
Definition stopping : Environment := outside true [] None None.
Definition stopping_with_data : Environment :=
  outside true [message_ok 0 payload_a] None None.
Definition only_errors : Environment :=
  outside false [message_failed 0 (-185); message_failed 1 (-185)] None None.
Definition flooding : Environment :=
  outside false [] None (Some (message_ok 0 payload_a)).
Definition failing_polls : Environment :=
  outside false [] None (Some (message_failed 0 (-185))).

(** * registerDiskS3: a shallow embedding of
      src/Disks/ObjectStorages/S3/registerDiskS3.cpp (the USE_AWS_S3 build)

    The functions of this file only drive the configuration, the S3 URI
    parser, the object storage and the disk, none of which is among the
    sources: each such call is answered by the outside as a function of the
    calls made so far, and may throw. *)

Module DiskS3.

Inductive ErrorCode :=
| BAD_ARGUMENTS
| PATH_ACCESS_DENIED.

(** DB::Exception with its code and message, or whatever a call to the
    outside throws. *)
Inductive Exn :=
| Exception (code : ErrorCode) (message : string)
| Foreign (what : string).

(** S3::URI, the members read here. *)
Record URI := mkURI {
  uri : string;          (* uri.toString() *)
  key : string;
  bucket : string;
  version_id : string
}.

Inductive Call :=
| ConfigGetString (name : string)
| ParseURI (endpoint : string)
| PrepareForLocalMetadata (name config_prefix : string)
| MakeS3ObjectStorage (config_prefix version_id bucket : string)
| ConfigGetBool (name : string) (default : bool)
| ConfigGetUInt (name : string) (default : Z)
| MakeDiskObjectStorage (name remote_root : string) (send_metadata : bool)
    (copy_thread_pool_size : Z)
| WriteFile (path : string)
| Write (data : string)
| Finalize
| ReadFile (path : string)
| ReadStrict (count : nat)
| RemoveFile (path : string)
| Startup.

Definition History := list Call.

Record Outside := mkOutside {
  (* calls made for their effect: None when they return *)
  effect : History -> Call -> option Exn;
  (* Poco configuration *)
  config_string : History -> string -> Exn + string;
  config_bool : History -> string -> bool -> Exn + bool;
  config_uint : History -> string -> Z -> Exn + Z;
  (* S3::URI(Poco::URI(endpoint)) *)
  parse_uri : History -> string -> Exn + URI;
  (* ReadBuffer::readStrict: the bytes read *)
  read_strict : History -> nat -> Exn + string
}.

(** Computations that call the outside and may throw. *)
Definition D (A : Type) := History -> (Exn + A) * History.

Definition ret {A} (a : A) : D A := fun h => (inr a, h).

Definition throw {A} (e : Exn) : D A := fun h => (inl e, h).

Definition bind {A B} (c : D A) (f : A -> D B) : D B :=
  fun h =>
    match c h with
    | (inr a, h') => f a h'
    | (inl e, h') => (inl e, h')
    end.

(** A call for its value, recorded after it is answered. *)
Definition ask {A} (c : Call) (answer : History -> Exn + A) : D A :=
  fun h => (answer h, c :: h).

(** A call for its effect. *)
Definition perform (env : Outside) (c : Call) : D unit :=
  ask c (fun h => match effect env h c with Some e => inl e | None => inr tt end).

(** try { body } catch (...) { handler } *)
Definition try_catch_all {A} (body : D A) (handler : Exn -> D A) : D A :=
  fun h =>
    match body h with
    | (inl e, h') => handler e h'
    | r => r
    end.

(** The disk the creator returns, behind its DiskRestartProxy. *)
Record Disk := mkDisk {
  disk_name : string;
  remote_fs_root_path : string;
  send_metadata : bool;
  copy_thread_pool_size : Z
}.

(** key.back() == '/', for a key that is not empty. *)
Fixpoint ends_with_slash (s : string) : bool :=
  match s with
  | EmptyString => false
  | String c EmptyString => Ascii.eqb c "/"%char
  | String _ rest => ends_with_slash rest
  end.

Definition is_empty (s : string) : bool :=
  match s with EmptyString => true | String _ _ => false end.

Section WithOutside.

Variable env : Outside.

(** The buffer size passed to writeFile is left out. *)
Definition checkWriteAccess : D unit :=
  bind (perform env (WriteFile "test_acl"))
    (fun _ =>
       try_catch_all
         (perform env (Write "test"))
         (fun e => bind (perform env Finalize) (fun _ => throw e))).

Definition checkReadAccess (disk_name : string) : D unit :=
  bind (perform env (ReadFile "test_acl"))
    (fun _ =>
       bind (ask (ReadStrict 4) (fun h => read_strict env h 4%nat))
         (fun buf =>
            if negb (String.eqb buf "test")
            then throw (Exception PATH_ACCESS_DENIED
                          (String.append "No read access to S3 bucket in disk " disk_name))
            else ret tt)).

Definition checkRemoveAccess : D unit := perform env (RemoveFile "test_acl").

(** The lambda registered by registerDiskS3 for the disk type "s3". *)
Definition creator (name config_prefix : string) : D Disk :=
  bind (ask (ConfigGetString (String.append config_prefix ".endpoint"))
          (fun h => config_string env h (String.append config_prefix ".endpoint")))
    (fun endpoint =>
  bind (ask (ParseURI endpoint) (fun h => parse_uri env h endpoint))
    (fun u =>
  if is_empty (key u) then
    throw (Exception BAD_ARGUMENTS (String.append "No key in S3 uri: " (uri u)))
  else if negb (ends_with_slash (key u)) then
    throw (Exception BAD_ARGUMENTS
             (String.append "S3 path must ends with '/', but '"
                (String.append (key u) "' doesn't.")))
  else
  bind (perform env (PrepareForLocalMetadata name config_prefix))
    (fun _ =>
  bind (perform env (MakeS3ObjectStorage config_prefix (version_id u) (bucket u)))
    (fun _ =>
  bind (ask (ConfigGetBool (String.append config_prefix ".send_metadata") false)
          (fun h => config_bool env h (String.append config_prefix ".send_metadata") false))
    (fun send =>
  bind (ask (ConfigGetUInt (String.append config_prefix ".thread_pool_size") 16)
          (fun h => config_uint env h (String.append config_prefix ".thread_pool_size") 16))
    (fun pool =>
  bind (perform env (MakeDiskObjectStorage name (key u) send pool))
    (fun _ =>
  bind (ask (ConfigGetBool (String.append config_prefix ".skip_access_check") false)
          (fun h => config_bool env h (String.append config_prefix ".skip_access_check")
                      false))
    (fun skip =>
  bind (if negb skip then
          bind checkWriteAccess
            (fun _ => bind (checkReadAccess name) (fun _ => checkRemoveAccess))
        else ret tt)
    (fun _ =>
  bind (perform env Startup)
    (fun _ => ret (mkDisk name (key u) send pool))))))))))).

End WithOutside.

(** The calls of a creator run up to the access check, most recent first. *)
Definition setup_calls (name config_prefix endpoint : string) (u : URI)
    (send : bool) (pool : Z) : History :=
  [ConfigGetBool (String.append config_prefix ".skip_access_check") false;
   MakeDiskObjectStorage name (key u) send pool;
   ConfigGetUInt (String.append config_prefix ".thread_pool_size") 16;
   ConfigGetBool (String.append config_prefix ".send_metadata") false;
   MakeS3ObjectStorage config_prefix (version_id u) (bucket u);
   PrepareForLocalMetadata name config_prefix;
   ParseURI endpoint;
   ConfigGetString (String.append config_prefix ".endpoint")].

(** The calls of a passed access check, most recent first. *)
Definition access_check_calls : History :=
  [RemoveFile "test_acl"; ReadStrict 4; ReadFile "test_acl"; Write "test";
   WriteFile "test_acl"].

(** No call of the outside throws. *)
Definition every_call_returns (env : Outside) : Prop :=
  (forall h c, effect env h c = None)
  /\ (forall h name, exists s, config_string env h name = inr s)
  /\ (forall h name default, exists b, config_bool env h name default = inr b)
  /\ (forall h name default, exists z, config_uint env h name default = inr z)
  /\ (forall h endpoint, exists u, parse_uri env h endpoint = inr u)
  /\ (forall h count, exists s, read_strict env h count = inr s).

(** An outside in which every call returns, the endpoint parses to [u], the
    flags are [send] and [skip], and the bucket reads back [read_back]. *)
Definition obliging (u : URI) (send skip : bool) (read_back : string) : Outside :=
  mkOutside
    (fun _ _ => None)
    (fun _ _ => inr "https://bucket.example/root/"%string)
    (fun _ name _ =>
       inr (if String.eqb name "disk.skip_access_check" then skip else send))
    (fun _ _ default => inr default)
    (fun _ _ => inr u)
    (fun _ _ => inr read_back).

End DiskS3.

(** * Properties *)

(** ** The revocation callback *)

Ltac run_monad :=
  cbv [bind ret throw get_this modify signal call try_catch_HandleException chassert].

Lemma revocation_callback_run (topic_partitions : TopicPartitionList) (w : World) :
  revocation_callback topic_partitions w
  = (Normal tt,
     mkWorld (revoked (this w)) (history w)
       (revocation_signals topic_partitions ++ signals w)).
Proof.
  unfold revocation_callback, revocation_signals.
  destruct topic_partitions as [| tp tpl]; reflexivity.
Qed.

(** C8: whatever the state in which the revocation callback fires, a
    non-empty Queue Set included, after it the Assignment is None, the Queue
    Set is empty and needs_offset_update is true; the callback leaves the
    batch, the cursor and the status as they were and calls nothing
    outside. *)
Theorem revocation_callback_clears :
  forall (topic_partitions : TopicPartitionList) (w : World),
    exists w',
      revocation_callback topic_partitions w = (Normal tt, w')
      /\ assignment (this w') = None
      /\ queues (this w') = []
      /\ needs_offset_update (this w') = true
      /\ messages (this w') = messages (this w)
      /\ current (this w') = current (this w)
      /\ stalled_status (this w') = stalled_status (this w)
      /\ history w' = history w.
Proof.
  intros tpl w. rewrite revocation_callback_run.
  eexists. split; [reflexivity |]. cbn. repeat split.
Qed.

(** ** Error filtering *)

Lemma repeat_app_cons {A} (x : A) (n : nat) (l : list A) :
  repeat x n ++ x :: l = x :: repeat x n ++ l.
Proof.
  induction n as [| n IH]; cbn; [reflexivity |].
  rewrite IH. reflexivity.
Qed.

Lemma count_errors_run (ms : Messages) (w : World) :
  count_errors ms w
  = (Normal tt, mkWorld (this w) (history w) (error_signals ms ++ signals w)).
Proof.
  revert w. induction ms as [| m ms IH]; intros w.
  - destruct w; reflexivity.
  - cbn [count_errors]. unfold bind at 1.
    unfold error_signals. cbn [filter].
    destruct (has_error m) eqn:E.
    + cbv [signal]. rewrite IH. cbn [this history signals length repeat].
      unfold error_signals. rewrite repeat_app_cons. reflexivity.
    + cbv [ret]. rewrite IH. reflexivity.
Qed.

Lemma filter_split_length {A} (p : A -> bool) (l : list A) :
  (length l - length (filter (fun x => negb (p x)) l) = length (filter p l))%nat.
Proof.
  induction l as [| x l IH]; [reflexivity |].
  pose proof (filter_length_le (fun x => negb (p x)) l) as Hle.
  cbn [filter length]. destruct (p x); cbn [negb length]; lia.
Qed.

Lemma filter_no_error (ms : Messages) :
  Forall (fun msg => has_error msg = false) (filter (fun msg => negb (has_error msg)) ms).
Proof.
  apply Forall_forall. intros x Hx.
  apply filter_In in Hx. destruct Hx as [_ Hx].
  now apply negb_true_iff in Hx.
Qed.

(** What [filterMessageErrors] does when its assertion passes. *)
Lemma filterMessageErrors_run (debug_build : bool) (w : World) :
  debug_build = false \/ current (this w) = 0%nat ->
  let kept := filter (fun msg => negb (has_error msg)) (messages (this w)) in
  let skipped := length (filter has_error (messages (this w))) in
  filterMessageErrors debug_build w
  = (Normal skipped,
     mkWorld
       (if (skipped =? 0)%nat then set_messages kept (this w)
        else set_current 0%nat (set_messages kept (this w)))
       (history w)
       (error_signals (messages (this w)) ++ signals w)).
Proof.
  intros Hassert kept skipped.
  unfold filterMessageErrors.
  unfold bind at 1. unfold get_this at 1.
  unfold bind at 1.
  assert (Hc : chassert debug_build (at_begin (this w)) w = (Normal tt, w)).
  { unfold chassert, at_begin. destruct Hassert as [-> | ->]; [| destruct debug_build]; reflexivity. }
  rewrite Hc.
  unfold bind at 1. rewrite count_errors_run.
  rewrite (filter_split_length has_error (messages (this w))).
  subst kept skipped. run_monad. cbn [this history signals].
  destruct (length (filter has_error (messages (this w))) =? 0)%nat; reflexivity.
Qed.

(** C4: a batch of m messages of which k > 0 carry a delivery error is
    left by error filtering with exactly m - k messages, none of them an
    error message, in their order of arrival, and the cursor at the start
    of the filtered batch; the function returns k. *)
Theorem filterMessageErrors_removes_errors :
  forall (debug_build : bool) (w : World),
    let m := length (messages (this w)) in
    let k := length (filter has_error (messages (this w))) in
    (0 < k)%nat ->
    debug_build = false \/ current (this w) = 0%nat ->
    exists w',
      filterMessageErrors debug_build w = (Normal k, w')
      /\ length (messages (this w')) = (m - k)%nat
      /\ Forall (fun msg => has_error msg = false) (messages (this w'))
      /\ current (this w') = 0%nat
      /\ messages (this w') = filter (fun msg => negb (has_error msg)) (messages (this w)).
Proof.
  intros debug_build w m k Hk Hassert.
  rewrite (filterMessageErrors_run debug_build w Hassert).
  fold k. destruct (Nat.eqb_spec k 0) as [E | _]; [lia |].
  eexists. split; [reflexivity |]. cbn.
  repeat split.
  - subst m k. rewrite <- (filter_split_length has_error (messages (this w))).
    pose proof (filter_length_le (fun x => negb (has_error x)) (messages (this w))). lia.
  - apply filter_no_error.
Qed.

(** ** The steps of consume *)

Lemma resetIfStopped_run (env : Environment) (w : World) :
  resetIfStopped env w
  = (Normal tt, mkWorld (after_reset env w) (LoadStopped :: history w) (signals w)).
Proof.
  unfold resetIfStopped, after_reset. run_monad. cbn [this history signals].
  destruct (stopped env (history w)); reflexivity.
Qed.

Lemma after_reset_messages env w : messages (after_reset env w) = messages (this w).
Proof. unfold after_reset. destruct (stopped env (history w)); reflexivity. Qed.

Lemma after_reset_current env w : current (after_reset env w) = current (this w).
Proof. unfold after_reset. destruct (stopped env (history w)); reflexivity. Qed.

Lemma after_reset_queues env w : queues (after_reset env w) = queues (this w).
Proof. unfold after_reset. destruct (stopped env (history w)); reflexivity. Qed.

Lemma after_reset_at_end env w : at_end (after_reset env w) = at_end (this w).
Proof. unfold at_end. now rewrite after_reset_messages, after_reset_current. Qed.

Lemma after_reset_deref env w : deref (after_reset env w) = deref (this w).
Proof. unfold deref. now rewrite after_reset_messages, after_reset_current. Qed.

Lemma after_reset_unusable env w tp :
  polledDataUnusable (after_reset env w) tp = polledDataUnusable (this w) tp.
Proof. unfold polledDataUnusable. now rewrite after_reset_at_end, after_reset_deref. Qed.

Lemma after_reset_not_stopped env w :
  stopped env (history w) = false -> after_reset env w = this w.
Proof. unfold after_reset. now intros ->. Qed.

Lemma after_reset_stopped env w :
  stopped env (history w) = true ->
  stalled_status (after_reset env w) = CONSUMER_STOPPED.
Proof. unfold after_reset. now intros ->. Qed.

(** With the cursor on [m] the cursor moves on, and then the message is
    handed out, unless the build asserts and the data pointer is null. *)
Lemma getNextMessage_at (debug_build : bool) (w : World) (m : Message.t) :
  at_end (this w) = false ->
  deref (this w) = Some m ->
  getNextMessage debug_build w
  = (if debug_build && negb (payload_present m) then Aborted else delivered m,
     mkWorld (set_current (S (current (this w))) (this w)) (history w) (signals w)).
Proof.
  intros Hend Hm. unfold getNextMessage, delivered, payload_view, payload_present.
  run_monad. rewrite Hend, Hm. cbn [negb this history signals].
  destruct (debug_build && negb (has_value (Buffer.get_data (Message.get_payload m))));
    reflexivity.
Qed.

Lemma getNextMessage_some (debug_build : bool) (w : World) (m : Message.t) :
  at_end (this w) = false ->
  deref (this w) = Some m ->
  debug_build = false \/ payload_present m = true ->
  getNextMessage debug_build w
  = (delivered m,
     mkWorld (set_current (S (current (this w))) (this w)) (history w) (signals w)).
Proof.
  intros Hend Hm Hassert. rewrite (getNextMessage_at debug_build w m Hend Hm).
  destruct Hassert as [-> | ->]; [reflexivity | now rewrite andb_false_r].
Qed.

Lemma getNextMessage_none (debug_build : bool) (w : World) :
  at_end (this w) = true -> getNextMessage debug_build w = (Normal None, w).
Proof.
  intros Hend. unfold getNextMessage. run_monad. now rewrite Hend.
Qed.

Lemma polledDataUnusable_differs (k : KafkaConsumer2) (tp : TopicPartition) (m : Message.t) :
  at_end k = false ->
  deref k = Some m ->
  (polledDataUnusable k tp = true
   <-> (Message.get_topic m, Message.get_partition m) <> (topic tp, partition_id tp)).
Proof.
  intros Hend Hm. unfold polledDataUnusable. rewrite Hend, Hm.
  destruct (String.eqb_spec (Message.get_topic m) (topic tp)) as [Et | Et];
    destruct (Z.eqb_spec (Message.get_partition m) (partition_id tp)) as [Ep | Ep];
    cbn; split; intros H; try reflexivity; try discriminate; congruence.
Qed.

(** C2: consume(p, n) called while the message at the cursor of a
    non-exhausted batch belongs to another (topic, partition_id) than p
    returns nothing; the only call it makes outside is the load of the stop
    flag, so no queue is pulled, and the batch and the cursor are as
    before. *)
Theorem consume_other_partition_is_frame :
  forall (hmpm : KafkaConsumer2 -> bool) (debug_build : bool) (env : Environment)
         (p : TopicPartition) (n : option Z) (w : World) (m : Message.t),
    at_end (this w) = false ->
    deref (this w) = Some m ->
    (Message.get_topic m, Message.get_partition m) <> (topic p, partition_id p) ->
    exists w',
      consume hmpm debug_build env p n w = (Normal None, w')
      /\ history w' = LoadStopped :: history w
      /\ pulls (history w') = pulls (history w)
      /\ messages (this w') = messages (this w)
      /\ current (this w') = current (this w).
Proof.
  intros hmpm debug_build env p n w m Hend Hm Hdiff.
  unfold consume. unfold bind at 1. rewrite resetIfStopped_run.
  unfold bind at 1. unfold get_this at 1. cbn [this].
  rewrite after_reset_unusable.
  rewrite (proj2 (polledDataUnusable_differs (this w) p m Hend Hm) Hdiff).
  eexists. split; [reflexivity |]. cbn [this history].
  repeat split.
  - apply after_reset_messages.
  - apply after_reset_current.
Qed.

Lemma consume_other_partition_is_frame_witness :
  (Message.get_topic (message_ok 0 payload_a), Message.get_partition (message_ok 0 payload_a))
    <> (topic partition_u0, partition_id partition_u0)
  /\ exists w',
      consume hasMorePolledMessages false quiet partition_u0 None world_buffered_one
      = (Normal None, w')
      /\ history w' = LoadStopped :: history world_buffered_one
      /\ pulls (history w') = pulls (history world_buffered_one)
      /\ messages (this w') = messages (this world_buffered_one)
      /\ current (this w') = current (this world_buffered_one).
Proof.
  assert (Hdiff : (Message.get_topic (message_ok 0 payload_a),
                   Message.get_partition (message_ok 0 payload_a))
                  <> (topic partition_u0, partition_id partition_u0))
    by (cbn; intros H; discriminate H).
  split; [exact Hdiff |].
  apply (consume_other_partition_is_frame hasMorePolledMessages false quiet
           partition_u0 None world_buffered_one (message_ok 0 payload_a));
    [reflexivity | reflexivity | exact Hdiff].
Defined.

Lemma set_stalled_status_after_reset env w st :
  set_stalled_status st (after_reset env w)
  = with_batch (this w) (messages (this w)) (current (this w)) st.
Proof. unfold after_reset. destruct (stopped env (history w)); reflexivity. Qed.

(** The call goes on to the queue lookup when the buffered batch is not
    for another partition and no buffered message is handed out. *)
Lemma consume_to_lookup
    (hmpm : KafkaConsumer2 -> bool) (debug_build : bool) (env : Environment)
    (p : TopicPartition) (n : option Z) (w : World) :
  polledDataUnusable (this w) p = false ->
  at_end (this w) = true \/ hmpm (after_reset env w) = false ->
  at_ (queues (this w)) p = None ->
  consume hmpm debug_build env p n w
  = (Thrown out_of_range,
     mkWorld (set_stalled_status NO_MESSAGES_RETURNED (after_reset env w))
       (history_at_pull w) (signals w)).
Proof.
  intros Hun Hnone Hq.
  unfold consume. unfold bind at 1. rewrite resetIfStopped_run.
  unfold bind at 1. unfold get_this at 1. cbn [this].
  rewrite after_reset_unusable, Hun.
  unfold bind at 1.
  assert (Hnext :
    (if hmpm (after_reset env w) then getNextMessage debug_build else ret None)
      (mkWorld (after_reset env w) (LoadStopped :: history w) (signals w))
    = (Normal None, mkWorld (after_reset env w) (LoadStopped :: history w) (signals w))).
  { destruct Hnone as [Hend | Hno].
    - destruct (hmpm (after_reset env w)); [| reflexivity].
      apply getNextMessage_none. cbn [this]. now rewrite after_reset_at_end.
    - now rewrite Hno. }
  rewrite Hnext.
  unfold bind at 1. unfold modify at 1. cbn [this history signals].
  unfold bind at 1. unfold queues_at. unfold bind at 1. unfold get_this at 1.
  cbn [this queues set_stalled_status]. rewrite after_reset_queues, Hq.
  reflexivity.
Qed.

Lemma trace_offsets_position_run (env : Environment) (w : World) :
  trace_offsets_position env w
  = (Normal tt,
     mkWorld (this w) (trace_calls env (history w) ++ history w) (signals w)).
Proof.
  unfold trace_offsets_position, trace_calls. run_monad. unfold ask.
  destruct (log_trace env (history w)); [reflexivity | now destruct w].
Qed.

(** The same call when the lookup finds the queue [q]: one pull, the stop
    flag loaded again, and then one of four outcomes; in the last, a build
    that asserts aborts on a message whose data pointer is null. *)
Lemma consume_pull_run
    (hmpm : KafkaConsumer2 -> bool) (debug_build : bool) (env : Environment)
    (p : TopicPartition) (n : option Z) (w : World) (q : Queue) :
  polledDataUnusable (this w) p = false ->
  at_end (this w) = true \/ hmpm (after_reset env w) = false ->
  at_ (queues (this w)) p = Some q ->
  let k := this w in
  let batch := pulled_batch env w q n in
  let h := history_after_recheck w q n in
  let h' := history_after_trace env w q n in
  consume hmpm debug_build env p n w
  = if stopped env (history_after_pull w q n) then
      (Normal None, mkWorld (with_batch k (messages k) (current k) CONSUMER_STOPPED) h (signals w))
    else if empty batch then
      (Normal None,
       mkWorld (with_batch k (messages k) (current k) NO_MESSAGES_RETURNED) h (signals w))
    else
      match filter (fun msg => negb (has_error msg)) batch with
      | [] =>
          (Normal None,
           mkWorld (with_batch k [] 0 ERRORS_RETURNED) h' (error_signals batch ++ signals w))
      | m :: rest =>
          (if debug_build && negb (payload_present m) then Aborted else delivered m,
           mkWorld (with_batch k (m :: rest) 1 NOT_STALLED) h'
             (Increment KafkaMessagesPolled (size (m :: rest))
                :: error_signals batch ++ signals w))
      end.
Proof.
  intros Hun Hnone Hq k batch h h'.
  unfold consume. unfold bind at 1. rewrite resetIfStopped_run.
  unfold bind at 1. unfold get_this at 1. cbn [this].
  rewrite after_reset_unusable, Hun.
  unfold bind at 1.
  assert (Hnext :
    (if hmpm (after_reset env w) then getNextMessage debug_build else ret None)
      (mkWorld (after_reset env w) (LoadStopped :: history w) (signals w))
    = (Normal None, mkWorld (after_reset env w) (LoadStopped :: history w) (signals w))).
  { destruct Hnone as [Hend | Hno].
    - destruct (hmpm (after_reset env w)); [| reflexivity].
      apply getNextMessage_none. cbn [this]. now rewrite after_reset_at_end.
    - now rewrite Hno. }
  rewrite Hnext.
  unfold bind at 1. unfold modify at 1. cbn [this history signals].
  rewrite set_stalled_status_after_reset. fold k.
  unfold bind at 1. unfold queues_at. unfold bind at 1. unfold get_this at 1.
  cbn [this queues with_batch]. fold k in Hq. rewrite Hq.
  unfold ret at 1.
  unfold bind at 1. unfold get_this at 1. cbn [this batch_size poll_timeout].
  unfold bind at 1. unfold call at 1. cbn [this history signals].
  unfold bind at 1. rewrite resetIfStopped_run. cbn [this history signals].
  unfold bind at 1. unfold get_this at 1. cbn [this].
  unfold after_reset. cbn [this history signals batch_size poll_timeout with_batch].
  change (ConsumeBatch q
            (to_size_t match n with
                       | Some n0 => to_int64_t n0
                       | None => to_int64_t (batch_size k)
                       end)
            (to_int64_t (poll_timeout k))
            :: LoadStopped :: history w)
    with (history_after_pull w q n).
  change (consume_batch env (LoadStopped :: history w) q
            (to_size_t match n with
                       | Some n0 => to_int64_t n0
                       | None => to_int64_t (batch_size k)
                       end)
            (to_int64_t (poll_timeout k)))
    with batch.
  change (LoadStopped :: history_after_pull w q n) with h.
  destruct (stopped env (history_after_pull w q n)) eqn:Hstop.
  - reflexivity.
  - cbn [stalled_status with_batch StalledStatus_eqb].
    destruct batch as [| m0 batch0] eqn:Hbatch.
    + reflexivity.
    + cbn [empty].
      unfold bind at 1. unfold modify at 1. cbn [this history signals].
      unfold bind at 1. unfold modify at 1. cbn [this history signals].
      unfold bind at 1. rewrite trace_offsets_position_run. cbn [this history signals].
      change (trace_calls env h ++ h) with h'.
      unfold bind at 1. rewrite filterMessageErrors_run by (right; reflexivity).
      cbn [this history signals messages set_messages set_current].
      unfold bind at 1. unfold get_this at 1. cbn [this].
      set (kept := filter (fun msg => negb (has_error msg)) (m0 :: batch0)).
      match goal with
      | |- context [mkWorld (if ?c then ?a else ?b) _ _] =>
          assert (Hobj : (if c then a else b) = with_batch k kept 0 NO_MESSAGES_RETURNED)
            by (destruct c; reflexivity)
      end.
      rewrite Hobj.
      destruct kept as [| m rest] eqn:Hkept.
      * cbn. reflexivity.
      * cbn [at_end with_batch current messages length Nat.eqb].
        unfold bind at 1. unfold signal at 1. cbn [this history signals].
        unfold bind at 1. unfold modify at 1. cbn [this history signals].
        rewrite getNextMessage_at with (m := m) by reflexivity.
        reflexivity.
Qed.

Lemma pulls_after_trace (env : Environment) (w : World) (q : Queue) (n : option Z) :
  pulls (history_after_trace env w q n) = S (pulls (history w)).
Proof.
  unfold history_after_trace, trace_calls.
  destruct (log_trace env (history_after_recheck w q n)); reflexivity.
Qed.

(** When the queue is found the call pulls once and does not end in an
    exception. *)
Lemma consume_found
    (hmpm : KafkaConsumer2 -> bool) (debug_build : bool) (env : Environment)
    (p : TopicPartition) (n : option Z) (w : World) (q : Queue) :
  polledDataUnusable (this w) p = false ->
  at_end (this w) = true \/ hmpm (after_reset env w) = false ->
  at_ (queues (this w)) p = Some q ->
  exists r w',
    consume hmpm debug_build env p n w = (r, w')
    /\ (forall e, r <> Thrown e)
    /\ pulls (history w') = S (pulls (history w)).
Proof.
  intros Hun Hnone Hq.
  rewrite (consume_pull_run hmpm debug_build env p n w q Hun Hnone Hq).
  cbv zeta.
  destruct (stopped env (history_after_pull w q n)).
  - do 2 eexists. split; [reflexivity |]. split; [discriminate | reflexivity].
  - destruct (pulled_batch env w q n) as [| m0 b0].
    + do 2 eexists. split; [reflexivity |]. split; [discriminate | reflexivity].
    + cbn [empty].
      destruct (filter (fun msg => negb (has_error msg)) (m0 :: b0)) as [| m rest];
        do 2 eexists; (split; [reflexivity |]);
        (split; [| cbn [history]; apply pulls_after_trace]).
      * discriminate.
      * unfold delivered.
        destruct (debug_build && negb (payload_present m)); discriminate.
Qed.

(** ** The stop flag *)

(** The re-check after the pull: when the flag is found set there, the
    call returns nothing with CONSUMER_STOPPED and drops what it pulled. *)
Lemma consume_stopped_during_pull
    (hmpm : KafkaConsumer2 -> bool) (debug_build : bool) (env : Environment)
    (p : TopicPartition) (n : option Z) (w : World) (q : Queue) :
  polledDataUnusable (this w) p = false ->
  at_end (this w) = true \/ hmpm (after_reset env w) = false ->
  at_ (queues (this w)) p = Some q ->
  stopped env (history_after_pull w q n) = true ->
  exists w',
    consume hmpm debug_build env p n w = (Normal None, w')
    /\ stalled_status (this w') = CONSUMER_STOPPED
    /\ messages (this w') = messages (this w)
    /\ current (this w') = current (this w).
Proof.
  intros Hun Hnone Hq Hstop.
  rewrite (consume_pull_run hmpm debug_build env p n w q Hun Hnone Hq).
  cbv zeta. rewrite Hstop.
  eexists. split; [reflexivity |]. cbn. repeat split.
Qed.

(** With the flag already set at entry and no batch buffered, the call
    still reaches the queue and pulls from it, whatever
    [hasMorePolledMessages] answers: the status written at entry is
    overwritten, and only the re-check after the pull makes it return. *)
Lemma consume_stopped_at_entry_pulls
    (hmpm : KafkaConsumer2 -> bool) (debug_build : bool) (env : Environment)
    (p : TopicPartition) (n : option Z) (w : World) (q : Queue) :
  stopped env (history w) = true ->
  at_end (this w) = true ->
  at_ (queues (this w)) p = Some q ->
  exists r w',
    consume hmpm debug_build env p n w = (r, w')
    /\ (forall e, r <> Thrown e)
    /\ pulls (history w') = S (pulls (history w)).
Proof.
  intros _ Hend Hq.
  assert (Hun : polledDataUnusable (this w) p = false)
    by (unfold polledDataUnusable; now rewrite Hend).
  exact (consume_found hmpm debug_build env p n w q Hun (or_introl Hend) Hq).
Qed.

(** C1, at a failing input: the consumer owns ("t", 0), holds no batch,
    and the stop flag is set throughout.  The claim has the call return
    nothing with CONSUMER_STOPPED without any pull; the call does return
    nothing with CONSUMER_STOPPED, but only after pulling from the queue of
    ("t", 0), and the message it pulled is dropped.  This holds whatever
    [hasMorePolledMessages] is. *)
Theorem consume_stopped_at_entry_still_pulls :
  forall (hmpm : KafkaConsumer2 -> bool) (debug_build : bool),
    exists w',
      consume hmpm debug_build stopping_with_data partition_t0 None world_stalled
      = (Normal None, w')
      /\ stalled_status (this w') = CONSUMER_STOPPED
      /\ history w' = [LoadStopped; ConsumeBatch queue_t0 100 500; LoadStopped]
      /\ pulls (history w') = 1%nat
      /\ messages (this w') = [].
Proof.
  intros hmpm debug_build.
  assert (Hun : polledDataUnusable (this world_stalled) partition_t0 = false) by reflexivity.
  assert (Hend : at_end (this world_stalled) = true) by reflexivity.
  assert (Hq : at_ (queues (this world_stalled)) partition_t0 = Some queue_t0) by reflexivity.
  rewrite (consume_pull_run hmpm debug_build stopping_with_data partition_t0 None
             world_stalled queue_t0 Hun (or_introl Hend) Hq).
  cbv zeta. cbn [stopping_with_data outside stopped].
  eexists. split; [reflexivity |]. cbn. repeat split.
Qed.

(** ** Delivery from the buffered batch *)

(** C6, as amended: with the stop flag not set at entry, StalledStatus
    NOT_STALLED, [hasMorePolledMessages] answering yes, the cursor on a
    message of the requested (topic, partition_id) and, in a build that
    asserts, the data pointer of that message not null, consume hands out
    a view of [get_size()] bytes at the [get_data()] of that message's
    payload, which are the payload bytes; the only call outside is the load
    of the stop flag, so no queue is pulled; the cursor has advanced by
    exactly one; the status is not assigned on this path and is still
    NOT_STALLED. *)
Theorem consume_buffered_message :
  forall (hmpm : KafkaConsumer2 -> bool) (debug_build : bool) (env : Environment)
         (p : TopicPartition) (n : option Z) (w : World) (m : Message.t),
    stopped env (history w) = false ->
    stalled_status (this w) = NOT_STALLED ->
    hmpm (this w) = true ->
    at_end (this w) = false ->
    deref (this w) = Some m ->
    (Message.get_topic m, Message.get_partition m) = (topic p, partition_id p) ->
    debug_build = false \/ payload_present m = true ->
    exists w',
      consume hmpm debug_build env p n w = (Normal (Some (payload_view m)), w')
      /\ (forall bytes,
            Buffer.get_data (Message.get_payload m) = Some bytes ->
            payload_view m = mkReadBuffer (Some bytes) (length bytes))
      /\ history w' = LoadStopped :: history w
      /\ pulls (history w') = pulls (history w)
      /\ stalled_status (this w') = NOT_STALLED
      /\ current (this w') = S (current (this w))
      /\ messages (this w') = messages (this w).
Proof.
  intros hmpm debug_build env p n w m Hstop Hst Hmore Hend Hm Hsame Hassert.
  assert (Hun : polledDataUnusable (this w) p = false).
  { destruct (polledDataUnusable (this w) p) eqn:E; [| reflexivity].
    apply (polledDataUnusable_differs (this w) p m Hend Hm) in E. contradiction. }
  unfold consume. unfold bind at 1. rewrite resetIfStopped_run.
  unfold bind at 1. unfold get_this at 1. cbn [this].
  rewrite (after_reset_not_stopped env w Hstop), Hun, Hmore.
  unfold bind at 1.
  rewrite (getNextMessage_some debug_build _ m) by assumption.
  eexists. split; [reflexivity |].
  split.
  - intros bytes Hbytes. unfold payload_view, Buffer.get_size. now rewrite Hbytes.
  - cbn. repeat split. exact Hst.
Qed.

Lemma consume_buffered_message_witness :
  exists w',
    consume hasMorePolledMessages true quiet partition_t0 None world_buffered_second
    = (Normal (Some (payload_view (message_ok 1 payload_b))), w')
    /\ (forall bytes,
          Buffer.get_data (Message.get_payload (message_ok 1 payload_b)) = Some bytes ->
          payload_view (message_ok 1 payload_b) = mkReadBuffer (Some bytes) (length bytes))
    /\ history w' = LoadStopped :: history world_buffered_second
    /\ pulls (history w') = pulls (history world_buffered_second)
    /\ stalled_status (this w') = NOT_STALLED
    /\ current (this w') = S (current (this world_buffered_second))
    /\ messages (this w') = messages (this world_buffered_second).
Proof.
  apply (consume_buffered_message hasMorePolledMessages true quiet
           partition_t0 None world_buffered_second (message_ok 1 payload_b));
    try reflexivity.
  right. reflexivity.
Defined.

(** C6, as stated, fails when the stop flag is set at entry: the cursor is
    on a message of the requested partition, yet the call does not come
    back with that message, no pull and NOT_STALLED.  Under the reading of
    [hasMorePolledMessages] taken from the spec the message is handed out
    with the status CONSUMER_STOPPED. *)
Lemma consume_buffered_message_stopped :
  at_end (this world_buffered_one) = false
  /\ deref (this world_buffered_one) = Some (message_ok 0 payload_a)
  /\ (Message.get_topic (message_ok 0 payload_a), Message.get_partition (message_ok 0 payload_a))
     = (topic partition_t0, partition_id partition_t0)
  /\ ~ (exists w',
         consume hasMorePolledMessages false stopping partition_t0 None world_buffered_one
         = (Normal (Some (mkReadBuffer (Some payload_a) 1)), w')
         /\ pulls (history w') = pulls (history world_buffered_one)
         /\ stalled_status (this w') = NOT_STALLED
         /\ current (this w') = S (current (this world_buffered_one))).
Proof.
  repeat split.
  intros (w' & Hrun & _ & Hst & _).
  vm_compute in Hrun. inversion Hrun; subst w'. discriminate Hst.
Qed.

(** The same input defeats the claim for every [hasMorePolledMessages]:
    either the message comes back under CONSUMER_STOPPED, or the queue is
    pulled and nothing comes back. *)
Lemma consume_buffered_message_stopped_any (hmpm : KafkaConsumer2 -> bool) (debug_build : bool) :
  ~ (exists w',
       consume hmpm debug_build stopping partition_t0 None world_buffered_one
       = (Normal (Some (mkReadBuffer (Some payload_a) 1)), w')
       /\ pulls (history w') = pulls (history world_buffered_one)
       /\ stalled_status (this w') = NOT_STALLED
       /\ current (this w') = S (current (this world_buffered_one))).
Proof.
  intros (w' & Hrun & _ & Hst & _).
  destruct (hmpm (after_reset stopping world_buffered_one)) eqn:Hm.
  - unfold consume in Hrun. unfold bind at 1 in Hrun. rewrite resetIfStopped_run in Hrun.
    unfold bind at 1 in Hrun. unfold get_this at 1 in Hrun. cbn [this] in Hrun.
    rewrite after_reset_unusable, Hm in Hrun.
    change (polledDataUnusable (this world_buffered_one) partition_t0) with false in Hrun.
    unfold bind at 1 in Hrun.
    rewrite (getNextMessage_some debug_build _ (message_ok 0 payload_a)) in Hrun
      by first [reflexivity | right; reflexivity].
    inversion Hrun; subst w'. discriminate Hst.
  - assert (Hun : polledDataUnusable (this world_buffered_one) partition_t0 = false)
      by reflexivity.
    assert (Hq : at_ (queues (this world_buffered_one)) partition_t0 = Some queue_t0)
      by reflexivity.
    rewrite (consume_pull_run hmpm debug_build stopping partition_t0 None
               world_buffered_one queue_t0 Hun (or_intror Hm) Hq) in Hrun.
    cbv zeta in Hrun. cbn [stopping outside stopped] in Hrun. discriminate Hrun.
Qed.

(** In a build that asserts, the same path ends the process when the data
    pointer of the message at the cursor is null: the cursor has moved on,
    nothing is handed out. *)
Lemma consume_buffered_message_asserts
    (hmpm : KafkaConsumer2 -> bool) (env : Environment)
    (p : TopicPartition) (n : option Z) (w : World) (m : Message.t) :
  hmpm (after_reset env w) = true ->
  at_end (this w) = false ->
  deref (this w) = Some m ->
  (Message.get_topic m, Message.get_partition m) = (topic p, partition_id p) ->
  payload_present m = false ->
  exists w',
    consume hmpm true env p n w = (Aborted, w')
    /\ history w' = LoadStopped :: history w
    /\ current (this w') = S (current (this w)).
Proof.
  intros Hmore Hend Hm Hsame Hnull.
  assert (Hun : polledDataUnusable (this w) p = false).
  { destruct (polledDataUnusable (this w) p) eqn:E; [| reflexivity].
    apply (polledDataUnusable_differs (this w) p m Hend Hm) in E. contradiction. }
  unfold consume. unfold bind at 1. rewrite resetIfStopped_run.
  unfold bind at 1. unfold get_this at 1. cbn [this].
  rewrite after_reset_unusable, Hun, Hmore.
  unfold bind at 1.
  rewrite (getNextMessage_at true _ m)
    by (cbn [this]; first [now rewrite after_reset_at_end | now rewrite after_reset_deref]).
  rewrite Hnull. cbn [andb negb].
  eexists. split; [reflexivity |]. cbn [this history current set_current].
  split; [reflexivity |]. now rewrite after_reset_current.
Qed.

(** ** A batch of errors only *)

Lemma filter_all_errors (ms : Messages) :
  Forall (fun msg => has_error msg = true) ms ->
  filter (fun msg => negb (has_error msg)) ms = [].
Proof.
  induction 1 as [| m ms Hm _ IH]; cbn; [reflexivity |].
  now rewrite Hm.
Qed.

(** C7: when consume pulls a non-empty batch, goes on to error filtering
    (the stop flag is not set at the re-check) and every message of the
    batch carries an error, it marks ERRORS_RETURNED and returns nothing;
    the batch is left empty. *)
Theorem consume_only_errors :
  forall (hmpm : KafkaConsumer2 -> bool) (debug_build : bool) (env : Environment)
         (p : TopicPartition) (n : option Z) (w : World) (q : Queue),
    polledDataUnusable (this w) p = false ->
    at_end (this w) = true \/ hmpm (after_reset env w) = false ->
    at_ (queues (this w)) p = Some q ->
    stopped env (history_after_pull w q n) = false ->
    pulled_batch env w q n <> [] ->
    Forall (fun msg => has_error msg = true) (pulled_batch env w q n) ->
    exists w',
      consume hmpm debug_build env p n w = (Normal None, w')
      /\ stalled_status (this w') = ERRORS_RETURNED
      /\ messages (this w') = []
      /\ pulls (history w') = S (pulls (history w)).
Proof.
  intros hmpm debug_build env p n w q Hun Hnone Hq Hstop Hne Herr.
  rewrite (consume_pull_run hmpm debug_build env p n w q Hun Hnone Hq).
  cbv zeta. rewrite Hstop.
  destruct (pulled_batch env w q n) as [| m0 b0] eqn:Hb; [congruence |].
  cbn [empty]. rewrite (filter_all_errors _ Herr).
  eexists. split; [reflexivity |]. cbn [this history].
  repeat split. apply pulls_after_trace.
Qed.

Lemma consume_only_errors_witness :
  pulled_batch only_errors world_idle queue_t0 None <> []
  /\ exists w',
      consume hasMorePolledMessages false only_errors partition_t0 None world_idle
      = (Normal None, w')
      /\ stalled_status (this w') = ERRORS_RETURNED
      /\ messages (this w') = []
      /\ pulls (history w') = S (pulls (history world_idle)).
Proof.
  split; [discriminate |].
  apply (consume_only_errors hasMorePolledMessages false only_errors partition_t0 None
           world_idle queue_t0).
  - reflexivity.
  - left. reflexivity.
  - reflexivity.
  - reflexivity.
  - discriminate.
  - repeat constructor.
Defined.

(** ** The order of the keys and the Queue Set *)



Lemma string_ltb_lt (a b : string) : String.ltb a b = true <-> OrderedTypeEx.String_as_OT.lt a b.
Proof.
  unfold String.ltb. rewrite <- OrderedTypeEx.String_as_OT.cmp_lt. unfold OrderedTypeEx.String_as_OT.cmp.
  destruct (String.compare a b); split; intros H; try reflexivity; discriminate H.
Qed.

Lemma string_ltb_irrefl (a : string) : String.ltb a a = false.
Proof.
  destruct (String.ltb a a) eqn:E; [| reflexivity].
  apply string_ltb_lt in E.
  exfalso. apply (OrderedTypeEx.String_as_OT.lt_not_eq _ _ E). reflexivity.
Qed.

Lemma string_ltb_total (a b : string) :
  String.ltb a b = false -> String.ltb b a = false -> a = b.
Proof.
  unfold String.ltb. rewrite (String.compare_antisym b a).
  destruct (String.compare a b) eqn:E; cbn; intros H1 H2; try discriminate.
  now apply String.compare_eq_iff.
Qed.

(** [operator<] spelled out: the lexicographic order of the triple. *)
Lemma key_lt_spec (a b : TopicPartition) :
  key_lt a b
  <-> OrderedTypeEx.String_as_OT.lt (topic a) (topic b)
      \/ (topic a = topic b
          /\ (partition_id a < partition_id b
              \/ (partition_id a = partition_id b /\ offset a < offset b))).
Proof.
  unfold key_lt, TopicPartition_lt, tie_lt.
  destruct (String.ltb (topic a) (topic b)) eqn:Hab.
  - apply string_ltb_lt in Hab. split; [now left | reflexivity].
  - destruct (String.ltb (topic b) (topic a)) eqn:Hba.
    + apply string_ltb_lt in Hba. split; [discriminate |].
      intros [H | [H _]].
      * exfalso.
        apply (OrderedTypeEx.String_as_OT.lt_not_eq _ _
                 (OrderedTypeEx.String_as_OT.lt_trans _ _ _ H Hba)).
        reflexivity.
      * rewrite H in Hba.
        exfalso. apply (OrderedTypeEx.String_as_OT.lt_not_eq _ _ Hba). reflexivity.
    + pose proof (string_ltb_total _ _ Hab Hba) as Heq.
      assert (Hnlt : ~ OrderedTypeEx.String_as_OT.lt (topic a) (topic b)).
      { intros H. apply string_ltb_lt in H. congruence. }
      destruct (Z.ltb_spec (partition_id a) (partition_id b)).
      * split; [intros _; right; split; [exact Heq | left; assumption] | reflexivity].
      * destruct (Z.ltb_spec (partition_id b) (partition_id a)).
        -- split; [discriminate |]. intros [? | [_ [? | [? _]]]]; [contradiction | lia..].
        -- rewrite Z.ltb_lt. split.
           ++ intros ?. right. split; [exact Heq |]. right. split; [lia | assumption].
           ++ intros [? | [_ [? | [_ ?]]]]; [contradiction | lia | assumption].
Qed.

Lemma key_lt_irrefl (a : TopicPartition) : ~ key_lt a a.
Proof.
  rewrite key_lt_spec. intros [H | [_ [H | [_ H]]]]; try lia.
  apply (OrderedTypeEx.String_as_OT.lt_not_eq _ _ H). reflexivity.
Qed.

Lemma key_lt_trans (a b c : TopicPartition) : key_lt a b -> key_lt b c -> key_lt a c.
Proof.
  rewrite !key_lt_spec.
  intros [Hab | (Eab & Hab)] [Hbc | (Ebc & Hbc)].
  - left. eapply OrderedTypeEx.String_as_OT.lt_trans; eassumption.
  - left. now rewrite <- Ebc.
  - left. now rewrite Eab.
  - right. split; [congruence |]. lia.
Qed.

(** Two keys neither of which is less than the other agree on topic,
    partition and offset. *)
Lemma equiv_key_eq (a b : TopicPartition) : equiv_key a b = true <-> a = b.
Proof.
  unfold equiv_key. rewrite andb_true_iff, !negb_true_iff. split.
  - intros [Hab Hba].
    assert (Nab : ~ key_lt a b) by (unfold key_lt; congruence).
    assert (Nba : ~ key_lt b a) by (unfold key_lt; congruence).
    rewrite key_lt_spec in Nab, Nba.
    destruct a as [ta pa oa], b as [tb pb ob]. cbn in *.
    assert (ta = tb).
    { apply string_ltb_total.
      - destruct (String.ltb ta tb) eqn:E; [| reflexivity].
        apply string_ltb_lt in E. tauto.
      - destruct (String.ltb tb ta) eqn:E; [| reflexivity].
        apply string_ltb_lt in E. tauto. }
    subst tb. clear Hab Hba.
    assert (H1 : ~ pa < pb) by (intros ?; apply Nab; right; split; [reflexivity | now left]).
    assert (H2 : ~ pb < pa) by (intros ?; apply Nba; right; split; [reflexivity | now left]).
    assert (pa = pb) by lia. subst pb.
    assert (H3 : ~ oa < ob)
      by (intros ?; apply Nab; right; split; [reflexivity | now right]).
    assert (H4 : ~ ob < oa)
      by (intros ?; apply Nba; right; split; [reflexivity | now right]).
    assert (oa = ob) by lia. subst ob. reflexivity.
  - intros ->. pose proof (key_lt_irrefl b) as H. unfold key_lt in H.
    destruct (TopicPartition_lt b b); [now elim H | now split].
Qed.

Lemma at_none_iff (m : Queues) (k : TopicPartition) :
  at_ m k = None <-> ~ In k (keys m).
Proof.
  induction m as [| [k' v'] m IH]; cbn.
  - tauto.
  - destruct (equiv_key k k') eqn:E.
    + apply equiv_key_eq in E. subst k'. split; [discriminate | tauto].
    + rewrite IH. split.
      * intros Hn [-> | H]; [| tauto].
        assert (equiv_key k k = true) by now apply equiv_key_eq.
        congruence.
      * tauto.
Qed.

Lemma at_some_iff (m : Queues) (k : TopicPartition) :
  (exists q, at_ m k = Some q) <-> In k (keys m).
Proof.
  split.
  - intros [q Hq]. induction m as [| [k' v'] m IH]; cbn in *; [discriminate |].
    destruct (equiv_key k k') eqn:E.
    + apply equiv_key_eq in E. now left.
    + right. now apply IH.
  - intros Hin. destruct (at_ m k) as [q |] eqn:E; [now exists q |].
    apply at_none_iff in E. contradiction.
Qed.

Lemma emplace_keys (k : TopicPartition) (v : Queue) (m : Queues) (x : TopicPartition) :
  In x (keys (emplace k v m)) <-> x = k \/ In x (keys m).
Proof.
  unfold keys.
  induction m as [| [k' v'] m IH]; cbn [emplace map fst In].
  - split; intros [H | H]; auto.
  - destruct (TopicPartition_lt k k') eqn:E1; cbn [map fst In].
    + split; intros [H | H]; auto.
    + destruct (TopicPartition_lt k' k) eqn:E2; cbn [map fst In].
      * rewrite IH. split; intros [H | [H | H]]; auto.
      * assert (k = k').
        { apply equiv_key_eq. unfold equiv_key. now rewrite E1, E2. }
        subst k'. split; [tauto |]. intros [H | H]; auto.
Qed.

Lemma emplace_sorted (k : TopicPartition) (v : Queue) (m : Queues) :
  StronglySorted key_lt (keys m) -> StronglySorted key_lt (keys (emplace k v m)).
Proof.
  induction m as [| [k' v'] m IH]; intros Hs.
  - repeat constructor.
  - change (keys ((k', v') :: m)) with (k' :: keys m) in Hs.
    apply StronglySorted_inv in Hs. destruct Hs as [Hs Hall].
    cbn [emplace].
    destruct (TopicPartition_lt k k') eqn:E1.
    + change (StronglySorted key_lt (k :: k' :: keys m)).
      constructor; [constructor; assumption |].
      constructor; [exact E1 |].
      rewrite Forall_forall in *. intros y Hy.
      eapply key_lt_trans; [exact E1 | now apply Hall].
    + destruct (TopicPartition_lt k' k) eqn:E2.
      * change (StronglySorted key_lt (k' :: keys (emplace k v m))).
        constructor; [now apply IH |].
        rewrite Forall_forall in *. intros y Hy.
        apply emplace_keys in Hy. destruct Hy as [-> | Hy]; [exact E2 | now apply Hall].
      * change (StronglySorted key_lt (k' :: keys m)).
        constructor; assumption.
Qed.

Lemma emplace_all_keys (tpl : TopicPartitionList) (m : Queues) (x : TopicPartition) :
  In x (keys (emplace_all tpl m)) <-> In x (map of_cppkafka tpl) \/ In x (keys m).
Proof.
  revert m. induction tpl as [| tp tpl IH]; intros m.
  - cbn. tauto.
  - change (emplace_all (tp :: tpl) m)
      with (emplace_all tpl (emplace (of_cppkafka tp) (queue_for tp) m)).
    rewrite IH, emplace_keys. cbn [map In].
    split; [intros [H | [H | H]] | intros [[H | H] | H]]; auto.
Qed.

Lemma emplace_all_sorted (tpl : TopicPartitionList) (m : Queues) :
  StronglySorted key_lt (keys m) -> StronglySorted key_lt (keys (emplace_all tpl m)).
Proof.
  revert m. induction tpl as [| tp tpl IH]; intros m Hs; [assumption |].
  change (emplace_all (tp :: tpl) m)
    with (emplace_all tpl (emplace (of_cppkafka tp) (queue_for tp) m)).
  apply IH. now apply emplace_sorted.
Qed.

Lemma sorted_keys_NoDup (l : list TopicPartition) :
  StronglySorted key_lt l -> NoDup l.
Proof.
  induction 1 as [| a l _ IH Hall]; constructor; [| assumption].
  intros Hin. rewrite Forall_forall in Hall.
  apply (key_lt_irrefl a). now apply Hall.
Qed.

Lemma emplace_queues_run (tpl : TopicPartitionList) (w : World) :
  emplace_queues tpl w
  = (Normal tt,
     mkWorld (set_queues (emplace_all tpl (queues (this w))) (this w))
       (rev (map GetPartitionQueue tpl) ++ history w) (signals w)).
Proof.
  revert w. induction tpl as [| tp tpl IH]; intros w.
  - destruct w as [[] h s]. reflexivity.
  - cbn [emplace_queues]. unfold bind at 1. unfold call at 1.
    unfold bind at 1. unfold modify at 1. cbn [this history signals].
    rewrite IH. cbn [this history signals queues set_queues map rev].
    rewrite <- app_assoc. reflexivity.
Qed.

Lemma initializeQueues_run (tpl : TopicPartitionList) (w : World) :
  initializeQueues tpl w
  = (Normal tt, mkWorld (rebuilt (this w) tpl) (rebuild_calls tpl ++ history w) (signals w)).
Proof.
  unfold initializeQueues. run_monad. cbn [this history signals].
  rewrite emplace_queues_run. cbn [this history signals].
  unfold rebuild_calls. rewrite <- app_assoc. reflexivity.
Qed.

Lemma rebuilt_keys (k : KafkaConsumer2) (tpl : TopicPartitionList) (x : TopicPartition) :
  In x (keys (queues (rebuilt k tpl))) <-> In x (map of_cppkafka tpl).
Proof.
  cbn [rebuilt queues]. rewrite emplace_all_keys. cbn. tauto.
Qed.

Lemma rebuilt_keys_NoDup (k : KafkaConsumer2) (tpl : TopicPartitionList) :
  NoDup (keys (queues (rebuilt k tpl))).
Proof.
  apply sorted_keys_NoDup. cbn [rebuilt queues].
  apply emplace_all_sorted. constructor.
Qed.

(** ** The queue lookup of consume *)



(** With the cursor at the end of the batch the call reaches the lookup,
    and ends in std::out_of_range exactly when the lookup fails. *)
Lemma consume_lookup_iff
    (hmpm : KafkaConsumer2 -> bool) (debug_build : bool) (env : Environment)
    (p : TopicPartition) (n : option Z) (w : World) :
  at_end (this w) = true ->
  (fst (consume hmpm debug_build env p n w) = Thrown out_of_range
   <-> at_ (queues (this w)) p = None).
Proof.
  intros Hend.
  assert (Hun : polledDataUnusable (this w) p = false)
    by (unfold polledDataUnusable; now rewrite Hend).
  destruct (at_ (queues (this w)) p) as [q |] eqn:Hq.
  - split; [| discriminate]. intros Hthrown. exfalso.
    destruct (consume_found hmpm debug_build env p n w q Hun (or_introl Hend) Hq)
      as (r & w' & Hrun & Hr & _).
    rewrite Hrun in Hthrown. now apply (Hr out_of_range).
  - rewrite (consume_to_lookup hmpm debug_build env p n w Hun (or_introl Hend) Hq).
    cbn [fst]. tauto.
Qed.



(** ** commit *)

Lemma commit_loop_committed (env : Environment) (remaining : nat)
    (tpl : TopicPartitionList) (w : World) :
  commit_loop env remaining true tpl w = (Normal true, w).
Proof. destruct remaining; reflexivity. Qed.

Lemma commit_loop_attempt (env : Environment) (remaining : nat)
    (tpl : TopicPartitionList) (w : World) :
  commit_loop env (S remaining) false tpl w
  = commit_loop env remaining (attempt_settles env tpl (history w)) tpl
      (mkWorld (this w) (Commit tpl :: history w) (signals w)).
Proof.
  cbn [commit_loop]. unfold bind at 1.
  unfold try_catch_HandleException, bind, call, attempt_settles.
  destruct (commit_outcome env (history w) tpl) as [e |]; cbn.
  - destruct (e =? RD_KAFKA_RESP_ERR__NO_OFFSET); reflexivity.
  - reflexivity.
Qed.

Lemma after_attempts_S (tpl : TopicPartitionList) (j : nat) (h : History) :
  after_attempts tpl j (Commit tpl :: h) = after_attempts tpl (S j) h.
Proof. unfold after_attempts. cbn [repeat]. apply repeat_app_cons. Qed.

(** The retry loop started with [remaining] attempts to go: it makes [a]
    attempts, all but the last of which fail with an error other than "no
    offset"; either the last one settles, or all [remaining] were used. *)
Lemma commit_loop_run (env : Environment) (tpl : TopicPartitionList) (remaining : nat) :
  forall w : World,
  exists (a : nat) (committed : bool),
    (a <= remaining)%nat
    /\ commit_loop env remaining false tpl w
       = (Normal committed,
          mkWorld (this w) (after_attempts tpl a (history w)) (signals w))
    /\ (forall j, (S j < a)%nat ->
          attempt_settles env tpl (after_attempts tpl j (history w)) = false)
    /\ (committed = true ->
        exists i, a = S i
                  /\ attempt_settles env tpl (after_attempts tpl i (history w)) = true)
    /\ (committed = false ->
        a = remaining
        /\ forall j, (j < remaining)%nat ->
             attempt_settles env tpl (after_attempts tpl j (history w)) = false).
Proof.
  induction remaining as [| r IH]; intros w.
  - exists 0%nat, false. split; [lia |]. split; [destruct w; reflexivity |].
    split; [intros j Hj; lia |]. split; [discriminate |].
    intros _. split; [reflexivity | intros j Hj; lia].
  - rewrite commit_loop_attempt.
    destruct (attempt_settles env tpl (history w)) eqn:Hs.
    + exists 1%nat, true. split; [lia |].
      split; [now rewrite commit_loop_committed |].
      split; [intros j Hj; lia |].
      split; [intros _; exists 0%nat; split; [reflexivity | exact Hs] | discriminate].
    + destruct (IH (mkWorld (this w) (Commit tpl :: history w) (signals w)))
        as (a & committed & Ha & Hrun & Hfail & Hok & Hno).
      cbn [this history signals] in *.
      exists (S a), committed. split; [lia |].
      split; [rewrite Hrun; now rewrite after_attempts_S |].
      split; [| split].
      * intros [| j] Hj; [exact Hs |].
        rewrite <- after_attempts_S. apply Hfail. lia.
      * intros Hc. destruct (Hok Hc) as (i & -> & Hi).
        exists (S i). split; [reflexivity |]. now rewrite <- after_attempts_S.
      * intros Hc. destruct (Hno Hc) as (-> & Hall).
        split; [reflexivity |].
        intros [| j] Hj; [exact Hs |].
        rewrite <- after_attempts_S. apply Hall. lia.
Qed.

(** C3: commit(partition) returns normally, leaves the object as it was,
    and makes between one and five attempts to commit the one partition;
    every attempt but the last failed with an error other than "no offset
    to commit"; either the last attempt succeeded or met "no offset to
    commit", and exactly one KafkaCommits signal is recorded, or all five
    failed, and exactly one KafkaCommitFailures signal is recorded. *)
Theorem commit_bounded_retries :
  forall (env : Environment) (topic_partition : TopicPartition) (w : World),
    let tpl := [to_cppkafka topic_partition] in
    exists (attempts : nat) (recorded : ProfileEvent),
      commit env topic_partition w
      = (Normal tt,
         mkWorld (this w) (after_attempts tpl attempts (history w))
           (Increment recorded 1 :: signals w))
      /\ (1 <= attempts <= 5)%nat
      /\ count_calls is_commit (after_attempts tpl attempts (history w))
         = (attempts + count_calls is_commit (history w))%nat
      /\ (forall j, (S j < attempts)%nat ->
            attempt_settles env tpl (after_attempts tpl j (history w)) = false)
      /\ ((attempt_settles env tpl (after_attempts tpl (attempts - 1) (history w)) = true
           /\ recorded = KafkaCommits)
          \/ (attempts = 5%nat
              /\ attempt_settles env tpl (after_attempts tpl 4 (history w)) = false
              /\ recorded = KafkaCommitFailures)).
Proof.
  intros env tp w tpl.
  destruct (commit_loop_run env tpl max_retries w)
    as (a & committed & Ha & Hrun & Hfail & Hok & Hno).
  assert (Hcount : forall a', count_calls is_commit (after_attempts tpl a' (history w))
                              = (a' + count_calls is_commit (history w))%nat).
  { intros a'. unfold count_calls, after_attempts. rewrite filter_app, length_app.
    f_equal. induction a' as [| a' IHa]; cbn; [reflexivity | now rewrite IHa]. }
  unfold commit. fold tpl. unfold bind at 1. rewrite Hrun.
  destruct committed.
  - destruct (Hok eq_refl) as (i & -> & Hi).
    exists (S i), KafkaCommits. cbn [negb]. unfold signal. cbn [this history signals].
    split; [reflexivity |]. unfold max_retries in Ha.
    split; [lia |]. split; [apply Hcount |]. split; [exact Hfail |].
    left. split; [| reflexivity]. now replace (S i - 1)%nat with i by lia.
  - destruct (Hno eq_refl) as (-> & Hall).
    exists max_retries, KafkaCommitFailures. cbn [negb]. unfold signal.
    cbn [this history signals].
    split; [reflexivity |]. unfold max_retries.
    split; [lia |]. split; [apply Hcount |]. split; [exact Hfail |].
    right. split; [reflexivity |]. split; [| reflexivity].
    apply Hall. unfold max_retries. lia.
Qed.

(** A client that always reports "no offset to commit": one attempt, a
    success recorded. *)
Example commit_no_offset :
  commit (outside false [] (Some RD_KAFKA_RESP_ERR__NO_OFFSET) None) partition_t0
    (world_of (consumer_t0 [] 0 NOT_STALLED))
  = (Normal tt,
     mkWorld (consumer_t0 [] 0 NOT_STALLED)
       [Commit [to_cppkafka partition_t0]]
       [Increment KafkaCommits 1]).
Proof. reflexivity. Qed.

(** A client that always fails with a generic error: five attempts, one
    failure recorded, nothing thrown. *)
Example commit_always_fails :
  commit (outside false [] (Some (-185)) None) partition_t0
    (world_of (consumer_t0 [] 0 NOT_STALLED))
  = (Normal tt,
     mkWorld (consumer_t0 [] 0 NOT_STALLED)
       (repeat (Commit [to_cppkafka partition_t0]) 5)
       [Increment KafkaCommitFailures 1]).
Proof. reflexivity. Qed.

(** ** What a computation keeps *)

Section Keeps.

Variable R : World -> World -> Prop.
Hypothesis R_refl : forall w, R w w.
Hypothesis R_trans : forall a b c, R a b -> R b c -> R a c.

Lemma keeps_ret {A} (a : A) : keeps R (ret a).
Proof. intros w. apply R_refl. Qed.

Lemma keeps_throw {A} (e : Exception) : keeps R (@throw A e).
Proof. intros w. apply R_refl. Qed.

Lemma keeps_get_this : keeps R get_this.
Proof. intros w. apply R_refl. Qed.

Lemma keeps_chassert (debug_build cond : bool) : keeps R (chassert debug_build cond).
Proof. intros w. unfold chassert. destruct (debug_build && negb cond); apply R_refl. Qed.

Lemma keeps_bind {A B} (c : M A) (f : A -> M B) :
  keeps R c -> (forall a, keeps R (f a)) -> keeps R (bind c f).
Proof.
  intros Hc Hf w. unfold bind. specialize (Hc w).
  destruct (c w) as [[a | e |] w1]; cbn [snd] in *; [| assumption..].
  eapply R_trans; [exact Hc | apply Hf].
Qed.

Lemma keeps_try {A} (body : M A) (handler : Error -> M A) :
  keeps R body -> (forall e, keeps R (handler e)) ->
  keeps R (try_catch_HandleException body handler).
Proof.
  intros Hb Hh w. unfold try_catch_HandleException. specialize (Hb w).
  destruct (body w) as [[a | [| e] |] w1]; cbn [snd] in *; try assumption.
  eapply R_trans; [exact Hb | apply Hh].
Qed.

End Keeps.

Ltac keeps_structure refl trans :=
  repeat first
    [ apply (keeps_ret _ refl)
    | apply (keeps_throw _ refl)
    | apply (keeps_get_this _ refl)
    | apply (keeps_chassert _ refl)
    | apply (keeps_bind _ trans); [| intros ?]
    | apply (keeps_try _ trans); [| intros ?]
    | match goal with
      | |- keeps _ (if ?b then _ else _) => destruct b
      | |- keeps _ (match ?x with _ => _ end) => destruct x
      end ].

(** *** Counting calls *)

Lemma same_count_refl p w : same_count p w w.
Proof. reflexivity. Qed.

Lemma same_count_trans p a b c : same_count p a b -> same_count p b c -> same_count p a c.
Proof. unfold same_count. congruence. Qed.

Lemma same_count_modify p f : keeps (same_count p) (modify f).
Proof. intros w. reflexivity. Qed.

Lemma same_count_signal p s : keeps (same_count p) (signal s).
Proof. intros w. reflexivity. Qed.

Lemma same_count_call {A} p c (answer : History -> A) :
  p c = false -> keeps (same_count p) (call c answer).
Proof.
  intros Hp w. unfold same_count, call, count_calls. cbn. now rewrite Hp.
Qed.

(** The callbacks call nothing but assign and get_partition_queue. *)
Lemma same_count_emplace_queues p tpl :
  (forall tp, p (GetPartitionQueue tp) = false) ->
  keeps (same_count p) (emplace_queues tpl).
Proof.
  intros Hg. induction tpl as [| tp tpl IH]; cbn [emplace_queues];
    keeps_structure (same_count_refl p) (same_count_trans p);
    try apply same_count_modify; try (now apply same_count_call); try exact IH.
Qed.

Lemma same_count_initializeQueues p tpl :
  p (Assign tpl) = false -> (forall tp, p (GetPartitionQueue tp) = false) ->
  keeps (same_count p) (initializeQueues tpl).
Proof.
  intros Ha Hg. unfold initializeQueues.
  keeps_structure (same_count_refl p) (same_count_trans p);
    try apply same_count_modify; try (now apply same_count_call);
    try (now apply same_count_emplace_queues).
Qed.

Lemma same_count_push_back_all p tpl : keeps (same_count p) (push_back_all tpl).
Proof.
  induction tpl as [| tp tpl IH]; cbn [push_back_all];
    keeps_structure (same_count_refl p) (same_count_trans p);
    try apply same_count_modify; try exact IH.
Qed.

Lemma same_count_serve p debug_build r :
  (forall tpl, p (Assign tpl) = false) -> (forall tp, p (GetPartitionQueue tp) = false) ->
  keeps (same_count p) (serve debug_build r).
Proof.
  intros Ha Hg. destruct r as [tpl | tpl | err]; cbn [serve].
  - unfold assignment_callback.
    keeps_structure (same_count_refl p) (same_count_trans p);
      try apply same_count_modify; try apply same_count_signal;
      try apply same_count_push_back_all;
      try (now apply same_count_call);
      try (now apply same_count_emplace_queues).
  - unfold revocation_callback.
    keeps_structure (same_count_refl p) (same_count_trans p);
      try apply same_count_modify; try apply same_count_signal.
  - apply same_count_signal.
Qed.

Lemma same_count_serve_all p debug_build rs :
  (forall tpl, p (Assign tpl) = false) -> (forall tp, p (GetPartitionQueue tp) = false) ->
  keeps (same_count p) (serve_all debug_build rs).
Proof.
  intros Ha Hg. induction rs as [| r rs IH]; cbn [serve_all].
  - apply (keeps_ret _ (same_count_refl p)).
  - apply (keeps_bind _ (same_count_trans p)); [now apply same_count_serve | intros _; exact IH].
Qed.

(** ** Draining the consumer queue *)

Lemma consumer_poll_count (p : Call -> bool) (debug_build : bool) (env : Environment)
    (timeout : Z) (w : World) :
  (forall tpl, p (Assign tpl) = false) -> (forall tp, p (GetPartitionQueue tp) = false) ->
  count_calls p (history (snd (consumer_poll debug_build env timeout w)))
  = count_calls p (Poll timeout :: history w).
Proof.
  intros Ha Hg. unfold consumer_poll. unfold bind at 1. unfold call at 1.
  set (w1 := mkWorld (this w) (Poll timeout :: history w) (signals w)).
  set (outcome := poll_outcome env (history w)).
  pose proof (same_count_serve_all p debug_build (fst outcome) Ha Hg w1) as Hs.
  unfold same_count in Hs. unfold bind.
  destruct (serve_all debug_build (fst outcome) w1) as [[[] | e |] w2]; exact Hs.
Qed.

Lemma consumer_poll_result (debug_build : bool) (env : Environment) (timeout : Z)
    (w : World) (msg : option Message.t) :
  fst (consumer_poll debug_build env timeout w) = Normal msg ->
  msg = snd (poll_outcome env (history w)).
Proof.
  unfold consumer_poll. unfold bind at 1. unfold call at 1. unfold bind.
  destruct (serve_all debug_build _ _) as [[[] | e |] w2]; cbn; intros H;
    [now inversion H | discriminate..].
Qed.



(** One iteration of the loop, by the result of its poll. *)
Lemma drain_loop_step (debug_build : bool) (env : Environment) (fuel : nat)
    (start_time : Z) (last_error : Error) (w : World) :
  drain_loop debug_build env (S fuel) start_time last_error w
  = match consumer_poll debug_build env 100 w with
    | (Normal None, w1) => (Normal true, w1)
    | (Normal (Some m), w1) =>
        if is_error (Message.get_error m)
           && (Message.is_eof m || (Message.get_error m =? last_error))
        then (Normal true, w1)
        else if elapsed_ms start_time (steady_clock env (history w1)) >? DRAIN_TIMEOUT_MS
             then (Normal true, mkWorld (this w1) (Now :: history w1) (signals w1))
             else drain_loop debug_build env fuel start_time (Message.get_error m)
                    (mkWorld (this w1) (Now :: history w1) (signals w1))
    | (Thrown e, w1) => (Thrown e, w1)
    | (Aborted, w1) => (Aborted, w1)
    end.
Proof.
  cbn [drain_loop]. unfold bind at 1.
  destruct (consumer_poll debug_build env 100 w) as [[[m |] | e |] w1]; try reflexivity.
  destruct (is_error (Message.get_error m)
            && (Message.is_eof m || (Message.get_error m =? last_error)));
    [reflexivity |].
  unfold bind, call. cbn [this history signals].
  destruct (elapsed_ms start_time (steady_clock env (history w1)) >? DRAIN_TIMEOUT_MS);
    reflexivity.
Qed.






(** ** needs_offset_update *)

Lemma flag_stays_refl w : flag_stays w w.
Proof. intros H. exact H. Qed.

Lemma flag_stays_trans a b c : flag_stays a b -> flag_stays b c -> flag_stays a c.
Proof. unfold flag_stays. auto. Qed.

Ltac flag_leaf :=
  try (intros ? ?; cbn; first [assumption | reflexivity]).

Ltac flag_tac := keeps_structure flag_stays_refl flag_stays_trans; flag_leaf.

Lemma flag_stays_emplace_queues tpl : keeps flag_stays (emplace_queues tpl).
Proof. induction tpl as [| tp tpl IH]; cbn [emplace_queues]; flag_tac; exact IH. Qed.

Lemma flag_stays_push_back_all tpl : keeps flag_stays (push_back_all tpl).
Proof. induction tpl as [| tp tpl IH]; cbn [push_back_all]; flag_tac; exact IH. Qed.

Lemma flag_stays_count_errors ms : keeps flag_stays (count_errors ms).
Proof. induction ms as [| m ms IH]; cbn [count_errors]; flag_tac; exact IH. Qed.

Lemma flag_stays_serve debug_build r : keeps flag_stays (serve debug_build r).
Proof.
  destruct r as [tpl | tpl | err]; cbn [serve].
  - unfold assignment_callback. flag_tac;
      first [apply flag_stays_push_back_all | apply flag_stays_emplace_queues].
  - unfold revocation_callback. flag_tac.
  - unfold rebalance_error_callback. flag_tac.
Qed.

Lemma flag_stays_serve_all debug_build rs : keeps flag_stays (serve_all debug_build rs).
Proof.
  induction rs as [| r rs IH]; cbn [serve_all]; flag_tac;
    first [apply flag_stays_serve | exact IH].
Qed.

Lemma flag_stays_consumer_poll debug_build env timeout :
  keeps flag_stays (consumer_poll debug_build env timeout).
Proof. unfold consumer_poll. flag_tac. apply flag_stays_serve_all. Qed.

Lemma flag_stays_pollEvents debug_build env : keeps flag_stays (pollEvents debug_build env).
Proof.
  unfold pollEvents. generalize 5%nat as tries.
  induction tries as [| tries IH]; cbn [pollEvents_loop]; flag_tac;
    first [apply flag_stays_serve_all | exact IH].
Qed.

Lemma flag_stays_commit env tp : keeps flag_stays (commit env tp).
Proof.
  unfold commit, max_retries. flag_tac.
Qed.

Lemma flag_stays_consume hmpm debug_build env tp n :
  keeps flag_stays (consume hmpm debug_build env tp n).
Proof. unfold consume. flag_tac; apply flag_stays_count_errors. Qed.

Lemma flag_stays_perform hmpm debug_build env op :
  is_updateOffsets op = false -> keeps flag_stays (perform hmpm debug_build env op).
Proof.
  destruct op; cbn [is_updateOffsets perform]; intros Hop; try discriminate Hop.
  - apply (keeps_bind _ flag_stays_trans);
      [apply flag_stays_consume | intros _; apply (keeps_ret _ flag_stays_refl)].
  - apply flag_stays_commit.
  - apply flag_stays_pollEvents.
  - unfold discard, getPartitionCounts. flag_tac.
  - unfold discard, getKafkaAssignment. flag_tac.
  - apply flag_stays_serve.
Qed.

Lemma flag_stays_run hmpm debug_build env ops :
  forallb (fun op => negb (is_updateOffsets op)) ops = true ->
  forall w, flag_stays w (run hmpm debug_build env ops w).
Proof.
  induction ops as [| op ops IH]; cbn [forallb run]; intros Hops w.
  - apply flag_stays_refl.
  - apply andb_true_iff in Hops. destruct Hops as [Hop Hops].
    apply negb_true_iff in Hop.
    pose proof (flag_stays_perform hmpm debug_build env op Hop w) as Hstep.
    destruct (perform hmpm debug_build env op w) as [[[] | e |] w']; cbn [snd] in Hstep;
      try exact Hstep;
      (eapply flag_stays_trans; [exact Hstep | now apply IH]).
Qed.

Lemma updateOffsets_run (tps : TopicPartitions) (w : World) :
  updateOffsets tps w
  = (Normal tt,
     mkWorld
       (set_stalled_status NOT_STALLED
          (set_needs_offset_update false (rebuilt (this w) (map to_cppkafka tps))))
       (rebuild_calls (map to_cppkafka tps) ++ history w) (signals w)).
Proof.
  unfold updateOffsets. unfold bind at 1. rewrite initializeQueues_run. reflexivity.
Qed.

Lemma push_back_all_run (tpl : TopicPartitionList) (w : World) :
  push_back_all tpl w
  = (Normal tt,
     mkWorld
       (set_assignment
          (option_map (fun a => a ++ map of_cppkafka tpl) (assignment (this w))) (this w))
       (history w) (signals w)).
Proof.
  revert w. induction tpl as [| tp tpl IH]; intros w.
  - destruct w as [[? ? ? ? ? [a |] ? ? ?] h s]; cbn; [now rewrite app_nil_r | reflexivity].
  - cbn [push_back_all]. unfold bind at 1. unfold modify at 1. rewrite IH.
    cbn [this history signals assignment set_assignment map].
    destruct (assignment (this w)) as [a |]; cbn [option_map]; [| reflexivity].
    now rewrite <- app_assoc.
Qed.

(** What the assignment callback does when its assertion passes. *)
Lemma assignment_callback_run (debug_build : bool) (tpl : TopicPartitionList) (w : World) :
  debug_build = false \/ assignment (this w) = None ->
  assignment_callback debug_build tpl w
  = (Normal tt,
     mkWorld (assigned (this w) tpl) (rebuild_calls tpl ++ history w)
       (assignment_signals tpl ++ signals w)).
Proof.
  intros Hassert. unfold assignment_callback.
  unfold bind at 1. unfold signal at 1.
  unfold bind at 1. unfold signal at 1. cbn [this history signals].
  unfold bind at 1.
  set (w1 := mkWorld (this w) (history w)
               (assignment_signals tpl ++ signals w)).
  assert (Hsig :
    (if empty tpl then ret tt else signal (MetricAdd KafkaConsumersWithAssignment 1))
      (mkWorld (this w) (history w)
         (Increment KafkaRebalanceAssignments 1
            :: MetricAdd KafkaAssignedPartitions (size tpl) :: signals w))
    = (Normal tt, w1)).
  { subst w1. unfold assignment_signals. destruct tpl; reflexivity. }
  rewrite Hsig.
  unfold bind at 1. unfold get_this at 1. unfold bind at 1.
  assert (Hc : chassert debug_build (negb (has_value (assignment (this w1)))) w1
               = (Normal tt, w1)).
  { unfold chassert. subst w1. cbn [this].
    destruct Hassert as [-> | ->]; [reflexivity | now destruct debug_build]. }
  rewrite Hc.
  unfold bind at 1. unfold modify at 1.
  unfold bind at 1. unfold modify at 1.
  unfold bind at 1. rewrite push_back_all_run.
  rewrite initializeQueues_run.
  subst w1. reflexivity.
Qed.

(** C5: when an assignment-received or a revocation callback has fired,
    needs_offset_update is true, and it is still true after any sequence of
    calls of public member functions and further callbacks in which
    updateOffsets does not occur, whatever the outside does; updateOffsets
    then clears it.  After an assignment-received callback the keys of the
    Queue Set are exactly the partitions the callback delivered, each once,
    and the Assignment is that list. *)
Theorem needs_offset_update_until_updateOffsets :
  forall (hmpm : KafkaConsumer2 -> bool) (debug_build : bool) (env : Environment)
         (r : Rebalance) (w : World),
    is_assignment_change r = true ->
    match r with
    | Assigned _ => debug_build = false \/ assignment (this w) = None
    | _ => True
    end ->
    exists w1,
      serve debug_build r w = (Normal tt, w1)
      /\ needs_offset_update (this w1) = true
      /\ (forall ops,
            forallb (fun op => negb (is_updateOffsets op)) ops = true ->
            needs_offset_update (this (run hmpm debug_build env ops w1)) = true)
      /\ (forall ops tps,
            forallb (fun op => negb (is_updateOffsets op)) ops = true ->
            needs_offset_update
              (this (snd (updateOffsets tps (run hmpm debug_build env ops w1)))) = false)
      /\ (forall tpl,
            r = Assigned tpl ->
            (forall key, In key (keys (queues (this w1))) <-> In key (map of_cppkafka tpl))
            /\ NoDup (keys (queues (this w1)))
            /\ assignment (this w1) = Some (map of_cppkafka tpl)).
Proof.
  intros hmpm debug_build env r w Hchange Hassert.
  assert (Hserve : exists w1,
             serve debug_build r w = (Normal tt, w1)
             /\ needs_offset_update (this w1) = true
             /\ (forall tpl, r = Assigned tpl -> this w1 = assigned (this w) tpl)).
  { destruct r as [tpl | tpl | err]; cbn [serve]; [| | discriminate Hchange].
    - rewrite (assignment_callback_run debug_build tpl w Hassert).
      eexists. split; [reflexivity |]. split; [reflexivity |].
      intros tpl' Heq. inversion Heq; subst tpl'. reflexivity.
    - rewrite revocation_callback_run.
      eexists. split; [reflexivity |]. split; [reflexivity |].
      intros tpl' Heq. discriminate Heq. }
  destruct Hserve as (w1 & Hrun & Hflag & Hobj).
  exists w1. split; [exact Hrun |]. split; [exact Hflag |].
  split; [| split].
  - intros ops Hops. now apply (flag_stays_run hmpm debug_build env ops Hops w1).
  - intros ops tps _. rewrite updateOffsets_run. reflexivity.
  - intros tpl Heq. rewrite (Hobj tpl Heq).
    split; [| split].
    + intros key. apply (rebuilt_keys (this w) tpl key).
    + apply (rebuilt_keys_NoDup (this w) tpl).
    + reflexivity.
Qed.

(** ** The properties at concrete inputs *)

Lemma filterMessageErrors_removes_errors_witness :
  (0 < length (filter has_error (messages (this world_mixed_batch))))%nat
  /\ exists w',
      filterMessageErrors true world_mixed_batch = (Normal 1%nat, w')
      /\ length (messages (this w')) = 1%nat
      /\ Forall (fun msg => has_error msg = false) (messages (this w'))
      /\ current (this w') = 0%nat
      /\ messages (this w') = [message_ok 0 payload_a].
Proof.
  split; [cbn; lia |].
  apply (filterMessageErrors_removes_errors true world_mixed_batch);
    [cbn; lia | right; reflexivity].
Defined.

Lemma needs_offset_update_until_updateOffsets_witness :
  assignment (this world_unassigned) = None
  /\ exists w1,
      serve true (Assigned [to_cppkafka partition_t0]) world_unassigned = (Normal tt, w1)
      /\ needs_offset_update (this w1) = true
      /\ needs_offset_update
           (this (run hasMorePolledMessages true quiet
                    [DoPollEvents; DoConsume partition_t0 None; DoCommit partition_t0] w1))
         = true
      /\ keys (queues (this w1)) = [partition_t0].
Proof.
  split; [reflexivity |].
  destruct (needs_offset_update_until_updateOffsets hasMorePolledMessages true quiet
              (Assigned [to_cppkafka partition_t0]) world_unassigned eq_refl
              (or_intror eq_refl))
    as (w1 & Hrun & Hflag & Hstays & _ & _).
  exists w1. split; [exact Hrun |]. split; [exact Hflag |].
  split; [apply Hstays; reflexivity |].
  cbn in Hrun. inversion Hrun. reflexivity.
Defined.



(** *** The scenarios of the spec, run *)

(** A batch of three messages without error is handed out in the order of
    arrival by three calls, the first of which pulls; the fourth call pulls
    again. *)
Example three_messages_in_order :
  let env := outside false [message_ok 0 payload_a; message_ok 1 payload_b;
                            message_ok 2 payload_a] None None in
  let c := consume hasMorePolledMessages true env partition_t0 None in
  let '(r1, w1) := c world_idle in
  let '(r2, w2) := c w1 in
  let '(r3, w3) := c w2 in
  let '(r4, w4) := c w3 in
  (r1, r2, r3) = (Normal (Some (mkReadBuffer (Some payload_a) 1)),
                  Normal (Some (mkReadBuffer (Some payload_b) 1)),
                  Normal (Some (mkReadBuffer (Some payload_a) 1)))
  /\ (pulls (history w1), pulls (history w2), pulls (history w3), pulls (history w4))
     = (1, 1, 1, 2)%nat.
Proof. vm_compute. split; reflexivity. Qed.

(** A batch of two messages, the second with a delivery error: one message
    is left, the cursor at the start, and consume hands out its payload;
    the logger formatting trace lines, the client is asked for its
    assignment and the offsets position after the pull. *)
Example one_error_of_two :
  let env := outside false [message_ok 0 payload_a; message_failed 1 (-185)] None None in
  exists w',
    consume hasMorePolledMessages true env partition_t0 None world_idle
    = (Normal (Some (mkReadBuffer (Some payload_a) 1)), w')
    /\ messages (this w') = [message_ok 0 payload_a]
    /\ current (this w') = 1%nat
    /\ stalled_status (this w') = NOT_STALLED
    /\ signals w' = [Increment KafkaMessagesPolled 1; Increment KafkaConsumerErrors 1]
    /\ history w'
       = [GetOffsetsPosition [to_cppkafka partition_t0]; GetAssignment; LoadStopped;
          ConsumeBatch queue_t0 100 500; LoadStopped].
Proof. eexists. vm_compute. repeat split. Qed.

(** A pulled message without error and without payload: a build that
    asserts ends the process, another hands out a view of no bytes at the
    null pointer. *)
Example message_without_payload_pulled :
  let env := outside false [message_without_payload 0] None None in
  fst (consume hasMorePolledMessages true env partition_t0 None world_idle) = Aborted
  /\ fst (consume hasMorePolledMessages false env partition_t0 None world_idle)
     = Normal (Some (mkReadBuffer None 0)).
Proof. vm_compute. split; reflexivity. Qed.

(** A count of -1 reaches consume_batch as the largest size_t. *)
Example negative_count_wraps :
  history (snd (consume hasMorePolledMessages true quiet partition_t0 (Some (-1)) world_idle))
  = [LoadStopped; ConsumeBatch queue_t0 18446744073709551615 500; LoadStopped].
Proof. vm_compute. reflexivity. Qed.

(** An empty pull is the ordinary stall. *)
Example nothing_to_pull :
  exists w',
    consume hasMorePolledMessages true quiet partition_t0 None world_idle = (Normal None, w')
    /\ stalled_status (this w') = NO_MESSAGES_RETURNED.
Proof. eexists. vm_compute. split; reflexivity. Qed.

(** In a debug build a second assignment without a revocation in between
    fails the assertion of the callback. *)
Example assignment_while_assigned_aborts :
  fst (assignment_callback true [to_cppkafka partition_t0] world_idle) = Aborted.
Proof. reflexivity. Qed.

(** The input that defeats C6 as stated, run under the spec's reading of
    [hasMorePolledMessages]: the payload comes back, the status is
    CONSUMER_STOPPED. *)
Example buffered_message_under_stop :
  exists w',
    consume hasMorePolledMessages false stopping partition_t0 None world_buffered_one
    = (Normal (Some (mkReadBuffer (Some payload_a) 1)), w')
    /\ stalled_status (this w') = CONSUMER_STOPPED
    /\ history w' = [LoadStopped].
Proof. eexists. vm_compute. repeat split. Qed.

(** A client that keeps delivering messages: the drain ends on the budget,
    here at the sixth poll, the clock advancing a second per reading. *)
Example drain_under_flood :
  exists w',
    drainConsumerQueue false flooding 100 world_idle = (Normal true, w')
    /\ count_calls is_poll (history w') = 6%nat.
Proof. eexists. vm_compute. split; reflexivity. Qed.

(** A client that keeps delivering the same error: the drain ends at the
    second poll. *)
Example drain_under_repeated_error :
  exists w',
    drainConsumerQueue false failing_polls 100 world_idle = (Normal true, w')
    /\ count_calls is_poll (history w') = 2%nat.
Proof. eexists. vm_compute. split; reflexivity. Qed.

(** * Further properties of the consumer *)

(** ** The order of the keys *)

(** X1: [operator<] on TopicPartition is a strict total order, as an
    ordered container requires of its comparison: irreflexive, transitive,
    asymmetric, and two keys neither of which is less are the same key,
    offset included. *)
Theorem TopicPartition_lt_strict_total_order :
  (forall a, TopicPartition_lt a a = false)
  /\ (forall a b c,
        TopicPartition_lt a b = true -> TopicPartition_lt b c = true ->
        TopicPartition_lt a c = true)
  /\ (forall a b, TopicPartition_lt a b = true -> TopicPartition_lt b a = false)
  /\ (forall a b,
        TopicPartition_lt a b = false -> TopicPartition_lt b a = false -> a = b).
Proof.
  split; [| split; [| split]].
  - intros a. destruct (TopicPartition_lt a a) eqn:E; [| reflexivity].
    now apply key_lt_irrefl in E.
  - intros a b c Hab Hbc. exact (key_lt_trans a b c Hab Hbc).
  - intros a b Hab. destruct (TopicPartition_lt b a) eqn:Hba; [| reflexivity].
    exfalso. apply (key_lt_irrefl a). exact (key_lt_trans a b a Hab Hba).
  - intros a b Hab Hba. apply equiv_key_eq. unfold equiv_key. now rewrite Hab, Hba.
Qed.

(** ** The Queue Set after an offset update *)

Lemma of_to_cppkafka (tp : TopicPartition) : of_cppkafka (to_cppkafka tp) = tp.
Proof. destruct tp; reflexivity. Qed.

Lemma to_of_cppkafka (tp : TopicPartition.t) : to_cppkafka (of_cppkafka tp) = tp.
Proof. destruct tp; reflexivity. Qed.

Lemma map_of_to_cppkafka (tps : TopicPartitions) :
  map of_cppkafka (map to_cppkafka tps) = tps.
Proof.
  induction tps as [| tp tps IH]; cbn; [reflexivity |].
  now rewrite of_to_cppkafka, IH.
Qed.

(** Every entry of the Queue Set holds the queue of its own key. *)
Lemma emplace_own_queue (k : TopicPartition) (v : Queue) (m : Queues) :
  v = queue_for (to_cppkafka k) ->
  (forall key q, In (key, q) m -> q = queue_for (to_cppkafka key)) ->
  forall key q, In (key, q) (emplace k v m) -> q = queue_for (to_cppkafka key).
Proof.
  intros Hv. induction m as [| [k' v'] m IH]; intros Hm key q Hin; cbn [emplace] in Hin.
  - destruct Hin as [Heq | []]. inversion Heq; subst. reflexivity.
  - destruct (TopicPartition_lt k k').
    + destruct Hin as [Heq | Hin]; [inversion Heq; subst; reflexivity | now apply Hm].
    + destruct (TopicPartition_lt k' k); [| now apply Hm].
      destruct Hin as [Heq | Hin].
      * apply Hm. left. exact Heq.
      * apply IH; [| exact Hin]. intros key' q' Hin'. apply Hm. now right.
Qed.

Lemma emplace_all_own_queue (tpl : TopicPartitionList) (m : Queues) :
  (forall key q, In (key, q) m -> q = queue_for (to_cppkafka key)) ->
  forall key q, In (key, q) (emplace_all tpl m) -> q = queue_for (to_cppkafka key).
Proof.
  revert m. induction tpl as [| tp tpl IH]; intros m Hm; [exact Hm |].
  change (emplace_all (tp :: tpl) m)
    with (emplace_all tpl (emplace (of_cppkafka tp) (queue_for tp) m)).
  apply IH. apply emplace_own_queue; [now rewrite to_of_cppkafka | exact Hm].
Qed.

Lemma at_some_in (m : Queues) (k : TopicPartition) (q : Queue) :
  at_ m k = Some q -> In (k, q) m.
Proof.
  induction m as [| [k' v'] m IH]; cbn; [discriminate |].
  destruct (equiv_key k k') eqn:E.
  - apply equiv_key_eq in E. subst k'. intros H. inversion H. now left.
  - intros H. right. now apply IH.
Qed.

Lemma rebuilt_at (k : KafkaConsumer2) (tpl : TopicPartitionList) (p : TopicPartition) :
  (In p (map of_cppkafka tpl) ->
   at_ (queues (rebuilt k tpl)) p = Some (queue_for (to_cppkafka p)))
  /\ (~ In p (map of_cppkafka tpl) -> at_ (queues (rebuilt k tpl)) p = None).
Proof.
  split; intros Hin.
  - apply (rebuilt_keys k tpl p) in Hin. apply at_some_iff in Hin.
    destruct Hin as [q Hq]. rewrite Hq. f_equal.
    apply at_some_in in Hq. cbn [rebuilt queues] in Hq.
    apply (emplace_all_own_queue tpl []) in Hq; [exact Hq |].
    intros key q' [].
  - apply at_none_iff. now rewrite rebuilt_keys.
Qed.

Lemma rebuilt_entries (k : KafkaConsumer2) (tpl : TopicPartitionList)
    (p : TopicPartition) (q : Queue) :
  In (p, q) (queues (rebuilt k tpl))
  <-> In p (map of_cppkafka tpl) /\ q = queue_for (to_cppkafka p).
Proof.
  split.
  - intros Hin. split.
    + apply (rebuilt_keys k tpl p). unfold keys.
      change p with (fst (p, q)). now apply in_map.
    + cbn [rebuilt queues] in Hin.
      apply (emplace_all_own_queue tpl []) in Hin; [exact Hin |].
      intros key q' [].
  - intros [Hin ->].
    apply at_some_in. now apply (rebuilt_at k tpl p).
Qed.

(** X2: updateOffsets(tps), for a list tps that names each partition once,
    always returns; afterwards the entries of the Queue Set are exactly the
    partitions of tps, each with the queue acquired for it: a lookup with a
    partition of tps finds that queue, a lookup with a topic and
    partition_id that tps does not name finds nothing; the batch is empty
    with the cursor at its end, needs_offset_update is false and the status
    NOT_STALLED; the Assignment is not touched; the client has been told
    assign(tps) once and asked for one partition queue per entry of tps, in
    order. *)
Theorem updateOffsets_installs_queues :
  forall (tps : TopicPartitions) (w : World),
    names_once tps ->
    exists w',
      updateOffsets tps w = (Normal tt, w')
      /\ (forall p q,
            In (p, q) (queues (this w')) <-> In p tps /\ q = queue_for (to_cppkafka p))
      /\ (forall p, In p tps ->
            at_ (queues (this w')) p = Some (queue_for (to_cppkafka p)))
      /\ (forall p,
            (forall key, In key tps ->
               (topic key, partition_id key) <> (topic p, partition_id p)) ->
            at_ (queues (this w')) p = None)
      /\ messages (this w') = []
      /\ at_end (this w') = true
      /\ needs_offset_update (this w') = false
      /\ stalled_status (this w') = NOT_STALLED
      /\ assignment (this w') = assignment (this w)
      /\ history w'
         = rev (map GetPartitionQueue (map to_cppkafka tps))
           ++ Assign (map to_cppkafka tps) :: history w.
Proof.
  intros tps w _. rewrite updateOffsets_run.
  eexists. split; [reflexivity |]. cbn [this history].
  pose proof (rebuilt_at (this w) (map to_cppkafka tps)) as Hat.
  pose proof (rebuilt_entries (this w) (map to_cppkafka tps)) as Hentries.
  rewrite map_of_to_cppkafka in Hat, Hentries.
  split; [intros p q; exact (Hentries p q) |].
  split; [intros p Hin; exact (proj1 (Hat p) Hin) |].
  split.
  { intros p Hnone. apply (proj2 (Hat p)). intros Hin. now apply (Hnone p Hin). }
  repeat split.
  unfold rebuild_calls. now rewrite <- app_assoc.
Qed.

Lemma updateOffsets_installs_queues_witness :
  names_once [partition_t0; partition_u0]
  /\ exists w',
      updateOffsets [partition_t0; partition_u0] world_buffered_one = (Normal tt, w')
      /\ at_ (queues (this w')) partition_u0 = Some (queue_for (to_cppkafka partition_u0))
      /\ messages (this w') = []
      /\ needs_offset_update (this w') = false.
Proof.
  assert (Hnames : names_once [partition_t0; partition_u0]).
  { repeat constructor; cbn; [| tauto]. intros [H | []]. discriminate H. }
  split; [exact Hnames |].
  destruct (updateOffsets_installs_queues [partition_t0; partition_u0] world_buffered_one
              Hnames)
    as (w' & Hrun & _ & Hat & _ & Hms & _ & Hflag & _).
  exists w'. split; [exact Hrun |].
  split; [apply Hat; right; left; reflexivity |].
  split; [exact Hms | exact Hflag].
Defined.

(** ** More on consume *)

(** The call that finds a buffered message at the cursor: the cursor moves
    on and the message is handed out, unless the build asserts and the data
    pointer is null. *)
Lemma consume_buffered_at
    (hmpm : KafkaConsumer2 -> bool) (debug_build : bool) (env : Environment)
    (p : TopicPartition) (n : option Z) (w : World) (m : Message.t) :
  polledDataUnusable (this w) p = false ->
  hmpm (after_reset env w) = true ->
  at_end (this w) = false ->
  deref (this w) = Some m ->
  consume hmpm debug_build env p n w
  = (if debug_build && negb (payload_present m) then Aborted else delivered m,
     mkWorld (set_current (S (current (this w))) (after_reset env w))
       (LoadStopped :: history w) (signals w)).
Proof.
  intros Hun Hmore Hend Hm.
  unfold consume. unfold bind at 1. rewrite resetIfStopped_run.
  unfold bind at 1. unfold get_this at 1. cbn [this].
  rewrite after_reset_unusable, Hun, Hmore.
  unfold bind at 1.
  rewrite (getNextMessage_at debug_build _ m);
    [| cbn [this]; now rewrite after_reset_at_end
     | cbn [this]; now rewrite after_reset_deref].
  cbn [this history signals]. rewrite after_reset_current.
  unfold delivered.
  destruct (debug_build && negb (payload_present m)); reflexivity.
Qed.

Lemma consume_buffered_run
    (hmpm : KafkaConsumer2 -> bool) (debug_build : bool) (env : Environment)
    (p : TopicPartition) (n : option Z) (w : World) (m : Message.t) :
  polledDataUnusable (this w) p = false ->
  hmpm (after_reset env w) = true ->
  at_end (this w) = false ->
  deref (this w) = Some m ->
  debug_build = false \/ payload_present m = true ->
  consume hmpm debug_build env p n w
  = (delivered m,
     mkWorld (set_current (S (current (this w))) (after_reset env w))
       (LoadStopped :: history w) (signals w)).
Proof.
  intros Hun Hmore Hend Hm Hassert.
  rewrite (consume_buffered_at hmpm debug_build env p n w m Hun Hmore Hend Hm).
  destruct Hassert as [-> | ->]; [reflexivity | now rewrite andb_false_r].
Qed.

(** The call that finds the batch of another partition. *)
Lemma consume_unusable_run
    (hmpm : KafkaConsumer2 -> bool) (debug_build : bool) (env : Environment)
    (p : TopicPartition) (n : option Z) (w : World) :
  polledDataUnusable (this w) p = true ->
  consume hmpm debug_build env p n w
  = (Normal None, mkWorld (after_reset env w) (LoadStopped :: history w) (signals w)).
Proof.
  intros Hun.
  unfold consume. unfold bind at 1. rewrite resetIfStopped_run.
  unfold bind at 1. unfold get_this at 1. cbn [this].
  now rewrite after_reset_unusable, Hun.
Qed.

Lemma deref_in_batch (k : KafkaConsumer2) :
  cursor_in_batch k -> at_end k = false -> exists m, deref k = Some m.
Proof.
  unfold cursor_in_batch, at_end, deref. intros Hle Hne.
  apply Nat.eqb_neq in Hne.
  destruct (nth_error (messages k) (current k)) as [m |] eqn:E; [now exists m |].
  apply nth_error_None in E. lia.
Qed.



(** X4: a call of consume that goes to the queue (the buffered batch is
    not for another partition, no buffered message is handed out, the queue
    is found; in a build that asserts, the data pointer of the first pulled
    message without error is not null) hands out a payload exactly when it
    leaves the status NOT_STALLED, and the status names the reason
    otherwise: CONSUMER_STOPPED exactly when the stop flag is set at the
    re-check, NO_MESSAGES_RETURNED exactly when it is not and the pull was
    empty, ERRORS_RETURNED exactly when it is not and the pull was
    non-empty with errors only.  The payload handed out is that of the
    first message without error, and the batch kept is the messages without
    error, in order. *)
Theorem consume_stall_reason :
  forall (hmpm : KafkaConsumer2 -> bool) (debug_build : bool) (env : Environment)
         (p : TopicPartition) (n : option Z) (w : World) (q : Queue),
    polledDataUnusable (this w) p = false ->
    at_end (this w) = true \/ hmpm (after_reset env w) = false ->
    at_ (queues (this w)) p = Some q ->
    (debug_build = false
     \/ forall m,
          hd_error (filter (fun msg => negb (has_error msg)) (pulled_batch env w q n))
          = Some m ->
          payload_present m = true) ->
    let batch := pulled_batch env w q n in
    let kept := filter (fun msg => negb (has_error msg)) batch in
    let flag := stopped env (history_after_pull w q n) in
    exists r w',
      consume hmpm debug_build env p n w = (Normal r, w')
      /\ (r <> None <-> stalled_status (this w') = NOT_STALLED)
      /\ (stalled_status (this w') = CONSUMER_STOPPED <-> flag = true)
      /\ (stalled_status (this w') = NO_MESSAGES_RETURNED <-> flag = false /\ batch = [])
      /\ (stalled_status (this w') = ERRORS_RETURNED
          <-> flag = false /\ batch <> [] /\ kept = [])
      /\ (forall b, r = Some b ->
            exists m rest, kept = m :: rest
                           /\ b = payload_view m
                           /\ messages (this w') = kept
                           /\ current (this w') = 1%nat).
Proof.
  intros hmpm debug_build env p n w q Hun Hnone Hq Hassert batch kept flag.
  rewrite (consume_pull_run hmpm debug_build env p n w q Hun Hnone Hq).
  cbv zeta. fold batch flag. fold batch in Hassert. fold kept in Hassert.
  destruct flag eqn:Hflag.
  - do 2 eexists. split; [reflexivity |]. cbn [this with_batch stalled_status].
    repeat split; try discriminate; try tauto; try congruence;
      intros H; destruct H; congruence.
  - destruct batch as [| m0 b0] eqn:Hbatch.
    + do 2 eexists. split; [reflexivity |]. cbn [this with_batch stalled_status].
      repeat split; try discriminate; try tauto; try congruence;
        intros H; destruct H as (_ & ? & _); congruence.
    + cbn [empty]. fold kept. destruct kept as [| m rest] eqn:Hkept.
      * do 2 eexists. split; [reflexivity |]. cbn [this with_batch stalled_status].
        repeat split; try discriminate; try tauto; try congruence;
          intros H; destruct H; congruence.
      * assert (Hok : debug_build && negb (payload_present m) = false).
        { destruct Hassert as [-> | Hpresent]; [reflexivity |].
          rewrite (Hpresent m eq_refl). apply andb_false_r. }
        rewrite Hok. unfold delivered.
        do 2 eexists. split; [reflexivity |].
        cbn [this with_batch stalled_status messages current].
        repeat split; try discriminate; try tauto; try congruence.
        -- intros H; destruct H; congruence.
        -- intros H; destruct H as (_ & _ & ?); congruence.
        -- intros b Hb. inversion Hb; subst b. exists m, rest. repeat split.
Qed.

Lemma consume_stall_reason_witness :
  polledDataUnusable (this world_idle) partition_t0 = false
  /\ exists r w',
      consume hasMorePolledMessages true only_errors partition_t0 None world_idle
      = (Normal r, w')
      /\ (r <> None <-> stalled_status (this w') = NOT_STALLED)
      /\ stalled_status (this w') = ERRORS_RETURNED.
Proof.
  split; [reflexivity |].
  destruct (consume_stall_reason hasMorePolledMessages true only_errors partition_t0 None
              world_idle queue_t0 eq_refl (or_introl eq_refl) eq_refl
              (or_intror (fun m (H : None = Some m) =>
                            match H in _ = o
                                  return match o with
                                         | Some _ => payload_present m = true
                                         | None => True
                                         end
                            with eq_refl => I end)))
    as (r & w' & Hrun & Hiff & _ & _ & Herr & _).
  exists r, w'. split; [exact Hrun |]. split; [exact Hiff |].
  apply Herr. split; [reflexivity |]. split; [discriminate | reflexivity].
Defined.

(** ** A pulled batch is handed out in order *)

Lemma usable_of_partition (k : KafkaConsumer2) (p : TopicPartition) (m : Message.t) :
  deref k = Some m -> of_partition p m -> polledDataUnusable k p = false.
Proof.
  intros Hm [Ht Hp]. unfold polledDataUnusable. rewrite Hm.
  destruct (at_end k); [reflexivity |].
  rewrite Ht, Hp, String.eqb_refl, Z.eqb_refl. reflexivity.
Qed.

(** With the cursor in front of [rest], as many calls as [rest] has
    messages hand them out in order and load the stop flag once each. *)
Lemma consume_times_buffered
    (hmpm : KafkaConsumer2 -> bool) (debug_build : bool) (env : Environment)
    (p : TopicPartition) (n : option Z) :
  never_stopped env ->
  (forall k, stalled_status k = NOT_STALLED -> at_end k = false -> hmpm k = true) ->
  forall (rest before : Messages) (w : World),
    messages (this w) = before ++ rest ->
    current (this w) = length before ->
    stalled_status (this w) = NOT_STALLED ->
    Forall (of_partition p) rest ->
    debug_build = false \/ Forall (fun msg => payload_present msg = true) rest ->
    consume_times hmpm debug_build env p n (length rest) w
    = (map delivered rest,
       mkWorld (set_current (length (before ++ rest)) (this w))
         (repeat LoadStopped (length rest) ++ history w) (signals w)).
Proof.
  intros Hns Hmore rest.
  induction rest as [| m rest IH]; intros before w Hms Hcur Hst Hall Hassert.
  - cbn. rewrite app_nil_r, <- Hcur. destruct w as [[] h sg]. reflexivity.
  - cbn [length consume_times].
    assert (Hend : at_end (this w) = false).
    { unfold at_end. rewrite Hms, Hcur, length_app. cbn [length].
      apply Nat.eqb_neq. lia. }
    assert (Hm : deref (this w) = Some m).
    { unfold deref. rewrite Hms, Hcur, nth_error_app2 by lia.
      now rewrite Nat.sub_diag. }
    inversion Hall as [| ? ? Hp Hrest]; subst.
    assert (Hreset : after_reset env w = this w) by (apply after_reset_not_stopped, Hns).
    assert (Hfirst : debug_build = false \/ payload_present m = true).
    { destruct Hassert as [-> | Hpresent]; [now left | right].
      now inversion Hpresent. }
    assert (Hothers : debug_build = false \/ Forall (fun msg => payload_present msg = true) rest).
    { destruct Hassert as [-> | Hpresent]; [now left | right].
      now inversion Hpresent. }
    rewrite (consume_buffered_run hmpm debug_build env p n w m
               (usable_of_partition _ p m Hm Hp)
               ltac:(rewrite Hreset; now apply Hmore) Hend Hm Hfirst).
    rewrite Hreset.
    rewrite (IH (before ++ [m])
               (mkWorld (set_current (S (current (this w))) (this w))
                  (LoadStopped :: history w) (signals w))).
    + cbn [map this history signals set_current messages current
             batch_size poll_timeout topics assignment queues needs_offset_update
             stalled_status].
      rewrite <- app_assoc. cbn [app].
      rewrite repeat_app_cons. reflexivity.
    + cbn [this messages set_current]. rewrite Hms, <- app_assoc. reflexivity.
    + cbn [this current set_current]. rewrite Hcur, length_app. cbn [length]. lia.
    + exact Hst.
    + exact Hrest.
    + exact Hothers.
Qed.

(** X5: with the stop flag never set, a call of consume(p, n) that pulls a
    batch whose messages without error are [m :: rest], all of partition p
    and, in a build that asserts, all with a data pointer that is not null,
    followed by as many further calls as [rest] has messages, hands out the
    payloads of [m :: rest] in their order of arrival, each once; the queue
    is pulled once in all, and the cursor ends at the end of the batch, so
    the next call pulls again.  [hasMorePolledMessages] may be any function
    that answers yes under NOT_STALLED with the cursor inside the batch. *)
Theorem consume_delivers_batch_in_order :
  forall (hmpm : KafkaConsumer2 -> bool) (debug_build : bool) (env : Environment)
         (p : TopicPartition) (n : option Z) (w : World) (q : Queue)
         (m : Message.t) (rest : Messages),
    never_stopped env ->
    (forall k, stalled_status k = NOT_STALLED -> at_end k = false -> hmpm k = true) ->
    at_end (this w) = true ->
    at_ (queues (this w)) p = Some q ->
    filter (fun msg => negb (has_error msg)) (pulled_batch env w q n) = m :: rest ->
    Forall (of_partition p) (m :: rest) ->
    debug_build = false \/ Forall (fun msg => payload_present msg = true) (m :: rest) ->
    exists w',
      consume_times hmpm debug_build env p n (S (length rest)) w
      = (map delivered (m :: rest), w')
      /\ pulls (history w') = S (pulls (history w))
      /\ messages (this w') = m :: rest
      /\ at_end (this w') = true.
Proof.
  intros hmpm debug_build env p n w q m rest Hns Hmore Hend Hq Hkept Hall Hassert.
  assert (Hun : polledDataUnusable (this w) p = false)
    by (unfold polledDataUnusable; now rewrite Hend).
  assert (Hfirst : debug_build && negb (payload_present m) = false).
  { destruct Hassert as [-> | Hpresent]; [reflexivity |].
    inversion Hpresent as [| ? ? Hm _]; subst. rewrite Hm. apply andb_false_r. }
  assert (Hothers : debug_build = false \/ Forall (fun msg => payload_present msg = true) rest).
  { destruct Hassert as [-> | Hpresent]; [now left | right].
    now inversion Hpresent. }
  cbn [consume_times].
  rewrite (consume_pull_run hmpm debug_build env p n w q Hun (or_introl Hend) Hq).
  cbv zeta. rewrite (Hns (history_after_pull w q n)).
  destruct (pulled_batch env w q n) as [| m0 b0] eqn:Hb; [discriminate Hkept |].
  cbn [empty]. rewrite Hkept, Hfirst.
  inversion Hall as [| ? ? _ Hrest]; subst.
  rewrite (consume_times_buffered hmpm debug_build env p n Hns Hmore rest [m]);
    [| reflexivity | reflexivity | reflexivity | exact Hrest | exact Hothers].
  eexists. split; [reflexivity |].
  cbn [this history signals messages current set_current with_batch app length].
  split; [| split; [reflexivity |]].
  - unfold pulls, count_calls. rewrite filter_app, length_app.
    assert (Hload : filter is_pull (repeat LoadStopped (length rest)) = []).
    { induction (length rest) as [| j IHj]; [reflexivity | exact IHj]. }
    rewrite Hload. apply pulls_after_trace.
  - unfold at_end. cbn [current messages length]. apply Nat.eqb_refl.
Qed.

Lemma consume_delivers_batch_in_order_witness :
  exists w',
    consume_times hasMorePolledMessages true
      (outside false [message_ok 0 payload_a; message_failed 1 (-185); message_ok 2 payload_b]
         None None)
      partition_t0 None 2 world_idle
    = ([delivered (message_ok 0 payload_a); delivered (message_ok 2 payload_b)], w')
    /\ pulls (history w') = S (pulls (history world_idle))
    /\ messages (this w') = [message_ok 0 payload_a; message_ok 2 payload_b]
    /\ at_end (this w') = true.
Proof.
  apply (consume_delivers_batch_in_order hasMorePolledMessages true
           (outside false [message_ok 0 payload_a; message_failed 1 (-185);
                           message_ok 2 payload_b] None None)
           partition_t0 None world_idle queue_t0
           (message_ok 0 payload_a) [message_ok 2 payload_b]).
  - intros h. reflexivity.
  - intros k _ Hk. unfold hasMorePolledMessages. now rewrite Hk.
  - reflexivity.
  - reflexivity.
  - reflexivity.
  - repeat constructor.
  - right. repeat constructor.
Defined.

(** ** The cursor stays within the batch *)

Lemma cursor_stays_refl w : cursor_stays w w.
Proof. intros H. exact H. Qed.

Lemma cursor_stays_trans a b c : cursor_stays a b -> cursor_stays b c -> cursor_stays a c.
Proof. unfold cursor_stays. auto. Qed.

Ltac cursor_leaf := try (intros ? ?; cbn; assumption).

Lemma cursor_stays_initializeQueues tpl : keeps cursor_stays (initializeQueues tpl).
Proof.
  intros w _. rewrite initializeQueues_run. cbn. unfold cursor_in_batch. cbn. lia.
Qed.

Lemma cursor_stays_push_back_all tpl : keeps cursor_stays (push_back_all tpl).
Proof. intros w H. rewrite push_back_all_run. exact H. Qed.

Lemma cursor_stays_assignment_callback debug_build tpl :
  keeps cursor_stays (assignment_callback debug_build tpl).
Proof.
  unfold assignment_callback.
  let leaf :=
    first [ apply cursor_stays_initializeQueues
          | apply cursor_stays_push_back_all
          | apply (keeps_chassert _ cursor_stays_refl)
          | apply (keeps_get_this _ cursor_stays_refl)
          | destruct (empty tpl); intros ? ?; cbn; assumption
          | intros ? ?; cbn; assumption ] in
  let rec chain :=
    lazymatch goal with
    | |- keeps _ (bind _ _) =>
        apply (keeps_bind _ cursor_stays_trans); [leaf | intros ?; chain]
    | _ => leaf
    end in
  chain.
Qed.

Lemma cursor_stays_serve debug_build r : keeps cursor_stays (serve debug_build r).
Proof.
  destruct r as [tpl | tpl | err]; cbn [serve].
  - apply cursor_stays_assignment_callback.
  - intros w H. rewrite revocation_callback_run. exact H.
  - intros w H. exact H.
Qed.

Lemma cursor_stays_serve_all debug_build rs : keeps cursor_stays (serve_all debug_build rs).
Proof.
  induction rs as [| r rs IH]; cbn [serve_all].
  - apply (keeps_ret _ cursor_stays_refl).
  - apply (keeps_bind _ cursor_stays_trans);
      [apply cursor_stays_serve | intros _; exact IH].
Qed.

Lemma cursor_stays_consumer_poll debug_build env timeout :
  keeps cursor_stays (consumer_poll debug_build env timeout).
Proof.
  unfold consumer_poll.
  apply (keeps_bind _ cursor_stays_trans); [intros w H; exact H | intros outcome].
  apply (keeps_bind _ cursor_stays_trans);
    [apply cursor_stays_serve_all | intros _; apply (keeps_ret _ cursor_stays_refl)].
Qed.

Lemma cursor_stays_pollEvents debug_build env : keeps cursor_stays (pollEvents debug_build env).
Proof.
  unfold pollEvents. generalize 5%nat as tries.
  induction tries as [| tries IH]; cbn [pollEvents_loop].
  - apply (keeps_ret _ cursor_stays_refl).
  - apply (keeps_bind _ cursor_stays_trans); [apply cursor_stays_consumer_poll |].
    intros [m |]; [| apply (keeps_ret _ cursor_stays_refl)].
    apply (keeps_bind _ cursor_stays_trans);
      [apply (keeps_chassert _ cursor_stays_refl) | intros _; exact IH].
Qed.

Lemma cursor_stays_drain_loop debug_build env fuel :
  forall start_time last_error,
    keeps cursor_stays (drain_loop debug_build env fuel start_time last_error).
Proof.
  induction fuel as [| fuel IH]; intros start_time last_error; cbn [drain_loop].
  - apply (keeps_ret _ cursor_stays_refl).
  - apply (keeps_bind _ cursor_stays_trans); [apply cursor_stays_consumer_poll |].
    intros [m |]; [| apply (keeps_ret _ cursor_stays_refl)].
    destruct (is_error (Message.get_error m)
              && (Message.is_eof m || (Message.get_error m =? last_error)));
      [apply (keeps_ret _ cursor_stays_refl) |].
    apply (keeps_bind _ cursor_stays_trans); [intros w H; exact H | intros ts].
    destruct (elapsed_ms start_time ts >? DRAIN_TIMEOUT_MS);
      [apply (keeps_ret _ cursor_stays_refl) | apply IH].
Qed.

Lemma cursor_stays_destructor debug_build env fuel :
  keeps cursor_stays (KafkaConsumer2_destructor debug_build env fuel).
Proof.
  unfold KafkaConsumer2_destructor.
  apply (keeps_try _ cursor_stays_trans); [| intros _; apply (keeps_ret _ cursor_stays_refl)].
  apply (keeps_bind _ cursor_stays_trans).
  - unfold get_subscription. keeps_structure cursor_stays_refl cursor_stays_trans.
  - intros names. destruct (negb (empty names)); [| apply (keeps_ret _ cursor_stays_refl)].
    apply (keeps_bind _ cursor_stays_trans).
    + unfold unsubscribe. keeps_structure cursor_stays_refl cursor_stays_trans.
    + intros _. unfold drainConsumerQueue.
      apply (keeps_bind _ cursor_stays_trans); [intros w H; exact H | intros ts].
      apply cursor_stays_drain_loop.
Qed.

Lemma cursor_stays_consume hmpm debug_build env p n :
  keeps cursor_stays (consume hmpm debug_build env p n).
Proof.
  intros w Hwf. unfold cursor_in_batch in *.
  destruct (polledDataUnusable (this w) p) eqn:Hun.
  - rewrite consume_unusable_run by exact Hun. cbn [snd this].
    now rewrite after_reset_messages, after_reset_current.
  - assert (Hpull : at_end (this w) = true \/ hmpm (after_reset env w) = false ->
                    (current (this (snd (consume hmpm debug_build env p n w)))
                     <= length (messages (this (snd (consume hmpm debug_build env p n w)))))%nat).
    { intros Hnone. destruct (at_ (queues (this w)) p) as [q |] eqn:Hq.
      - rewrite (consume_pull_run hmpm debug_build env p n w q Hun Hnone Hq). cbv zeta.
        destruct (stopped env (history_after_pull w q n)); [exact Hwf |].
        destruct (pulled_batch env w q n) as [| m0 b0]; [exact Hwf |].
        cbn [empty].
        destruct (filter (fun msg => negb (has_error msg)) (m0 :: b0)); cbn; lia.
      - rewrite (consume_to_lookup hmpm debug_build env p n w Hun Hnone Hq).
        cbn [snd this set_stalled_status messages current].
        now rewrite after_reset_messages, after_reset_current. }
    destruct (at_end (this w)) eqn:Hend; [apply Hpull; now left |].
    destruct (hmpm (after_reset env w)) eqn:Hmore; [| apply Hpull; now right].
    destruct (deref_in_batch (this w) Hwf Hend) as [m Hm].
    rewrite (consume_buffered_at hmpm debug_build env p n w m Hun Hmore Hend Hm).
    cbn [snd this set_current messages current].
    rewrite after_reset_messages.
    unfold deref in Hm.
    assert (Hlt : (current (this w) < length (messages (this w)))%nat)
      by (apply nth_error_Some; congruence).
    lia.
Qed.

Lemma cursor_stays_perform hmpm debug_build env op :
  keeps cursor_stays (perform hmpm debug_build env op).
Proof.
  destruct op; cbn [perform].
  - apply (keeps_bind _ cursor_stays_trans);
      [apply cursor_stays_consume | intros _; apply (keeps_ret _ cursor_stays_refl)].
  - unfold commit, max_retries.
    keeps_structure cursor_stays_refl cursor_stays_trans; cursor_leaf.
  - apply cursor_stays_pollEvents.
  - unfold discard, getPartitionCounts.
    keeps_structure cursor_stays_refl cursor_stays_trans; cursor_leaf.
  - unfold discard, getKafkaAssignment.
    keeps_structure cursor_stays_refl cursor_stays_trans; cursor_leaf.
  - intros w _. rewrite updateOffsets_run. cbn. unfold cursor_in_batch. cbn. lia.
  - apply cursor_stays_serve.
Qed.

Lemma cursor_stays_run hmpm debug_build env ops :
  forall w, cursor_stays w (run hmpm debug_build env ops w).
Proof.
  induction ops as [| op ops IH]; cbn [run]; intros w.
  - apply cursor_stays_refl.
  - pose proof (cursor_stays_perform hmpm debug_build env op w) as Hstep.
    destruct (perform hmpm debug_build env op w) as [[[] | e |] w']; cbn [snd] in Hstep;
      try exact Hstep;
      (eapply cursor_stays_trans; [exact Hstep | apply IH]).
Qed.

(** X6: the cursor never leaves the batch.  If [current] lies between
    [messages.begin()] and [messages.end()], it still does after any
    sequence of calls of the public member functions and of rebalance
    callbacks, whatever the outside answers and however the calls end, and
    after the destructor; so [current] is never dereferenced or advanced
    past the end. *)
Theorem cursor_never_leaves_batch :
  forall (hmpm : KafkaConsumer2 -> bool) (debug_build : bool) (env : Environment)
         (ops : list Operation) (fuel : nat) (w : World),
    cursor_in_batch (this w) ->
    cursor_in_batch (this (run hmpm debug_build env ops w))
    /\ cursor_in_batch
         (this (snd (KafkaConsumer2_destructor debug_build env fuel
                       (run hmpm debug_build env ops w)))).
Proof.
  intros hmpm debug_build env ops fuel w Hwf.
  assert (Hrun : cursor_in_batch (this (run hmpm debug_build env ops w)))
    by (now apply cursor_stays_run).
  split; [exact Hrun |].
  now apply cursor_stays_destructor.
Qed.

Lemma cursor_never_leaves_batch_witness :
  cursor_in_batch (this world_buffered_second)
  /\ cursor_in_batch
       (this (run hasMorePolledMessages true flooding
                [DoConsume partition_t0 None; DoConsume partition_t0 None;
                 DoUpdateOffsets [partition_t0_at_7]; DoPollEvents]
                world_buffered_second)).
Proof.
  assert (H : cursor_in_batch (this world_buffered_second)) by (cbv; lia).
  split; [exact H |].
  exact (proj1 (cursor_never_leaves_batch hasMorePolledMessages true flooding
                  [DoConsume partition_t0 None; DoConsume partition_t0 None;
                   DoUpdateOffsets [partition_t0_at_7]; DoPollEvents]
                  0 world_buffered_second H)).
Defined.

(** ** What consume leaves alone *)

Lemma same_ownership_refl w : same_ownership w w.
Proof. repeat split. Qed.

Lemma same_ownership_trans a b c :
  same_ownership a b -> same_ownership b c -> same_ownership a c.
Proof.
  unfold same_ownership.
  intros (H1 & H2 & H3 & H4 & H5 & H6) (G1 & G2 & G3 & G4 & G5 & G6).
  repeat split; congruence.
Qed.

Lemma same_ownership_consume hmpm debug_build env p n :
  keeps same_ownership (consume hmpm debug_build env p n).
Proof.
  unfold consume.
  keeps_structure same_ownership_refl same_ownership_trans;
    try (intros ?; rewrite ?count_errors_run; cbn; repeat split).
Qed.

(** X7: consume never touches the Assignment, the Queue Set,
    needs_offset_update or the configured batch size, timeout and topics;
    and, called with the cursor within the batch, it calls outside in one
    of three ways only: it loads the stop flag once and pulls nothing; or
    it loads the flag, pulls once from the queue found for the requested
    key and loads the flag again; or, the flag not set at that second load
    and the pull not empty, it goes on to the client calls of the trace
    line, get_assignment and get_offsets_position, made when the logger
    formats that line.  It never commits and never polls the consumer
    queue. *)
Theorem consume_frame :
  forall (hmpm : KafkaConsumer2 -> bool) (debug_build : bool) (env : Environment)
         (p : TopicPartition) (n : option Z) (w : World),
    cursor_in_batch (this w) ->
    let w' := snd (consume hmpm debug_build env p n w) in
    same_ownership w w'
    /\ count_calls is_commit (history w') = count_calls is_commit (history w)
    /\ count_calls is_poll (history w') = count_calls is_poll (history w)
    /\ (history w' = LoadStopped :: history w
        \/ exists q,
             at_ (queues (this w)) p = Some q
             /\ (history w' = history_after_recheck w q n
                 \/ (stopped env (history_after_pull w q n) = false
                     /\ pulled_batch env w q n <> []
                     /\ history w'
                        = trace_calls env (history_after_recheck w q n)
                          ++ history_after_recheck w q n))).
Proof.
  intros hmpm debug_build env p n w Hwf w'.
  split; [apply same_ownership_consume |]. subst w'.
  assert (Hcalls :
    history (snd (consume hmpm debug_build env p n w)) = LoadStopped :: history w
    \/ exists q,
         at_ (queues (this w)) p = Some q
         /\ (history (snd (consume hmpm debug_build env p n w))
             = history_after_recheck w q n
             \/ (stopped env (history_after_pull w q n) = false
                 /\ pulled_batch env w q n <> []
                 /\ history (snd (consume hmpm debug_build env p n w))
                    = trace_calls env (history_after_recheck w q n)
                      ++ history_after_recheck w q n))).
  { destruct (polledDataUnusable (this w) p) eqn:Hun.
    - left. now rewrite consume_unusable_run.
    - assert (Hpull : at_end (this w) = true \/ hmpm (after_reset env w) = false ->
          history (snd (consume hmpm debug_build env p n w)) = LoadStopped :: history w
          \/ exists q,
               at_ (queues (this w)) p = Some q
               /\ (history (snd (consume hmpm debug_build env p n w))
                   = history_after_recheck w q n
                   \/ (stopped env (history_after_pull w q n) = false
                       /\ pulled_batch env w q n <> []
                       /\ history (snd (consume hmpm debug_build env p n w))
                          = trace_calls env (history_after_recheck w q n)
                            ++ history_after_recheck w q n))).
      { intros Hnone. destruct (at_ (queues (this w)) p) as [q |] eqn:Hq.
        - right. exists q. split; [reflexivity |].
          rewrite (consume_pull_run hmpm debug_build env p n w q Hun Hnone Hq). cbv zeta.
          destruct (stopped env (history_after_pull w q n)); [now left |].
          destruct (pulled_batch env w q n) as [| m0 b0]; [now left |].
          cbn [empty]. right. split; [reflexivity |]. split; [discriminate |].
          destruct (filter (fun msg => negb (has_error msg)) (m0 :: b0)); reflexivity.
        - left. now rewrite (consume_to_lookup hmpm debug_build env p n w Hun Hnone Hq). }
      destruct (at_end (this w)) eqn:Hend; [apply Hpull; now left |].
      destruct (hmpm (after_reset env w)) eqn:Hmore; [| apply Hpull; now right].
      destruct (deref_in_batch (this w) Hwf Hend) as [m Hm].
      left. now rewrite (consume_buffered_at hmpm debug_build env p n w m Hun Hmore Hend Hm). }
  assert (Htrace : forall (c : Call -> bool) h,
             c GetAssignment = false ->
             (forall a, c (GetOffsetsPosition a) = false) ->
             count_calls c (trace_calls env h ++ h) = count_calls c h).
  { intros c h H1 H2. unfold trace_calls, count_calls.
    destruct (log_trace env h); cbn [app filter]; [| reflexivity].
    now rewrite H2, H1. }
  split; [| split; [| exact Hcalls]].
  - destruct Hcalls as [-> | (q & _ & [-> | (_ & _ & ->)])];
      [reflexivity | reflexivity |].
    rewrite Htrace by reflexivity. reflexivity.
  - destruct Hcalls as [-> | (q & _ & [-> | (_ & _ & ->)])];
      [reflexivity | reflexivity |].
    rewrite Htrace by reflexivity. reflexivity.
Qed.

Lemma consume_frame_witness :
  cursor_in_batch (this world_idle)
  /\ same_ownership world_idle
       (snd (consume hasMorePolledMessages true only_errors partition_t0 None world_idle)).
Proof.
  assert (H : cursor_in_batch (this world_idle)) by (cbv; lia).
  split; [exact H |].
  exact (proj1 (consume_frame hasMorePolledMessages true only_errors partition_t0 None
                  world_idle H)).
Defined.

(** ** pollEvents *)

Lemma serve_returns_in_release (r : Rebalance) (w : World) :
  exists w', serve false r w = (Normal tt, w').
Proof.
  destruct r as [tpl | tpl | err]; cbn [serve].
  - rewrite (assignment_callback_run false tpl w (or_introl eq_refl)). now eexists.
  - rewrite revocation_callback_run. now eexists.
  - now eexists.
Qed.

Lemma serve_all_returns_in_release (rs : list Rebalance) :
  forall w, exists w', serve_all false rs w = (Normal tt, w').
Proof.
  induction rs as [| r rs IH]; intros w; cbn [serve_all].
  - now eexists.
  - unfold bind. destruct (serve_returns_in_release r w) as [w1 ->]. apply IH.
Qed.

Lemma consumer_poll_returns_in_release (env : Environment) (timeout : Z) (w : World) :
  exists w',
    consumer_poll false env timeout w = (Normal (snd (poll_outcome env (history w))), w').
Proof.
  unfold consumer_poll. unfold bind at 1. unfold call at 1. unfold bind.
  destruct (serve_all_returns_in_release (fst (poll_outcome env (history w)))
              (mkWorld (this w) (Poll timeout :: history w) (signals w))) as [w1 ->].
  now eexists.
Qed.

Lemma pollEvents_loop_returns_in_release (env : Environment) (tries : nat) :
  forall w, exists w', pollEvents_loop false env tries w = (Normal tt, w').
Proof.
  induction tries as [| tries IH]; intros w; cbn [pollEvents_loop].
  - now eexists.
  - unfold bind at 1.
    destruct (consumer_poll_returns_in_release env EVENT_POLL_TIMEOUT w) as [w1 ->].
    destruct (snd (poll_outcome env (history w))) as [m |]; [| now eexists].
    unfold bind, chassert. cbn [andb]. apply IH.
Qed.

Lemma pollEvents_loop_counts (debug_build : bool) (env : Environment) (tries : nat) :
  forall w,
    (count_calls is_poll (history (snd (pollEvents_loop debug_build env tries w)))
     <= tries + count_calls is_poll (history w))%nat
    /\ (forall p, p (Poll EVENT_POLL_TIMEOUT) = false ->
                  (forall tpl, p (Assign tpl) = false) ->
                  (forall tp, p (GetPartitionQueue tp) = false) ->
                  count_calls p (history (snd (pollEvents_loop debug_build env tries w)))
                  = count_calls p (history w)).
Proof.
  induction tries as [| tries IH]; intros w; cbn [pollEvents_loop].
  - split; [cbn; lia | reflexivity].
  - unfold bind at 1. unfold bind at 2.
    pose proof (consumer_poll_count is_poll debug_build env EVENT_POLL_TIMEOUT w
                  (fun _ => eq_refl) (fun _ => eq_refl)) as Hpoll.
    change (count_calls is_poll (Poll EVENT_POLL_TIMEOUT :: history w))
      with (S (count_calls is_poll (history w))) in Hpoll.
    assert (Hother : forall p, p (Poll EVENT_POLL_TIMEOUT) = false ->
              (forall tpl, p (Assign tpl) = false) ->
              (forall tp, p (GetPartitionQueue tp) = false) ->
              count_calls p
                (history (snd (consumer_poll debug_build env EVENT_POLL_TIMEOUT w)))
              = count_calls p (history w)).
    { intros p Hp Ha Hg.
      rewrite (consumer_poll_count p debug_build env EVENT_POLL_TIMEOUT w Ha Hg).
      unfold count_calls. cbn [filter]. now rewrite Hp. }
    destruct (consumer_poll debug_build env EVENT_POLL_TIMEOUT w) as [[[m |] | e |] w1];
      cbn [snd] in *; try (split; [lia | exact Hother]);
      try (unfold ret; cbn [snd]; split; [lia | exact Hother]).
    unfold bind, chassert.
    destruct (debug_build && negb (negb (RD_KAFKA_RESP_ERR_NO_ERROR =? Message.get_error m)));
      cbn [snd]; [split; [lia | exact Hother] |].
    destruct (IH w1) as [Hle Hsame]. split; [lia |].
    intros p Hp Ha Hg. rewrite (Hsame p Hp Ha Hg). now apply Hother.
Qed.

Lemma pollEvents_loop_grows (debug_build : bool) (env : Environment) (tries : nat) :
  forall w,
    (count_calls is_poll (history w)
     <= count_calls is_poll (history (snd (pollEvents_loop debug_build env tries w))))%nat.
Proof.
  induction tries as [| tries IHt]; intros w; cbn [pollEvents_loop]; [cbn; lia |].
  unfold bind at 1.
  pose proof (consumer_poll_count is_poll debug_build env EVENT_POLL_TIMEOUT w
                (fun _ => eq_refl) (fun _ => eq_refl)) as Hp.
  change (count_calls is_poll (Poll EVENT_POLL_TIMEOUT :: history w))
    with (S (count_calls is_poll (history w))) in Hp.
  destruct (consumer_poll debug_build env EVENT_POLL_TIMEOUT w)
    as [[[m |] | e |] w1]; cbn [snd] in *; try lia;
    try (unfold ret; cbn [snd]; lia).
  unfold bind, chassert.
  destruct (debug_build
            && negb (negb (RD_KAFKA_RESP_ERR_NO_ERROR =? Message.get_error m)));
    cbn [snd]; [lia |].
  specialize (IHt w1). lia.
Qed.

Lemma pollEvents_loop_first (debug_build : bool) (env : Environment) (tries : nat)
    (w : World) :
  (S (count_calls is_poll (history w))
   <= count_calls is_poll (history (snd (pollEvents_loop debug_build env (S tries) w))))%nat
  /\ (snd (poll_outcome env (history w)) = None ->
      count_calls is_poll (history (snd (pollEvents_loop debug_build env (S tries) w)))
      = S (count_calls is_poll (history w))).
Proof.
  cbn [pollEvents_loop]. unfold bind at 1. unfold bind at 2.
  pose proof (consumer_poll_count is_poll debug_build env EVENT_POLL_TIMEOUT w
                (fun _ => eq_refl) (fun _ => eq_refl)) as Hpoll.
  change (count_calls is_poll (Poll EVENT_POLL_TIMEOUT :: history w))
    with (S (count_calls is_poll (history w))) in Hpoll.
  pose proof (consumer_poll_result debug_build env EVENT_POLL_TIMEOUT w) as Hres.
  destruct (consumer_poll debug_build env EVENT_POLL_TIMEOUT w) as [[[m |] | e |] w1];
    cbn [snd fst] in *; try (split; [lia | intros _; exact Hpoll]);
    try (unfold ret; cbn [snd]; split; [lia | intros _; exact Hpoll]).
  specialize (Hres (Some m) eq_refl).
  split; [| intros Hnone; congruence].
  unfold bind, chassert.
  destruct (debug_build && negb (negb (RD_KAFKA_RESP_ERR_NO_ERROR =? Message.get_error m)));
    cbn [snd]; [lia |].
  pose proof (pollEvents_loop_grows debug_build env tries w1). lia.
Qed.

(** X8: pollEvents polls the consumer queue at least once and at most five
    times and stops at the first poll that yields no message; it pulls no
    partition queue, commits nothing, and reads neither the stop flag nor
    the clock; in a release build it always returns, whatever is polled and
    whichever callbacks fire. *)
Theorem pollEvents_bounded :
  forall (debug_build : bool) (env : Environment) (w : World),
    let w' := snd (pollEvents debug_build env w) in
    (1 + count_calls is_poll (history w) <= count_calls is_poll (history w')
     <= 5 + count_calls is_poll (history w))%nat
    /\ (snd (poll_outcome env (history w)) = None ->
        count_calls is_poll (history w') = S (count_calls is_poll (history w)))
    /\ pulls (history w') = pulls (history w)
    /\ count_calls is_commit (history w') = count_calls is_commit (history w)
    /\ count_calls is_load (history w') = count_calls is_load (history w)
    /\ count_calls is_now (history w') = count_calls is_now (history w)
    /\ exists w'', pollEvents false env w = (Normal tt, w'').
Proof.
  intros debug_build env w w'. subst w'. unfold pollEvents.
  destruct (pollEvents_loop_counts debug_build env 5 w) as [Hle Hsame].
  destruct (pollEvents_loop_first debug_build env 4 w) as [Hge Hone].
  split; [lia |]. split; [exact Hone |].
  split; [apply (Hsame is_pull); reflexivity |].
  split; [apply (Hsame is_commit); reflexivity |].
  split; [apply (Hsame is_load); reflexivity |].
  split; [apply (Hsame is_now); reflexivity |].
  apply pollEvents_loop_returns_in_release.
Qed.

(** ** getPartitionCounts *)

(** X9: getPartitionCounts never fails and leaves the object alone: it
    asks the client for the metadata once; when that throws a
    HandleException the result is empty; otherwise the result holds exactly
    the topics of the metadata whose name is one of the subscribed topics,
    each with its number of partitions, and is no longer than the
    metadata. *)
Theorem getPartitionCounts_subscribed_only :
  forall (env : Environment) (w : World),
    exists result,
      getPartitionCounts env w
      = (Normal result, mkWorld (this w) (GetMetadata :: history w) (signals w))
      /\ (forall e, metadata env (history w) = inl e -> result = [])
      /\ (forall md, metadata env (history w) = inr md ->
            (forall name count,
                In (name, count) result
                <-> In (name, count) md /\ In name (topics (this w)))
            /\ exists dropped, length md = (length result + dropped)%nat).
Proof.
  intros env w. unfold getPartitionCounts, try_catch_HandleException.
  unfold bind at 1. unfold call at 1.
  destruct (metadata env (history w)) as [e | md] eqn:Hmd.
  - eexists. split; [reflexivity |]. split; [reflexivity |]. discriminate.
  - eexists. split; [reflexivity |]. split; [discriminate |].
    intros md' Heq. inversion Heq; subst md'. cbn [this]. split.
    + intros name count. rewrite filter_In. cbn [fst].
      split; intros [Hin Hex]; (split; [exact Hin |]).
      * apply existsb_exists in Hex. destruct Hex as (t & Ht & Heqb).
        apply String.eqb_eq in Heqb. now subst t.
      * apply existsb_exists. exists name. split; [exact Hex | apply String.eqb_refl].
    + exists (length md
              - length (filter (fun tm => existsb (String.eqb (fst tm)) (topics (this w))) md))%nat.
      pose proof (filter_length_le
                    (fun tm : string * nat => existsb (String.eqb (fst tm)) (topics (this w)))
                    md).
      lia.
Qed.

(** ** The Assignment is written by the callbacks only *)

Lemma same_assignment_refl w : same_assignment w w.
Proof. reflexivity. Qed.

Lemma same_assignment_trans a b c :
  same_assignment a b -> same_assignment b c -> same_assignment a c.
Proof. unfold same_assignment. congruence. Qed.

Lemma consumer_poll_serves_nothing (debug_build : bool) (env : Environment)
    (timeout : Z) (w : World) :
  serves_nothing env ->
  consumer_poll debug_build env timeout w
  = (Normal (snd (poll_outcome env (history w))),
     mkWorld (this w) (Poll timeout :: history w) (signals w)).
Proof.
  intros Hq. unfold consumer_poll. unfold bind at 1. unfold call at 1.
  rewrite (Hq (history w)). reflexivity.
Qed.

Lemma same_assignment_pollEvents debug_build env :
  serves_nothing env -> keeps same_assignment (pollEvents debug_build env).
Proof.
  intros Hq. unfold pollEvents. generalize 5%nat as tries.
  induction tries as [| tries IH]; intros w; cbn [pollEvents_loop]; [reflexivity |].
  unfold bind at 1. rewrite (consumer_poll_serves_nothing debug_build env _ w Hq).
  destruct (snd (poll_outcome env (history w))) as [m |]; [| reflexivity].
  unfold bind, chassert.
  destruct (debug_build && negb (negb (RD_KAFKA_RESP_ERR_NO_ERROR =? Message.get_error m)));
    [reflexivity |].
  exact (IH (mkWorld (this w) (Poll EVENT_POLL_TIMEOUT :: history w) (signals w))).
Qed.

Lemma same_assignment_perform hmpm debug_build env op :
  serves_nothing env -> is_callback op = false ->
  keeps same_assignment (perform hmpm debug_build env op).
Proof.
  intros Hq Hop. destruct op; cbn [perform is_callback] in *; try discriminate Hop.
  - apply (keeps_bind _ same_assignment_trans);
      [| intros _; apply (keeps_ret _ same_assignment_refl)].
    intros w. exact (proj1 (same_ownership_consume hmpm debug_build env _ _ w)).
  - unfold commit, max_retries.
    keeps_structure same_assignment_refl same_assignment_trans; try (intros ?; reflexivity).
  - now apply same_assignment_pollEvents.
  - unfold discard, getPartitionCounts.
    keeps_structure same_assignment_refl same_assignment_trans; try (intros ?; reflexivity).
  - unfold discard, getKafkaAssignment.
    keeps_structure same_assignment_refl same_assignment_trans; try (intros ?; reflexivity).
  - intros w. rewrite updateOffsets_run. reflexivity.
Qed.

Lemma same_assignment_run hmpm debug_build env ops :
  serves_nothing env ->
  forallb (fun op => negb (is_callback op)) ops = true ->
  forall w, same_assignment w (run hmpm debug_build env ops w).
Proof.
  intros Hq. induction ops as [| op ops IH]; cbn [forallb run]; intros Hops w.
  - reflexivity.
  - apply andb_true_iff in Hops. destruct Hops as [Hop Hops].
    apply negb_true_iff in Hop.
    pose proof (same_assignment_perform hmpm debug_build env op Hq Hop w) as Hstep.
    destruct (perform hmpm debug_build env op w) as [[[] | e |] w']; cbn [snd] in Hstep;
      try exact Hstep;
      (eapply same_assignment_trans; [exact Hstep | now apply IH]).
Qed.

(** X10: getKafkaAssignment reports what the last assignment change left.
    After an assignment-received callback it is the delivered partition
    list, after a revocation callback it is absent (nullptr), and it stays
    so over any sequence of calls of consume, commit, pollEvents,
    getPartitionCounts, getKafkaAssignment and updateOffsets during which
    the client serves no rebalance event: in particular updateOffsets does
    not carry the caller's offsets into the Assignment. *)
Theorem getKafkaAssignment_tracks_callbacks :
  forall (hmpm : KafkaConsumer2 -> bool) (debug_build : bool) (env : Environment)
         (r : Rebalance) (ops : list Operation) (w : World),
    serves_nothing env ->
    forallb (fun op => negb (is_callback op)) ops = true ->
    match r with
    | Assigned _ => debug_build = false \/ assignment (this w) = None
    | _ => True
    end ->
    exists w1,
      serve debug_build r w = (Normal tt, w1)
      /\ fst (getKafkaAssignment (run hmpm debug_build env ops w1))
         = Normal match r with
                  | Assigned tpl => Some (map of_cppkafka tpl)
                  | Revoked _ => None
                  | RebalanceError _ => assignment (this w)
                  end.
Proof.
  intros hmpm debug_build env r ops w Hq Hops Hassert.
  assert (Hserve : exists w1,
             serve debug_build r w = (Normal tt, w1)
             /\ assignment (this w1)
                = match r with
                  | Assigned tpl => Some (map of_cppkafka tpl)
                  | Revoked _ => None
                  | RebalanceError _ => assignment (this w)
                  end).
  { destruct r as [tpl | tpl | err]; cbn [serve].
    - rewrite (assignment_callback_run debug_build tpl w Hassert). now eexists.
    - rewrite revocation_callback_run. now eexists.
    - now eexists. }
  destruct Hserve as (w1 & Hrun & Ha).
  exists w1. split; [exact Hrun |].
  unfold getKafkaAssignment, bind, get_this, ret. cbn [fst].
  rewrite (same_assignment_run hmpm debug_build env ops Hq Hops w1). now rewrite Ha.
Qed.

Lemma getKafkaAssignment_tracks_callbacks_witness :
  serves_nothing quiet
  /\ exists w1,
      serve true (Assigned [to_cppkafka partition_t0]) world_unassigned = (Normal tt, w1)
      /\ fst (getKafkaAssignment
                (run hasMorePolledMessages true quiet
                   [DoUpdateOffsets [partition_t0_at_7]; DoConsume partition_t0_at_7 None;
                    DoPollEvents] w1))
         = Normal (Some [partition_t0]).
Proof.
  assert (Hq : serves_nothing quiet) by (intros h; reflexivity).
  split; [exact Hq |].
  exact (getKafkaAssignment_tracks_callbacks hasMorePolledMessages true quiet
           (Assigned [to_cppkafka partition_t0])
           [DoUpdateOffsets [partition_t0_at_7]; DoConsume partition_t0_at_7 None;
            DoPollEvents]
           world_unassigned Hq eq_refl (or_intror eq_refl)).
Defined.

(** ** Error filtering without errors *)

Lemma filter_none_errors (ms : Messages) :
  filter has_error ms = [] -> filter (fun msg => negb (has_error msg)) ms = ms.
Proof.
  induction ms as [| m ms IH]; cbn; [reflexivity |].
  destruct (has_error m); [discriminate |]. intros H. cbn. now rewrite IH.
Qed.

Lemma filter_errors_of_kept (ms : Messages) :
  filter has_error (filter (fun msg => negb (has_error msg)) ms) = [].
Proof.
  induction ms as [| m ms IH]; cbn; [reflexivity |].
  destruct (has_error m) eqn:E; cbn; [exact IH |]. now rewrite E.
Qed.

(** X11: on a batch without error messages filterMessageErrors is a no-op:
    it returns 0, sends no signal and leaves batch, cursor and the rest of
    the object as they are; and since a run leaves no error message behind,
    a second run right after the first always is that no-op.  (In a debug
    build the function asserts the cursor at the start of the batch.) *)
Theorem filterMessageErrors_without_errors :
  forall (debug_build : bool) (w : World),
    debug_build = false \/ current (this w) = 0%nat ->
    (filter has_error (messages (this w)) = [] ->
     filterMessageErrors debug_build w = (Normal 0%nat, w))
    /\ (forall skipped w1,
          filterMessageErrors debug_build w = (Normal skipped, w1) ->
          filterMessageErrors debug_build w1 = (Normal 0%nat, w1)).
Proof.
  intros debug_build w Hassert.
  assert (Hnoop : forall w0,
            debug_build = false \/ current (this w0) = 0%nat ->
            filter has_error (messages (this w0)) = [] ->
            filterMessageErrors debug_build w0 = (Normal 0%nat, w0)).
  { intros w0 Ha Hnone. rewrite (filterMessageErrors_run debug_build w0 Ha).
    cbv zeta. unfold error_signals. rewrite Hnone, (filter_none_errors _ Hnone).
    destruct w0 as [[] h sg]. reflexivity. }
  split; [now apply Hnoop |].
  intros skipped w1 Hrun. rewrite (filterMessageErrors_run debug_build w Hassert) in Hrun.
  cbv zeta in Hrun. inversion Hrun as [[Hs Hw1]]. clear Hrun.
  apply Hnoop.
  - destruct Hassert as [Hd | Hc]; [now left |]. right.
    destruct (length (filter has_error (messages (this w))) =? 0)%nat; cbn; [exact Hc | reflexivity].
  - destruct (length (filter has_error (messages (this w))) =? 0)%nat; cbn;
      apply filter_errors_of_kept.
Qed.

Lemma filterMessageErrors_without_errors_witness :
  current (this world_mixed_batch) = 0%nat
  /\ exists w1,
      filterMessageErrors true world_mixed_batch = (Normal 1%nat, w1)
      /\ filterMessageErrors true w1 = (Normal 0%nat, w1).
Proof.
  split; [reflexivity |].
  eexists. split; [vm_compute; reflexivity |].
  apply (proj2 (filterMessageErrors_without_errors true world_mixed_batch
                  (or_intror eq_refl)) 1%nat).
  vm_compute. reflexivity.
Defined.

(** ** The destructor *)

Lemma no_throw_ret {A} (a : A) : no_throw (ret a).
Proof. intros w e. discriminate. Qed.

Lemma no_throw_modify f : no_throw (modify f).
Proof. intros w e. discriminate. Qed.

Lemma no_throw_signal s : no_throw (signal s).
Proof. intros w e. discriminate. Qed.

Lemma no_throw_call {A} c (answer : History -> A) : no_throw (call c answer).
Proof. intros w e. discriminate. Qed.

Lemma no_throw_chassert debug_build cond : no_throw (chassert debug_build cond).
Proof. intros w e. unfold chassert. destruct (debug_build && negb cond); discriminate. Qed.

Lemma no_throw_bind {A B} (c : M A) (f : A -> M B) :
  no_throw c -> (forall a, no_throw (f a)) -> no_throw (bind c f).
Proof.
  intros Hc Hf w e. unfold bind. specialize (Hc w).
  destruct (c w) as [[a | e' |] w1]; cbn [fst] in *.
  - apply Hf.
  - now elim (Hc e').
  - discriminate.
Qed.

Lemma no_throw_emplace_queues tpl : no_throw (emplace_queues tpl).
Proof.
  induction tpl as [| tp tpl IH]; cbn [emplace_queues]; [apply no_throw_ret |].
  apply no_throw_bind; [apply no_throw_call | intros q].
  apply no_throw_bind; [apply no_throw_modify | intros _; exact IH].
Qed.

Lemma no_throw_initializeQueues tpl : no_throw (initializeQueues tpl).
Proof. intros w e. rewrite initializeQueues_run. discriminate. Qed.

Lemma no_throw_serve debug_build r : no_throw (serve debug_build r).
Proof.
  destruct r as [tpl | tpl | err]; cbn [serve].
  - unfold assignment_callback.
    let leaf :=
      first [ apply no_throw_initializeQueues
            | apply no_throw_chassert
            | intros ? ?; rewrite push_back_all_run; discriminate
            | destruct (empty tpl); intros ? ?; discriminate
            | intros ? ?; discriminate ] in
    let rec chain :=
      lazymatch goal with
      | |- no_throw (bind _ _) => apply no_throw_bind; [leaf | intros ?; chain]
      | _ => leaf
      end in
    chain.
  - intros w e. rewrite revocation_callback_run. discriminate.
  - apply no_throw_signal.
Qed.

Lemma no_throw_serve_all debug_build rs : no_throw (serve_all debug_build rs).
Proof.
  induction rs as [| r rs IH]; cbn [serve_all]; [apply no_throw_ret |].
  apply no_throw_bind; [apply no_throw_serve | intros _; exact IH].
Qed.

Lemma no_throw_consumer_poll debug_build env timeout :
  no_throw (consumer_poll debug_build env timeout).
Proof.
  unfold consumer_poll.
  apply no_throw_bind; [apply no_throw_call | intros outcome].
  apply no_throw_bind; [apply no_throw_serve_all | intros _; apply no_throw_ret].
Qed.

Lemma no_throw_drain_loop debug_build env fuel :
  forall start_time last_error,
    no_throw (drain_loop debug_build env fuel start_time last_error).
Proof.
  induction fuel as [| fuel IH]; intros start_time last_error; cbn [drain_loop];
    [apply no_throw_ret |].
  apply no_throw_bind; [apply no_throw_consumer_poll |].
  intros [m |]; [| apply no_throw_ret].
  destruct (is_error (Message.get_error m)
            && (Message.is_eof m || (Message.get_error m =? last_error)));
    [apply no_throw_ret |].
  apply no_throw_bind; [apply no_throw_call | intros ts].
  destruct (elapsed_ms start_time ts >? DRAIN_TIMEOUT_MS); [apply no_throw_ret | apply IH].
Qed.

Lemma no_throw_drainConsumerQueue debug_build env fuel :
  no_throw (drainConsumerQueue debug_build env fuel).
Proof.
  unfold drainConsumerQueue.
  apply no_throw_bind; [apply no_throw_call | intros ts; apply no_throw_drain_loop].
Qed.

(** X12: the destructor never ends in an exception.  When get_subscription
    throws a HandleException or reports no subscription, nothing else is
    done: no unsubscribe, no poll.  When topics are subscribed, unsubscribe
    is called once and, whether it succeeds or throws a HandleException, the
    consumer queue is drained next: the destructor ends exactly as
    drainConsumerQueue does after those two calls. *)
Theorem destructor_swallows_client_errors :
  forall (debug_build : bool) (env : Environment) (fuel : nat) (w : World),
    (forall e, fst (KafkaConsumer2_destructor debug_build env fuel w) <> Thrown e)
    /\ ((exists e, subscription env (history w) = inl e)
        \/ subscription env (history w) = inr [] ->
        KafkaConsumer2_destructor debug_build env fuel w
        = (Normal true, mkWorld (this w) (GetSubscription :: history w) (signals w)))
    /\ (forall name names,
          subscription env (history w) = inr (name :: names) ->
          KafkaConsumer2_destructor debug_build env fuel w
          = drainConsumerQueue debug_build env fuel
              (mkWorld (this w) (Unsubscribe :: GetSubscription :: history w) (signals w))).
Proof.
  intros debug_build env fuel w.
  assert (Hquiet : (exists e, subscription env (history w) = inl e)
                   \/ subscription env (history w) = inr [] ->
                   KafkaConsumer2_destructor debug_build env fuel w
                   = (Normal true,
                      mkWorld (this w) (GetSubscription :: history w) (signals w))).
  { intros Hsub. unfold KafkaConsumer2_destructor, try_catch_HandleException at 1.
    unfold bind at 1, get_subscription. unfold bind at 1. unfold call at 1.
    destruct Hsub as [[e ->] | ->]; reflexivity. }
  assert (Hdrain : forall name names,
            subscription env (history w) = inr (name :: names) ->
            KafkaConsumer2_destructor debug_build env fuel w
            = drainConsumerQueue debug_build env fuel
                (mkWorld (this w) (Unsubscribe :: GetSubscription :: history w)
                   (signals w))).
  { intros name names Hsub.
    unfold KafkaConsumer2_destructor, try_catch_HandleException at 1.
    unfold bind at 1, get_subscription. unfold bind at 1. unfold call at 1.
    rewrite Hsub. unfold ret at 1. cbn [empty negb].
    unfold bind at 1.
    assert (Hunsub :
      try_catch_HandleException (unsubscribe env) (fun _ => ret tt)
        (mkWorld (this w) (GetSubscription :: history w) (signals w))
      = (Normal tt,
         mkWorld (this w) (Unsubscribe :: GetSubscription :: history w) (signals w))).
    { unfold try_catch_HandleException, unsubscribe, bind, call.
      cbn [this history signals].
      destruct (unsubscribe_outcome env (GetSubscription :: history w)); reflexivity. }
    rewrite Hunsub.
    pose proof (no_throw_drainConsumerQueue debug_build env fuel
                  (mkWorld (this w) (Unsubscribe :: GetSubscription :: history w)
                     (signals w))) as Hnt.
    destruct (drainConsumerQueue debug_build env fuel _) as [[b | e |] w2];
      cbn [fst] in Hnt; [reflexivity | now elim (Hnt e) | reflexivity]. }
  split; [| split; [exact Hquiet | exact Hdrain]].
  intros e.
  destruct (subscription env (history w)) as [e0 | [| name names]] eqn:Hsub.
  - rewrite Hquiet by (left; now exists e0). discriminate.
  - rewrite Hquiet by (now right). discriminate.
  - rewrite (Hdrain name names eq_refl). apply no_throw_drainConsumerQueue.
Qed.

(** ** More on the drain loop *)

(** X14: a polled message that carries the partition-EOF error ends the
    drain loop in the iteration that polled it, whatever the error of the
    message before, and without a reading of the clock. *)
Theorem drain_loop_stops_at_eof :
  forall (debug_build : bool) (env : Environment) (fuel : nat) (start_time : Z)
         (last_error : Error) (w : World) (m : Message.t),
    snd (poll_outcome env (history w)) = Some m ->
    Message.is_eof m = true ->
    let r := drain_loop debug_build env (S fuel) start_time last_error w in
    left_loop (fst r)
    /\ count_calls is_poll (history (snd r)) = S (count_calls is_poll (history w))
    /\ count_calls is_now (history (snd r)) = count_calls is_now (history w).
Proof.
  intros debug_build env fuel start_time last_error w m Hpolled Heof r. subst r.
  rewrite drain_loop_step.
  pose proof (consumer_poll_count is_poll debug_build env 100 w
                (fun _ => eq_refl) (fun _ => eq_refl)) as Hpoll.
  pose proof (consumer_poll_count is_now debug_build env 100 w
                (fun _ => eq_refl) (fun _ => eq_refl)) as Hnow.
  change (count_calls is_poll (Poll 100 :: history w))
    with (S (count_calls is_poll (history w))) in Hpoll.
  change (count_calls is_now (Poll 100 :: history w))
    with (count_calls is_now (history w)) in Hnow.
  pose proof (consumer_poll_result debug_build env 100 w) as Hres.
  destruct (consumer_poll debug_build env 100 w) as [[[m' |] | e |] w1];
    cbn [fst snd] in *; unfold left_loop;
    try (split; [discriminate | split; [exact Hpoll | exact Hnow]]).
  specialize (Hres (Some m') eq_refl).
  assert (m' = m) by congruence. subst m'.
  assert (Herr : is_error (Message.get_error m) = true).
  { unfold Message.is_eof in Heof. apply Z.eqb_eq in Heof. rewrite Heof. reflexivity. }
  rewrite Herr, Heof. cbn [andb orb].
  split; [discriminate | split; [exact Hpoll | exact Hnow]].
Qed.

Lemma drain_loop_stops_at_eof_witness :
  Message.is_eof (message_failed 0 RD_KAFKA_RESP_ERR__PARTITION_EOF) = true
  /\ left_loop
       (fst (drain_loop true
               (outside false [] None
                  (Some (message_failed 0 RD_KAFKA_RESP_ERR__PARTITION_EOF)))
               1 0 RD_KAFKA_RESP_ERR_NO_ERROR world_idle)).
Proof.
  split; [reflexivity |].
  exact (proj1 (drain_loop_stops_at_eof true
                  (outside false [] None
                     (Some (message_failed 0 RD_KAFKA_RESP_ERR__PARTITION_EOF)))
                  0 0 RD_KAFKA_RESP_ERR_NO_ERROR world_idle
                  (message_failed 0 RD_KAFKA_RESP_ERR__PARTITION_EOF) eq_refl eq_refl)).
Defined.

(** ** The buffered batch across a revocation *)

(** X15: the revocation callback does not drop the buffered batch.  With
    the stop flag not set at the call and [hasMorePolledMessages] answering
    yes, a message that was at the cursor before the revocation (its data
    pointer not null, in a build that asserts) is still handed out after it
    by consume for its partition (the offset of the requested key plays no
    part), without any look at the Queue Set.  Once the cursor is at the
    end, consume goes to the Queue Set, which the revocation has emptied,
    and ends in std::out_of_range for every key. *)
Theorem consume_after_revocation :
  forall (hmpm : KafkaConsumer2 -> bool) (debug_build : bool) (env : Environment)
         (tpl : TopicPartitionList) (p : TopicPartition) (n : option Z)
         (w : World) (m : Message.t),
    stopped env (history w) = false ->
    at_end (this w) = false ->
    deref (this w) = Some m ->
    of_partition p m ->
    hmpm (revoked (this w)) = true ->
    debug_build = false \/ payload_present m = true ->
    (exists w',
        consume hmpm debug_build env p n (snd (revocation_callback tpl w))
        = (delivered m, w')
        /\ history w' = LoadStopped :: history w
        /\ current (this w') = S (current (this w))
        /\ queues (this w') = [])
    /\ (forall (w0 : World) (p0 : TopicPartition) (n0 : option Z),
          at_end (this w0) = true ->
          fst (consume hmpm debug_build env p0 n0 (snd (revocation_callback tpl w0)))
          = Thrown out_of_range).
Proof.
  intros hmpm debug_build env tpl p n w m Hstop Hend Hm Hp Hmore Hassert.
  split.
  - rewrite revocation_callback_run. cbn [snd].
    set (w1 := mkWorld (revoked (this w)) (history w)
                 (revocation_signals tpl ++ signals w)).
    assert (Hreset : after_reset env w1 = revoked (this w))
      by (apply after_reset_not_stopped; exact Hstop).
    assert (Hm1 : deref (this w1) = Some m) by exact Hm.
    assert (Hend1 : at_end (this w1) = false) by exact Hend.
    rewrite (consume_buffered_run hmpm debug_build env p n w1 m
               (usable_of_partition _ p m Hm1 Hp)
               ltac:(rewrite Hreset; exact Hmore) Hend1 Hm1 Hassert).
    rewrite Hreset. eexists. split; [reflexivity |]. repeat split.
  - intros w0 p0 n0 Hend0. rewrite revocation_callback_run. cbn [snd].
    apply consume_lookup_iff; [exact Hend0 | reflexivity].
Qed.

Lemma consume_after_revocation_witness :
  of_partition partition_t0_at_7 (message_ok 1 payload_b)
  /\ exists w',
      consume hasMorePolledMessages true quiet partition_t0_at_7 None
        (snd (revocation_callback [to_cppkafka partition_t0] world_buffered_second))
      = (delivered (message_ok 1 payload_b), w')
      /\ queues (this w') = [].
Proof.
  assert (Hp : of_partition partition_t0_at_7 (message_ok 1 payload_b)) by (split; reflexivity).
  split; [exact Hp |].
  destruct (proj1 (consume_after_revocation hasMorePolledMessages true quiet
                     [to_cppkafka partition_t0] partition_t0_at_7 None
                     world_buffered_second (message_ok 1 payload_b)
                     eq_refl eq_refl eq_refl Hp eq_refl (or_intror eq_refl)))
    as (w' & Hrun & _ & _ & Hq).
  exists w'. split; [exact Hrun | exact Hq].
Defined.

(** ** The gauges over an assignment and its revocation *)

Lemma metric_value_app (m : Metric) (a b : list Signal) :
  metric_value m (a ++ b) = metric_value m a + metric_value m b.
Proof. induction a as [| s a IH]; cbn [app metric_value]; [reflexivity | lia]. Qed.

(** X19: the gauges are balanced.  An assignment-received callback for a
    partition list raises KafkaAssignedPartitions by the length of the list
    and KafkaConsumersWithAssignment by one, or by nothing when the list is
    empty; the revocation callback for the same list takes both back, so
    that after the pair each gauge is where it was. *)
Theorem gauges_balanced :
  forall (debug_build : bool) (tpl : TopicPartitionList) (w : World),
    debug_build = false \/ assignment (this w) = None ->
    let w1 := snd (assignment_callback debug_build tpl w) in
    let w2 := snd (revocation_callback tpl w1) in
    metric_value KafkaAssignedPartitions (signals w1)
    = metric_value KafkaAssignedPartitions (signals w) + size tpl
    /\ metric_value KafkaConsumersWithAssignment (signals w1)
       = metric_value KafkaConsumersWithAssignment (signals w)
         + (if empty tpl then 0 else 1)
    /\ forall m, metric_value m (signals w2) = metric_value m (signals w).
Proof.
  intros debug_build tpl w Hassert w1 w2. subst w2 w1.
  rewrite (assignment_callback_run debug_build tpl w Hassert). cbn [snd].
  rewrite revocation_callback_run. cbn [snd signals].
  unfold revocation_signals, assignment_signals.
  rewrite !metric_value_app.
  destruct tpl as [| tp tpl]; cbn [empty app metric_value metric_delta Metric_eqb].
  - split; [cbn; lia |]. split; [lia |]. intros []; cbn; lia.
  - split; [lia |]. split; [lia |]. intros []; cbn [metric_value metric_delta Metric_eqb]; lia.
Qed.

Lemma gauges_balanced_witness :
  assignment (this world_unassigned) = None
  /\ forall m,
      metric_value m
        (signals (snd (revocation_callback [to_cppkafka partition_t0]
                         (snd (assignment_callback true [to_cppkafka partition_t0]
                                 world_unassigned)))))
      = metric_value m (signals world_unassigned).
Proof.
  split; [reflexivity |].
  exact (proj2 (proj2 (gauges_balanced true [to_cppkafka partition_t0] world_unassigned
                         (or_intror eq_refl)))).
Defined.

(** * Properties of the S3 disk creator *)

Lemma ends_with_slash_spec (s : string) :
  DiskS3.ends_with_slash s = true <-> exists front, s = String.append front "/".
Proof.
  induction s as [| c s IH].
  - split; [discriminate |]. intros [[| c front] H]; discriminate H.
  - destruct s as [| c' s'].
    + cbn. rewrite Ascii.eqb_eq. split.
      * intros ->. now exists EmptyString.
      * intros [[| c0 front] H]; cbn in H.
        -- now inversion H.
        -- inversion H as [[Hc Hrest]]. destruct front; discriminate Hrest.
    + change (DiskS3.ends_with_slash (String c (String c' s')))
        with (DiskS3.ends_with_slash (String c' s')).
      rewrite IH. split.
      * intros [front ->]. now exists (String c front).
      * intros [[| c0 front] H]; cbn in H; [discriminate H |].
        inversion H. now exists front.
Qed.

(** X16: the creator checks the key of the endpoint before it does
    anything else.  When the parsed URI has an empty key, or a key that
    does not end with a slash, it throws BAD_ARGUMENTS having only read the
    endpoint from the configuration and parsed it: no metadata is prepared,
    no storage or disk is built, the bucket is not accessed.  The test on
    the last character accepts exactly the keys of the form front ++ "/". *)
Theorem creator_rejects_bad_key :
  forall (env : DiskS3.Outside) (name config_prefix : string) (h : DiskS3.History)
         (endpoint : string) (u : DiskS3.URI),
    DiskS3.config_string env h (String.append config_prefix ".endpoint") = inr endpoint ->
    DiskS3.parse_uri env
      (DiskS3.ConfigGetString (String.append config_prefix ".endpoint") :: h) endpoint
    = inr u ->
    ~ (exists front, DiskS3.key u = String.append front "/") ->
    exists message,
      DiskS3.creator env name config_prefix h
      = (inl (DiskS3.Exception DiskS3.BAD_ARGUMENTS message),
         DiskS3.ParseURI endpoint
           :: DiskS3.ConfigGetString (String.append config_prefix ".endpoint") :: h).
Proof.
  intros env name config_prefix h endpoint u Hend Huri Hbad.
  unfold DiskS3.creator. unfold DiskS3.bind at 1. unfold DiskS3.ask at 1. rewrite Hend.
  unfold DiskS3.bind at 1. unfold DiskS3.ask at 1. rewrite Huri.
  destruct (DiskS3.is_empty (DiskS3.key u)); [now eexists |].
  destruct (DiskS3.ends_with_slash (DiskS3.key u)) eqn:Hslash.
  - exfalso. apply Hbad. now apply ends_with_slash_spec.
  - now eexists.
Qed.

Lemma creator_rejects_bad_key_witness :
  ~ (exists front, DiskS3.key (DiskS3.mkURI "https://b.example/root" "root" "b" "")
                   = String.append front "/")
  /\ exists message,
      DiskS3.creator
        (DiskS3.obliging (DiskS3.mkURI "https://b.example/root" "root" "b" "") false false
           "test")
        "s3disk" "disk" []
      = (inl (DiskS3.Exception DiskS3.BAD_ARGUMENTS message),
         [DiskS3.ParseURI "https://bucket.example/root/";
          DiskS3.ConfigGetString "disk.endpoint"]).
Proof.
  assert (Hbad : ~ (exists front,
                      DiskS3.key (DiskS3.mkURI "https://b.example/root" "root" "b" "")
                      = String.append front "/")).
  { intros H. apply ends_with_slash_spec in H. discriminate H. }
  split; [exact Hbad |].
  exact (creator_rejects_bad_key
           (DiskS3.obliging (DiskS3.mkURI "https://b.example/root" "root" "b" "") false false
              "test")
           "s3disk" "disk" [] "https://bucket.example/root/"
           (DiskS3.mkURI "https://b.example/root" "root" "b" "") eq_refl eq_refl Hbad).
Defined.

(** X17: the creator returns a disk only at the end of one fixed sequence
    of calls: endpoint read and parsed, metadata prepared, object storage
    and disk built with the flags read from the configuration, then, unless
    skip_access_check was read as true, "test" written to test_acl, read
    back as exactly "test" and test_acl removed, and last the startup of the
    disk.  The key of the URI ends with a slash and is the root path of the
    disk returned. *)
Theorem creator_success_trace :
  forall (env : DiskS3.Outside) (name config_prefix : string) (h h' : DiskS3.History)
         (d : DiskS3.Disk),
    DiskS3.creator env name config_prefix h = (inr d, h') ->
    exists (endpoint : string) (u : DiskS3.URI) (send skip : bool) (pool : Z),
      h' = DiskS3.Startup
             :: (if skip then [] else DiskS3.access_check_calls)
             ++ DiskS3.setup_calls name config_prefix endpoint u send pool ++ h
      /\ d = DiskS3.mkDisk name (DiskS3.key u) send pool
      /\ DiskS3.ends_with_slash (DiskS3.key u) = true
      /\ (skip = false ->
          DiskS3.read_strict env
            (DiskS3.ReadFile "test_acl" :: DiskS3.Write "test" :: DiskS3.WriteFile "test_acl"
               :: DiskS3.setup_calls name config_prefix endpoint u send pool ++ h) 4
          = inr "test"%string).
Proof.
  intros env name config_prefix h h' d Hrun.
  cbv [DiskS3.creator DiskS3.checkWriteAccess DiskS3.checkReadAccess
       DiskS3.checkRemoveAccess DiskS3.try_catch_all DiskS3.bind DiskS3.ask
       DiskS3.perform DiskS3.throw DiskS3.ret] in Hrun.
  destruct (DiskS3.config_string env h _) as [? | endpoint] eqn:E1; [discriminate |].
  destruct (DiskS3.parse_uri env _ endpoint) as [? | u] eqn:E2; [discriminate |].
  destruct (DiskS3.is_empty (DiskS3.key u)) eqn:E3; [discriminate |].
  destruct (DiskS3.ends_with_slash (DiskS3.key u)) eqn:E4; [| discriminate].
  cbn [negb] in Hrun.
  destruct (DiskS3.effect env _ (DiskS3.PrepareForLocalMetadata _ _)) eqn:E5;
    [discriminate |].
  destruct (DiskS3.effect env _ (DiskS3.MakeS3ObjectStorage _ _ _)) eqn:E6;
    [discriminate |].
  destruct (DiskS3.config_bool env _ (String.append config_prefix ".send_metadata") _)
    as [? | send] eqn:E7; [discriminate |].
  destruct (DiskS3.config_uint env _ _ _) as [? | pool] eqn:E8; [discriminate |].
  destruct (DiskS3.effect env _ (DiskS3.MakeDiskObjectStorage _ _ _ _)) eqn:E9;
    [discriminate |].
  destruct (DiskS3.config_bool env _ (String.append config_prefix ".skip_access_check") _)
    as [? | skip] eqn:E10; [discriminate |].
  exists endpoint, u, send, skip, pool.
  destruct skip; cbn [negb] in Hrun.
  - destruct (DiskS3.effect env _ DiskS3.Startup) eqn:E11; [discriminate |].
    inversion Hrun; subst.
    split; [reflexivity | split; [reflexivity | split; [exact E4 |]]].
    intros Hskip. discriminate Hskip.
  - destruct (DiskS3.effect env _ (DiskS3.WriteFile _)) eqn:E11; [discriminate |].
    destruct (DiskS3.effect env _ (DiskS3.Write _)) eqn:E12.
    { destruct (DiskS3.effect env _ DiskS3.Finalize); discriminate. }
    destruct (DiskS3.effect env _ (DiskS3.ReadFile _)) eqn:E13; [discriminate |].
    destruct (DiskS3.read_strict env _ 4) as [? | buf] eqn:E14; [discriminate |].
    destruct (String.eqb_spec buf "test") as [-> | Hne]; cbn [negb] in Hrun;
      [| discriminate].
    destruct (DiskS3.effect env _ (DiskS3.RemoveFile _)) eqn:E15; [discriminate |].
    destruct (DiskS3.effect env _ DiskS3.Startup) eqn:E16; [discriminate |].
    inversion Hrun; subst.
    split; [reflexivity | split; [reflexivity | split; [exact E4 |]]].
    intros _. first [exact E14 | reflexivity].
Qed.

Lemma creator_success_trace_witness :
  exists (endpoint : string) (u : DiskS3.URI) (send skip : bool) (pool : Z),
    DiskS3.Startup
      :: DiskS3.access_check_calls
      ++ DiskS3.setup_calls "s3disk" "disk" "https://bucket.example/root/"
           (DiskS3.mkURI "https://bucket.example/root/" "root/" "bucket" "") true 16
    = DiskS3.Startup
        :: (if skip then [] else DiskS3.access_check_calls)
        ++ DiskS3.setup_calls "s3disk" "disk" endpoint u send pool ++ []
    /\ DiskS3.mkDisk "s3disk" "root/" true 16 = DiskS3.mkDisk "s3disk" (DiskS3.key u) send pool.
Proof.
  destruct (creator_success_trace
              (DiskS3.obliging (DiskS3.mkURI "https://bucket.example/root/" "root/" "bucket" "")
                 true false "test")
              "s3disk" "disk" []
              (DiskS3.Startup
                 :: DiskS3.access_check_calls
                 ++ DiskS3.setup_calls "s3disk" "disk" "https://bucket.example/root/"
                      (DiskS3.mkURI "https://bucket.example/root/" "root/" "bucket" "")
                      true 16)
              (DiskS3.mkDisk "s3disk" "root/" true 16) eq_refl)
    as (endpoint & u & send & skip & pool & Hh & Hd & _).
  exists endpoint, u, send, skip, pool. split; [exact Hh | exact Hd].
Defined.

(** X18: with an outside in which no call throws, whatever it answers, and
    the key of the parsed URI ending with a slash, the creator ends in one
    of three ways.  With skip_access_check read as true it returns the disk
    without a single call on the bucket.  With it read as false and the
    bucket reading back "test", it returns the disk after the write, the
    read and the removal of test_acl.  With it read as false and the bucket
    reading back anything else, it throws PATH_ACCESS_DENIED naming the
    disk, right after the read: test_acl is not removed and the disk is not
    started. *)
Theorem creator_access_check :
  forall (env : DiskS3.Outside) (name config_prefix : string) (h : DiskS3.History),
    DiskS3.every_call_returns env ->
    exists (endpoint : string) (u : DiskS3.URI) (send skip : bool) (pool : Z)
           (read_back : string),
      let setup := DiskS3.setup_calls name config_prefix endpoint u send pool ++ h in
      let at_read :=
        DiskS3.ReadFile "test_acl" :: DiskS3.Write "test" :: DiskS3.WriteFile "test_acl"
          :: setup in
      DiskS3.config_string env h (String.append config_prefix ".endpoint") = inr endpoint
      /\ DiskS3.parse_uri env
           (DiskS3.ConfigGetString (String.append config_prefix ".endpoint") :: h) endpoint
         = inr u
      /\ DiskS3.config_bool env (tl setup) (String.append config_prefix ".skip_access_check")
           false
         = inr skip
      /\ DiskS3.read_strict env at_read 4 = inr read_back
      /\ (DiskS3.ends_with_slash (DiskS3.key u) = true ->
          DiskS3.creator env name config_prefix h
          = if skip then
              (inr (DiskS3.mkDisk name (DiskS3.key u) send pool), DiskS3.Startup :: setup)
            else if String.eqb read_back "test" then
              (inr (DiskS3.mkDisk name (DiskS3.key u) send pool),
               DiskS3.Startup :: DiskS3.access_check_calls ++ setup)
            else
              (inl (DiskS3.Exception DiskS3.PATH_ACCESS_DENIED
                      (String.append "No read access to S3 bucket in disk " name)),
               DiskS3.ReadStrict 4 :: at_read)).
Proof.
  intros env name config_prefix h (He & Hs & Hb & Hu & Hp & Hr).
  destruct (Hs h (String.append config_prefix ".endpoint")) as [endpoint E1].
  destruct (Hp (DiskS3.ConfigGetString (String.append config_prefix ".endpoint") :: h)
              endpoint) as [u E2].
  set (h2 := DiskS3.MakeS3ObjectStorage config_prefix (DiskS3.version_id u) (DiskS3.bucket u)
               :: DiskS3.PrepareForLocalMetadata name config_prefix
               :: DiskS3.ParseURI endpoint
               :: DiskS3.ConfigGetString (String.append config_prefix ".endpoint") :: h).
  destruct (Hb h2 (String.append config_prefix ".send_metadata") false) as [send E3].
  destruct (Hu (DiskS3.ConfigGetBool (String.append config_prefix ".send_metadata") false
                  :: h2)
              (String.append config_prefix ".thread_pool_size") 16) as [pool E4].
  set (h3 := DiskS3.MakeDiskObjectStorage name (DiskS3.key u) send pool
               :: DiskS3.ConfigGetUInt (String.append config_prefix ".thread_pool_size") 16
               :: DiskS3.ConfigGetBool (String.append config_prefix ".send_metadata") false
               :: h2).
  destruct (Hb h3 (String.append config_prefix ".skip_access_check") false) as [skip E5].
  set (setup := DiskS3.ConfigGetBool (String.append config_prefix ".skip_access_check") false
                  :: h3).
  destruct (Hr (DiskS3.ReadFile "test_acl" :: DiskS3.Write "test"
                  :: DiskS3.WriteFile "test_acl" :: setup) 4%nat) as [read_back E6].
  exists endpoint, u, send, skip, pool, read_back.
  change (DiskS3.setup_calls name config_prefix endpoint u send pool ++ h) with setup.
  cbv zeta.
  split; [exact E1 |]. split; [exact E2 |]. split; [exact E5 |]. split; [exact E6 |].
  intros Hslash.
  assert (Hne : DiskS3.is_empty (DiskS3.key u) = false).
  { destruct (DiskS3.key u); [discriminate Hslash | reflexivity]. }
  unfold DiskS3.creator.
  unfold DiskS3.bind at 1. unfold DiskS3.ask at 1. rewrite E1.
  unfold DiskS3.bind at 1. unfold DiskS3.ask at 1. rewrite E2.
  rewrite Hne, Hslash. cbn [negb].
  unfold DiskS3.bind at 1. unfold DiskS3.perform at 1, DiskS3.ask at 1. rewrite He.
  unfold DiskS3.bind at 1. unfold DiskS3.perform at 1, DiskS3.ask at 1. rewrite He.
  fold h2.
  unfold DiskS3.bind at 1. unfold DiskS3.ask at 1. rewrite E3.
  unfold DiskS3.bind at 1. unfold DiskS3.ask at 1. rewrite E4.
  unfold DiskS3.bind at 1. unfold DiskS3.perform at 1, DiskS3.ask at 1. rewrite He.
  fold h3.
  unfold DiskS3.bind at 1. unfold DiskS3.ask at 1. rewrite E5.
  fold setup.
  unfold DiskS3.bind at 1.
  destruct skip; cbn [negb].
  - unfold DiskS3.ret at 1.
    unfold DiskS3.bind at 1. unfold DiskS3.perform at 1, DiskS3.ask at 1. rewrite He.
    reflexivity.
  - unfold DiskS3.checkWriteAccess, DiskS3.checkReadAccess, DiskS3.checkRemoveAccess.
    unfold DiskS3.bind at 1. unfold DiskS3.bind at 1.
    unfold DiskS3.perform at 1, DiskS3.ask at 1. rewrite He.
    unfold DiskS3.try_catch_all. unfold DiskS3.perform at 1, DiskS3.ask at 1. rewrite He.
    unfold DiskS3.bind at 1. unfold DiskS3.bind at 1.
    unfold DiskS3.perform at 1, DiskS3.ask at 1. rewrite He.
    unfold DiskS3.bind at 1. unfold DiskS3.ask at 1. rewrite E6.
    destruct (String.eqb read_back "test"); cbn [negb].
    + unfold DiskS3.ret at 1.
      unfold DiskS3.perform at 1, DiskS3.ask at 1. rewrite He.
      unfold DiskS3.bind at 1. unfold DiskS3.perform at 1, DiskS3.ask at 1. rewrite He.
      reflexivity.
    + reflexivity.
Qed.

Lemma creator_access_check_witness :
  DiskS3.every_call_returns
    (DiskS3.obliging (DiskS3.mkURI "https://bucket.example/root/" "root/" "bucket" "")
       false false "nope")
  /\ DiskS3.creator
       (DiskS3.obliging (DiskS3.mkURI "https://bucket.example/root/" "root/" "bucket" "")
          false false "nope")
       "s3disk" "disk" []
     = (inl (DiskS3.Exception DiskS3.PATH_ACCESS_DENIED
               "No read access to S3 bucket in disk s3disk"),
        DiskS3.ReadStrict 4 :: DiskS3.ReadFile "test_acl" :: DiskS3.Write "test"
          :: DiskS3.WriteFile "test_acl"
          :: DiskS3.setup_calls "s3disk" "disk" "https://bucket.example/root/"
               (DiskS3.mkURI "https://bucket.example/root/" "root/" "bucket" "") false 16).
Proof.
  assert (Hret : DiskS3.every_call_returns
                   (DiskS3.obliging
                      (DiskS3.mkURI "https://bucket.example/root/" "root/" "bucket" "")
                      false false "nope")).
  { repeat split; intros; eexists; reflexivity. }
  split; [exact Hret |].
  destruct (creator_access_check
              (DiskS3.obliging
                 (DiskS3.mkURI "https://bucket.example/root/" "root/" "bucket" "")
                 false false "nope")
              "s3disk" "disk" [] Hret)
    as (endpoint & u & send & skip & pool & read_back & E1 & E2 & E5 & E6 & Hrun).
  cbv zeta in *.
  inversion E1; subst endpoint. inversion E2; subst u.
  inversion E5; subst skip. inversion E6; subst read_back.
  reflexivity.
Defined.
